(** * CellMate: a shallow embedding of [MM_flow_analyzer.py]

    The development follows the source file top to bottom: the [Channel]
    class (page extraction, metadata resolution, frame materialisation,
    temporal median filter, frame-interval sanity check), then the
    [FarenbackAnalyzer] class (scale factor, flow-to-speed conversion,
    histogram, the two writers) and the reconciliation step of
    [analyzeFiles].  The two in-place reshapes, [doFarenbackFlow] (over an
    arbitrary OpenCV flow primitive) and [normalization_to_8bit] follow
    the sample inputs.  The drawing methods and the file handling of
    [analyzeFiles] are OpenCV and tifffile calls and are not modelled.

    Numeric conventions.  Python integers are [Z].  Scalars read from the
    acquisition metadata (pixel size, intervals, elapsed times) and pixel
    intensities are exact rationals [Q]; the contents of flow and speed
    arrays, which go through [np.sqrt], are real numbers [R], and the
    rounding of their floating-point arithmetic is not modelled.  For
    pixel data the conversions between number formats are: the cast of a
    page to the dtype of the stack in [getArray], and the rounding of a
    median to float32 when it is stored in the median array.  A NumPy
    float divided by zero is an infinity, as in NumPy. *)

From Stdlib Require Import String Ascii.
From Stdlib Require Import Bool Arith ZArith QArith Qround Qabs Qpower Reals Qreals.
From Stdlib Require Import Lra Lia Psatz.
From Stdlib Require Import List.
Import ListNotations.

Set Implicit Arguments.

Close Scope R_scope.
Close Scope Q_scope.
Open Scope string_scope.
Open Scope list_scope.
Open Scope nat_scope.

(** ** Python outcomes: a value or a raised exception *)

Inductive exn : Type :=
| IndexError
| KeyError (key : string)
| ValueError (msg : string)
| TypeError (msg : string)
| NameError (name : string)
| AttributeError (msg : string)
| ZeroDivisionError
| UnboundLocalError (name : string)
| AxisError
| Exception (msg : string).

Inductive result (A : Type) : Type :=
| OK (a : A)
| Raise (e : exn).

Arguments OK {A} a.
Arguments Raise {A} e.

(** A call "fails" when it raises, whatever the exception. *)
Definition fails {A} (r : result A) : Prop := exists e, r = Raise e.

Definition rbind {A B} (r : result A) (k : A -> result B) : result B :=
  match r with
  | OK a => k a
  | Raise e => Raise e
  end.

(** Methods mutate [self]; an exception leaves the mutations done so far.
    [M S A] is a computation over a state [S] that returns an [A] or raises. *)
Definition M (S A : Type) : Type := S -> result A * S.

Definition ret {S A} (a : A) : M S A := fun s => (OK a, s).
Definition raise {S A} (e : exn) : M S A := fun s => (Raise e, s).
Definition bind {S A B} (m : M S A) (k : A -> M S B) : M S B :=
  fun s => match m s with
           | (OK a, s') => k a s'
           | (Raise e, s') => (Raise e, s')
           end.
Definition gets {S A} (f : S -> A) : M S A := fun s => (OK (f s), s).
Definition modify {S} (f : S -> S) : M S unit := fun s => (OK tt, f s).
Definition lift {S A} (r : result A) : M S A := fun s => (r, s).

Declare Scope py_scope.
Delimit Scope py_scope with py.
Notation "x <- m ;; k" := (bind m (fun x => k))
  (at level 61, m at next level, right associativity) : py_scope.
Notation "m ;;; k" := (bind m (fun _ => k))
  (at level 61, right associativity) : py_scope.

(** [from_key o k]: subscripting a dict with a key that may be missing. *)
Definition from_key {A} (o : option A) (k : string) : result A :=
  match o with
  | Some a => OK a
  | None => Raise (KeyError k)
  end.

(** [l[i]] on a Python list, for a non-negative index. *)
Definition py_getitem {A} (l : list A) (i : nat) : result A :=
  match nth_error l i with
  | Some a => OK a
  | None => Raise IndexError
  end.

(** [range(a, b)] *)
Definition py_range (a b : Z) : list Z :=
  map (fun i => (a + Z.of_nat i)%Z) (seq 0 (Z.to_nat (b - a))).

(** ** NumPy arrays: a shape and the elements in row-major order *)

Inductive np_dtype : Type := uint8 | uint16 | int32 | float32 | float64.

Record ndarray (A : Type) : Type := mk_ndarray {
  dtype : np_dtype;
  shape : list nat;
  data : list A
}.

Section NDArray.
Variable A : Type.
Variable dflt : A.

Fixpoint size (sh : list nat) : nat :=
  match sh with
  | [] => 1
  | s :: r => s * size r
  end.

(** Position of the element at multi-index [idx] in the flat data. *)
Fixpoint offset (sh idx : list nat) : nat :=
  match sh, idx with
  | s :: r, i :: j => i * size r + offset r j
  | _, _ => 0
  end.

Fixpoint in_bounds (sh idx : list nat) : bool :=
  match sh, idx with
  | [], [] => true
  | s :: r, i :: j => (i <? s) && in_bounds r j
  | _, _ => false
  end.

(** All multi-indices of a shape, in row-major order. *)
Fixpoint all_indices (sh : list nat) : list (list nat) :=
  match sh with
  | [] => [[]]
  | s :: r => flat_map (fun i => map (cons i) (all_indices r)) (seq 0 s)
  end.

Definition item (a : ndarray A) (idx : list nat) : A :=
  nth (offset (shape a) idx) (data a) dflt.

(** The array of the given shape whose element at [j] is [f j]. *)
Definition tabulate (dt : np_dtype) (sh : list nat) (f : list nat -> A)
  : ndarray A :=
  mk_ndarray dt sh (map f (all_indices sh)).

(** [np.empty(sh, dt)] / [np.ndarray(sh, dt)]: the cells hold whatever
    was in memory, here a filler value chosen by the caller. *)
Definition np_empty (dt : np_dtype) (sh : list nat) (garbage : A)
  : ndarray A :=
  mk_ndarray dt sh (repeat garbage (size sh)).

(** Normalisation of one bound of a slice [a[lo:hi]] on an axis of
    length [n]: negative bounds count from the end, then clamp. *)
Definition py_slice_bound (n : nat) (i : Z) : nat :=
  if (i <? 0)%Z then Z.to_nat (Z.max 0 (i + Z.of_nat n))
  else Nat.min (Z.to_nat i) n.

(** [a[lo:hi]] along the first axis (arrays with at least one axis). *)
Definition slice0 (a : ndarray A) (lo hi : Z) : ndarray A :=
  match shape a with
  | [] => a
  | n :: r =>
      let l := py_slice_bound n lo in
      let h := py_slice_bound n hi in
      mk_ndarray (dtype a) ((h - l) :: r)
        (firstn ((h - l) * size r) (skipn (l * size r) (data a)))
  end.

(** [a[i]] along the first axis, [0 <= i]. *)
Definition getitem0 (a : ndarray A) (i : nat) : result (ndarray A) :=
  match shape a with
  | [] => Raise IndexError
  | n :: r =>
      if i <? n
      then OK (mk_ndarray (dtype a) r
                 (firstn (size r) (skipn (i * size r) (data a))))
      else Raise IndexError
  end.

(** Broadcasting of a source of shape [src] to the shape [dst]: leading
    unit axes of a longer source are dropped, then the shapes are aligned
    on the right and every source axis is [1] or equal. *)
Fixpoint strip_ones (k : nat) (sh : list nat) : list nat :=
  match k, sh with
  | S k', 1 :: r => strip_ones k' r
  | _, _ => sh
  end.

Fixpoint bcast_ok (src dst : list nat) : bool :=
  match src, dst with
  | [], [] => true
  | s :: r, d :: r' => ((s =? d) || (s =? 1)) && bcast_ok r r'
  | _, _ => false
  end.

Fixpoint bcast_index (src idx : list nat) : list nat :=
  match src, idx with
  | s :: r, i :: j => (if s =? 1 then 0 else i) :: bcast_index r j
  | _, _ => []
  end.

Definition broadcast_to (v : ndarray A) (dst : list nat) : option (list A) :=
  if list_eq_dec Nat.eq_dec (shape v) dst then Some (data v)
  else
    let src := strip_ones (length (shape v) - length dst) (shape v) in
    let pad := length dst - length src in
    if bcast_ok src (skipn pad dst)
    then Some (map (fun j => nth (offset src (bcast_index src (skipn pad j)))
                               (data v) dflt)
                 (all_indices dst))
    else None.

(** [a[i] = v] along the first axis. *)
Definition setitem0 (a : ndarray A) (i : nat) (v : ndarray A)
  : result (ndarray A) :=
  match shape a with
  | [] => Raise IndexError
  | n :: r =>
      if i <? n then
        match broadcast_to v r with
        | Some vd =>
            OK (mk_ndarray (dtype a) (n :: r)
                  (firstn (i * size r) (data a) ++ vd
                     ++ skipn ((i + 1) * size r) (data a)))
        | None => Raise (ValueError "could not broadcast input array")
        end
      else Raise IndexError
  end.

(** [a.shape = sh]: same buffer, new shape of the same size. *)
Definition set_shape (a : ndarray A) (sh : list nat) : result (ndarray A) :=
  if size sh =? size (shape a)
  then OK (mk_ndarray (dtype a) sh (data a))
  else Raise (ValueError "cannot reshape array").

(** Truth value of [a != None] for an array [a] of [sz] elements: the
    comparison is elementwise, and only arrays of at most one element
    have a truth value. *)
Definition ne_None_truth (sz : nat) : result bool :=
  match sz with
  | 0 => OK false
  | 1 => OK true
  | _ => Raise (ValueError "truth value of an array is ambiguous")
  end.

Definition elementwise {B} (a : ndarray A) (f : A -> B) : ndarray B :=
  mk_ndarray (dtype a) (shape a) (map f (data a)).
End NDArray.

Arguments item {A} dflt a idx.
Arguments np_empty {A} dt sh garbage.
Arguments tabulate {A} dt sh f.
Arguments slice0 {A} a lo hi.
Arguments getitem0 {A} a i.
Arguments setitem0 {A} dflt a i v.
Arguments broadcast_to {A} dflt v dst.
Arguments set_shape {A} a sh.
Arguments elementwise {A B} a f.

(** ** Arrays of real numbers: the NumPy operations of the speed converter *)

Definition sum_R (l : list R) : R := fold_right Rplus 0%R l.

Fixpoint remove_nth {A} (k : nat) (l : list A) : list A :=
  match l, k with
  | [], _ => []
  | _ :: r, 0 => r
  | x :: r, S k' => x :: remove_nth k' r
  end.

Fixpoint insert_nth {A} (k : nat) (x : A) (l : list A) : list A :=
  match k, l with
  | 0, _ => x :: l
  | S k', y :: r => y :: insert_nth k' x r
  | S k', [] => [x]
  end.

(** [a.sum(axis=k)] *)
Definition np_sum (axis : nat) (a : ndarray R) : result (ndarray R) :=
  if axis <? length (shape a) then
    OK (tabulate (dtype a) (remove_nth axis (shape a))
          (fun j => sum_R (map (fun c => item 0%R a (insert_nth axis c j))
                             (seq 0 (nth axis (shape a) 0)))))
  else Raise AxisError.

(** [np.square(a)], [np.sqrt(a)], [a * s] *)
Definition np_square (a : ndarray R) : ndarray R :=
  elementwise a (fun x => x * x)%R.
Definition np_sqrt (a : ndarray R) : ndarray R := elementwise a sqrt.
Definition np_scale (a : ndarray R) (s : R) : ndarray R :=
  elementwise a (fun x => x * s)%R.

(** [a.max()] over all elements *)
Definition np_max (a : ndarray R) : result R :=
  match data a with
  | [] => Raise (ValueError "zero-size array to reduction operation maximum")
  | x :: r => OK (fold_left Rmax r x)
  end.

(** [a.mean(axis=(p, q))] and [np.average(a, axis=(p, q))], for [p < q] *)
Definition np_mean2 (p q : nat) (a : ndarray R) : result (ndarray R) :=
  rbind (np_sum q a) (fun s1 =>
  rbind (np_sum p s1) (fun s2 =>
  OK (elementwise s2
        (fun x => x / INR (nth p (shape a) 0 * nth q (shape a) 0)%nat)%R))).

(** [np.linspace(lo, hi, num)] *)
Definition np_linspace (lo hi : R) (num : nat) : list R :=
  map (fun i => lo + INR i * ((hi - lo) / INR (num - 1)%nat))%R (seq 0 num).

Definition Rleb (x y : R) : bool := if Rle_dec x y then true else false.
Definition Rltb (x y : R) : bool := if Rlt_dec x y then true else false.

(** The bucket edges [np.histogram] uses for [bins] buckets over [range]:
    they depend on the two arguments only, never on the data. *)
Definition np_histogram_bin_edges (bins : nat) (range : R * R) : list R :=
  let (lo, hi) := range in
  let (lo', hi') :=
    if Req_dec_T lo hi then ((lo - 1 / 2)%R, (hi + 1 / 2)%R) else (lo, hi) in
  np_linspace lo' hi' (bins + 1).

(** [np.histogram(a, bins=bins, range=range, density=True)]: the densities
    and the bucket edges.  Buckets are half-open, the last one closed. *)
Definition np_histogram (a : ndarray R) (bins : Z) (range : R * R)
  : result (ndarray R * ndarray R) :=
  if (bins <? 1)%Z then Raise (ValueError "`bins` must be positive")
  else if Rltb (snd range) (fst range)
  then Raise (ValueError "max must be larger than min in range parameter")
  else
    let nb := Z.to_nat bins in
    let edges := np_histogram_bin_edges nb range in
    let in_bucket (j : nat) (x : R) : bool :=
      Rleb (nth j edges 0%R) x
      && (Rltb x (nth (S j) edges 0%R)
          || ((S j =? nb) && Rleb x (nth (S j) edges 0%R))) in
    let count (j : nat) : nat := length (filter (in_bucket j) (data a)) in
    let total := fold_right Nat.add 0 (map count (seq 0 nb)) in
    let density (j : nat) : R :=
      (INR (count j) / (nth (S j) edges 0 - nth j edges 0) / INR total)%R in
    OK (mk_ndarray float64 [nb] (map density (seq 0 nb)),
        mk_ndarray float64 [nb + 1] edges).

(** ** Medians of rational samples *)

(** A floating-point value: a number, an infinity, or NaN. *)
Inductive fval : Type :=
| Num (q : Q)
| Inf (negative : bool)
| NaN.

Fixpoint insert_sorted (x : Q) (l : list Q) : list Q :=
  match l with
  | [] => [x]
  | y :: r => if Qle_bool x y then x :: l else y :: insert_sorted x r
  end.

Definition sort_Q (l : list Q) : list Q := fold_right insert_sorted [] l.

(** [np.median] of a one-dimensional sample: NaN for an empty sample, the
    middle element of the sorted sample for an odd length, the mean of the
    two middle elements for an even length. *)
Definition median1 (l : list Q) : fval :=
  let s := sort_Q l in
  let n := length l in
  match n with
  | 0 => NaN
  | _ =>
      if Nat.even n
      then Num ((nth (n / 2 - 1) s 0%Q + nth (n / 2) s 0%Q) / 2)%Q
      else Num (nth (n / 2) s 0%Q)
  end.

(** [np.median(a, axis=0)]: the median across the first axis, taken
    independently at every position of the remaining axes. *)
Definition np_median_axis0 (a : ndarray Q) : ndarray fval :=
  match shape a with
  | [] => mk_ndarray float64 [] [median1 (data a)]
  | n :: r =>
      tabulate float64 r
        (fun j => median1 (map (fun f => item 0%Q a (f :: j)) (seq 0 n)))
  end.

(** [np.mean] of a one-dimensional array of scalars (for an empty array
    NumPy yields nan; a Channel built by [__init__] has one elapsed time
    per page, so the interval array of a Channel with two or more pages
    is never empty). *)
Definition np_mean (l : list Q) : Q :=
  (fold_right Qplus 0 l / inject_Z (Z.of_nat (length l)))%Q.

(** Python's [round(x, 2)]: nearest hundredth, ties to even. *)
Definition round_half_even (q : Q) : Z :=
  let f := Qfloor q in
  let r := (q - inject_Z f)%Q in
  match (r ?= 1 # 2)%Q with
  | Lt => f
  | Gt => (f + 1)%Z
  | Eq => if Z.even f then f else (f + 1)%Z
  end.

Definition py_round2 (q : Q) : Q :=
  (inject_Z (round_half_even (q * 100)) / 100)%Q.

Definition Qlt_bool (x y : Q) : bool := negb (Qle_bool y x).

(** [int(x)] on a float: truncation towards zero. *)
Definition py_int (q : Q) : Z := Z.quot (Qnum q) (Z.pos (Qden q)).

(** ** Binary floating point

    Rounding to the nearest value of a binary format with [prec]
    significand bits, whose unit in the last place is never below
    2^[emin] and whose values are below 2^[emax] in magnitude; ties go to
    the even significand, and what rounds to 2^[emax] or beyond becomes an
    infinity. *)

(** The exponent of the leading bit of a positive number [q]:
    2^[Qilog2 q] <= q < 2^([Qilog2 q] + 1). *)
Definition Qilog2 (q : Q) : Z :=
  let e0 := (Z.log2 (Qnum q) - Z.log2 (Z.pos (Qden q)))%Z in
  if Qle_bool (2 ^ e0) q then e0 else (e0 - 1)%Z.

(** The exponent of the unit in the last place at [q]. *)
Definition ulp_exp (prec emin : Z) (q : Q) : Z :=
  Z.max (Qilog2 (Qabs q) - (prec - 1)) emin.

Definition round_to_grid (prec emin : Z) (q : Q) : Q :=
  if Qeq_bool q 0 then 0%Q
  else
    let e := ulp_exp prec emin q in
    (inject_Z (round_half_even (q / 2 ^ e)) * 2 ^ e)%Q.

Definition round_binary (prec emin emax : Z) (q : Q) : fval :=
  let r := round_to_grid prec emin q in
  if Qle_bool (2 ^ emax) (Qabs r) then Inf (Qlt_bool q 0)
  else Num (Qred r).

Definition to_float32 : Q -> fval := round_binary 24 (-149) 128.
Definition to_float64 : Q -> fval := round_binary 53 (-1074) 1024.

(** [q] is a value of the float32 format. *)
Definition float32_exact (q : Q) : Prop :=
  exists r, to_float32 q = Num r /\ (r == q)%Q.

(** [v.astype(np.float32)] on one cell. *)
Definition astype_float32 (v : fval) : fval :=
  match v with
  | Num q => to_float32 q
  | _ => v
  end.

(** ** Casts between the dtypes of pixel arrays

    [out[i] = a] converts [a] to the dtype of [out] when the two differ:
    to an integer type by truncation and wrap-around, to a float type by
    rounding.  Cells of a pixel array are numbers: a value beyond the
    range of the float type, which NumPy turns into an infinity, is
    outside this model and is left as it is. *)
Definition np_dtype_eqb (a b : np_dtype) : bool :=
  match a, b with
  | uint8, uint8 | uint16, uint16 | int32, int32
  | float32, float32 | float64, float64 => true
  | _, _ => false
  end.

Definition wrap_unsigned (bits : Z) (z : Z) : Z := (z mod 2 ^ bits)%Z.
Definition wrap_signed (bits : Z) (z : Z) : Z :=
  ((z + 2 ^ (bits - 1)) mod 2 ^ bits - 2 ^ (bits - 1))%Z.

Definition np_cast (dst : np_dtype) (q : Q) : Q :=
  match dst with
  | uint8 => inject_Z (wrap_unsigned 8 (py_int q))
  | uint16 => inject_Z (wrap_unsigned 16 (py_int q))
  | int32 => inject_Z (wrap_signed 32 (py_int q))
  | float32 => match to_float32 q with Num r => r | _ => q end
  | float64 => match to_float64 q with Num r => r | _ => q end
  end.

(** The array assigned by [out[i] = a] for [out] of dtype [dst]. *)
Definition np_astype (dst : np_dtype) (a : ndarray Q) : ndarray Q :=
  if np_dtype_eqb (dtype a) dst then a
  else mk_ndarray dst (shape a) (map (np_cast dst) (data a)).

(** ** NumPy float scalars in the scale factor

    [round(x, 2)] of a NumPy float is a NumPy float, and dividing by a
    NumPy zero gives an infinity with a warning instead of raising.  The
    sign of that zero is the sign of the number that was rounded. *)

(** [60 / finterval_s] where [finterval_s = round(finterval_ms / 1000, 2)]
    and [finterval_ms] is a NumPy float. *)
Definition np_div_60 (finterval_ms finterval_s : Q) : fval :=
  if Qeq_bool finterval_s 0 then Inf (Qlt_bool finterval_ms 0)
  else Num (60 / finterval_s)%Q.

(** [round(x, 2)] on a NumPy float *)
Definition np_round2 (x : fval) : fval :=
  match x with
  | Num q => Num (py_round2 q)
  | _ => x
  end.

(** [x * y] for a Python number [x] and a NumPy float [y] *)
Definition np_mul (x : Q) (y : fval) : fval :=
  match y with
  | Num q => Num (x * q)%Q
  | Inf neg => if Qeq_bool x 0 then NaN else Inf (xorb neg (Qlt_bool x 0))
  | NaN => NaN
  end.

(** [not v] for [v] that is [None] or a boolean *)
Definition py_not (v : option bool) : bool :=
  match v with
  | None => true
  | Some b => negb b
  end.

(** ** Regular expressions of the version test *)

Fixpoint contains (p s : string) : bool :=
  String.prefix p s
  || match s with
     | EmptyString => false
     | String _ s' => contains p s'
     end.

(** [\d] on the ASCII digits (version strings are ASCII). *)
Definition is_digit (c : ascii) : bool :=
  (48 <=? nat_of_ascii c) && (nat_of_ascii c <=? 57).

(** One match of ["1\.4\.[\d]"] at the start of [s]. *)
Definition one4_here (s : string) : bool :=
  match s with
  | String "1" (String "." (String "4" (String "." (String d _)))) =>
      is_digit d
  | _ => false
  end.

Fixpoint one4_search (s : string) : bool :=
  one4_here s
  || match s with
     | EmptyString => false
     | String _ s' => one4_search s'
     end.

Definition beta_search : string -> bool := contains "beta".
Definition gamma_search : string -> bool := contains "gamma".

(** ** The image container (what [tifffile] hands to the program) *)

Record TiffPage : Type := {
  page_array : ndarray Q;              (* page.asarray() *)
  ElapsedTime_ms : option Q            (* MicroManagerMetadata["ElapsedTime-ms"] *)
}.

Record SummaryMetadata : Type := {
  MicroManagerVersion : option string;
  WaitInterval : option Q;
  Interval_ms : option Q;
  Width : option nat;
  Height : option nat
}.

Record IndexMapMetadata : Type := {
  IndexMap_Slice : list Z;
  IndexMap_Channel : list Z
}.

Record mm_metadata : Type := {
  Summary : SummaryMetadata;
  IndexMap : IndexMapMetadata;
  PixelSize_um : option Q;
  PixelSizeUm : option Q
}.

Record TiffFile : Type := {
  tif_pages : list TiffPage;
  micromanager_metadata : mm_metadata
}.

(** ** class Channel *)

Record Channel : Type := mk_Channel {
  chIndex : Z;
  sliceIdx : Z;
  tif : TiffFile;
  name : string;
  tif_mm_metadata : mm_metadata;
  pxSize_um : Q;
  finterval_ms : Q;
  elapsedTimes_ms : list Q;
  pages : list TiffPage;
  array : option (ndarray Q);
  actualFrameIntervals_ms : option (list Q);
  medianArray : option (ndarray fval);
  frameSamplingInterval : option Z;
  channel_scaler : option fval         (* the attribute [scaler], set from outside *)
}.

Definition set_elapsedTimes_ms (v : list Q) (c : Channel) : Channel :=
  mk_Channel (chIndex c) (sliceIdx c) (tif c) (name c) (tif_mm_metadata c)
    (pxSize_um c) (finterval_ms c) v (pages c) (array c)
    (actualFrameIntervals_ms c) (medianArray c) (frameSamplingInterval c)
    (channel_scaler c).

Definition set_pages (v : list TiffPage) (c : Channel) : Channel :=
  mk_Channel (chIndex c) (sliceIdx c) (tif c) (name c) (tif_mm_metadata c)
    (pxSize_um c) (finterval_ms c) (elapsedTimes_ms c) v (array c)
    (actualFrameIntervals_ms c) (medianArray c) (frameSamplingInterval c)
    (channel_scaler c).

Definition set_finterval_ms (v : Q) (c : Channel) : Channel :=
  mk_Channel (chIndex c) (sliceIdx c) (tif c) (name c) (tif_mm_metadata c)
    (pxSize_um c) v (elapsedTimes_ms c) (pages c) (array c)
    (actualFrameIntervals_ms c) (medianArray c) (frameSamplingInterval c)
    (channel_scaler c).

Definition set_medianArray (v : option (ndarray fval)) (c : Channel)
  : Channel :=
  mk_Channel (chIndex c) (sliceIdx c) (tif c) (name c) (tif_mm_metadata c)
    (pxSize_um c) (finterval_ms c) (elapsedTimes_ms c) (pages c) (array c)
    (actualFrameIntervals_ms c) v (frameSamplingInterval c)
    (channel_scaler c).

Definition set_frameSamplingInterval (v : option Z) (c : Channel) : Channel :=
  mk_Channel (chIndex c) (sliceIdx c) (tif c) (name c) (tif_mm_metadata c)
    (pxSize_um c) (finterval_ms c) (elapsedTimes_ms c) (pages c) (array c)
    (actualFrameIntervals_ms c) (medianArray c) v (channel_scaler c).

Definition set_channel_scaler (v : option fval) (c : Channel) : Channel :=
  mk_Channel (chIndex c) (sliceIdx c) (tif c) (name c) (tif_mm_metadata c)
    (pxSize_um c) (finterval_ms c) (elapsedTimes_ms c) (pages c) (array c)
    (actualFrameIntervals_ms c) (medianArray c) (frameSamplingInterval c) v.

Open Scope py_scope.

(** [Channel._read_px_size_and_finteval].  The three tests are tried in the
    order beta, 1.4.d, gamma; when none matches the body ends without a
    [return], and the call evaluates to [None]. *)
Definition _read_px_size_and_finteval (md : mm_metadata)
  : result (option (Q * Q)) :=
  rbind (from_key (MicroManagerVersion (Summary md)) "MicroManagerVersion")
    (fun version =>
  if beta_search version then
    rbind (from_key (WaitInterval (Summary md)) "WaitInterval")
      (fun finterval_ms =>
    rbind (from_key (PixelSize_um md) "PixelSize_um") (fun px_size_um =>
    OK (Some (px_size_um, finterval_ms))))
  else if one4_search version then
    rbind (from_key (Interval_ms (Summary md)) "Interval_ms")
      (fun finterval_ms =>
    rbind (from_key (PixelSizeUm md) "PixelSizeUm") (fun px_size_um =>
    OK (Some (px_size_um, finterval_ms))))
  else if gamma_search version then
    rbind (from_key (Interval_ms (Summary md)) "Interval_ms")
      (fun finterval_ms =>
    rbind (from_key (PixelSizeUm md) "PixelSizeUm") (fun px_size_um =>
    OK (Some (px_size_um, finterval_ms))))
  else OK None).

(** [Channel._page_extractor]: the loop over [range(len(self.tif.pages))],
    with [out] the local list and [self.elapsedTimes_ms] appended to in
    place.  The [and] does not look at the channel map when the slice
    differs. *)
Fixpoint _page_extractor_loop (idxs : list nat) (out : list TiffPage)
  : M Channel (list TiffPage) :=
  match idxs with
  | [] => ret out
  | i :: rest =>
      self <- gets (fun c => c) ;;
      s <- lift (py_getitem (IndexMap_Slice (IndexMap (tif_mm_metadata self))) i) ;;
      if (s =? sliceIdx self)%Z then
        c <- lift (py_getitem
                     (IndexMap_Channel (IndexMap (tif_mm_metadata self))) i) ;;
        if (c =? chIndex self)%Z then
          page <- lift (py_getitem (tif_pages (tif self)) i) ;;
          t <- lift (from_key (ElapsedTime_ms page) "ElapsedTime-ms") ;;
          modify (fun c => set_elapsedTimes_ms (elapsedTimes_ms c ++ [t]) c) ;;;
          _page_extractor_loop rest (out ++ [page])
        else _page_extractor_loop rest out
      else _page_extractor_loop rest out
  end.

Definition _page_extractor : M Channel (list TiffPage) :=
  self <- gets (fun c => c) ;;
  _page_extractor_loop (seq 0 (length (tif_pages (tif self)))) [].

(** [Channel.__init__(chIndex, tiffFile, name, sliceIndex=0)].  Unpacking
    the pair fails with a TypeError when the resolver returned [None]. *)
Definition Channel_init (chIndex : Z) (tiffFile : TiffFile) (name : string)
  (sliceIndex : Z) : result Channel :=
  rbind (_read_px_size_and_finteval (micromanager_metadata tiffFile))
    (fun r =>
  match r with
  | None => Raise (TypeError "cannot unpack non-iterable NoneType object")
  | Some (px, fi) =>
      let self :=
        mk_Channel chIndex sliceIndex tiffFile name
          (micromanager_metadata tiffFile) px fi [] [] None None None None
          None in
      match _page_extractor self with
      | (OK out, self') => OK (set_pages out self')
      | (Raise e, _) => Raise e
      end
  end).

Definition getPages (self : Channel) : list TiffPage := pages self.
Definition getElapsedTimes_ms (self : Channel) : list Q :=
  elapsedTimes_ms self.

(** Decoding a page is an effect on the container; the second component
    of the state counts the decodes performed so far. *)
Definition asarray (p : TiffPage) : M (Channel * nat) (ndarray Q) :=
  fun s => (OK (page_array p), (fst s, S (snd s))).

Fixpoint getArray_loop (idxs : list nat) (out : ndarray Q)
  : M (Channel * nat) (ndarray Q) :=
  match idxs with
  | [] => ret out
  | i :: rest =>
      self <- gets fst ;;
      p <- lift (py_getitem (pages self) i) ;;
      a <- asarray p ;;
      out' <- lift (setitem0 0%Q out i (np_astype (dtype out) a)) ;;
      getArray_loop rest out'
  end.

(** [Channel.getArray].  No statement of the method assigns [self.array].
    The stack has the dtype of the first page, and every page is cast to
    it on assignment. *)
Definition getArray_compute (garbage : Q) : M (Channel * nat) (ndarray Q) :=
  self <- gets fst ;;
  w <- lift (from_key (Width (Summary (tif_mm_metadata self))) "Width") ;;
  h <- lift (from_key (Height (Summary (tif_mm_metadata self))) "Height") ;;
  let outshape := [length (pages self); w; h] in
  p0 <- lift (py_getitem (pages self) 0) ;;
  a0 <- asarray p0 ;;
  let outType := dtype a0 in
  let out := np_empty outType outshape garbage in
  getArray_loop (seq 0 (length (pages self))) out.

Definition getArray (garbage : Q) : M (Channel * nat) (ndarray Q) :=
  self <- gets fst ;;
  match array self with
  | None => getArray_compute garbage
  | Some a =>
      t <- lift (ne_None_truth (size (shape a))) ;;
      if t then ret a else getArray_compute garbage
  end.

(** The test at the head of [getTemporalMedianFilterArray], with its
    [except ValueError] arm: the stored array when one is returned. *)
Definition median_cache_hit (self : Channel) (recalculate : bool)
  : option (ndarray fval) :=
  match medianArray self with
  | None => None
  | Some m =>
      match ne_None_truth (size (shape m)) with
      | OK t => if t && negb recalculate then Some m else None
      | Raise _ => if negb recalculate then Some m else None
      end
  end.

(** [np.median(a, axis=0, out=fr)] for the float32 frame [fr]: the
    medians are stored into [fr], which rounds them to float32, and [fr]
    is the value of the call.  (NumPy takes the median of integer pixels
    in float64, where it is exact.) *)
Definition np_median_axis0_out32 (a : ndarray Q) : ndarray fval :=
  let m := np_median_axis0 a in
  mk_ndarray float32 (shape m) (map astype_float32 (data m)).

Fixpoint median_loop (arr : ndarray Q) (frameSamplingInterval : Z)
  (rng : list Z) (med : ndarray fval) (outframe : nat)
  : M (Channel * nat) (ndarray fval) :=
  match rng with
  | [] => ret med
  | inframe :: rest =>
      med' <- lift (setitem0 NaN med outframe
                      (np_median_axis0_out32
                         (slice0 arr inframe
                            (inframe + frameSamplingInterval)%Z))) ;;
      modify (fun s => (set_medianArray (Some med') (fst s), snd s)) ;;;
      median_loop arr frameSamplingInterval rest med' (S outframe)
  end.

(** The two messages of the validation of [getTemporalMedianFilterArray];
    both are ValueErrors.  The specification calls them InvalidRange and
    WindowTooLarge. *)
Definition InvalidRange : exn :=
  ValueError "StartFrame cannot be larger than Stopframe!".
Definition WindowTooLarge : exn :=
  ValueError "Not enough frames selected to do median projection! ".

(** The value of [stopFrame] after the first [if]: the number of pages
    when it is [None] or larger than that number. *)
Definition effective_stop (self : Channel) (stopFrame : option Z) : Z :=
  let n := Z.of_nat (length (pages self)) in
  match stopFrame with
  | None => n
  | Some s => if (s >? n)%Z then n else s
  end.

(** The part of [getTemporalMedianFilterArray] after the validation. *)
Definition median_compute (garbageQ : Q) (garbageF : fval)
  (startFrame stopFrame frameSamplingInterval : Z)
  : M (Channel * nat) (ndarray fval) :=
  modify (fun s => (set_frameSamplingInterval
                      (Some frameSamplingInterval) (fst s), snd s)) ;;;
  arr <- getArray garbageQ ;;
  let nr_outframes :=
    ((stopFrame - startFrame) - (frameSamplingInterval - 1))%Z in
  match shape arr with
  | _ :: s1 :: s2 :: _ =>
      if (nr_outframes <? 0)%Z then
        raise (ValueError "negative dimensions are not allowed")
      else
        let med :=
          np_empty float32 [Z.to_nat nr_outframes; s1; s2] garbageF in
        modify (fun s => (set_medianArray (Some med) (fst s), snd s)) ;;;
        median_loop arr frameSamplingInterval
          (py_range startFrame (stopFrame - frameSamplingInterval + 1)%Z)
          med 0
  | _ => raise IndexError
  end.

(** [Channel.getTemporalMedianFilterArray(startFrame, stopFrame,
    frameSamplingInterval, recalculate)]; [stopFrame = None] is [None]. *)
Definition getTemporalMedianFilterArray (garbageQ : Q) (garbageF : fval)
  (startFrame : Z) (stopFrame : option Z) (frameSamplingInterval : Z)
  (recalculate : bool) : M (Channel * nat) (ndarray fval) :=
  self <- gets fst ;;
  match median_cache_hit self recalculate with
  | Some m => ret m
  | None =>
      let stopFrame := effective_stop self stopFrame in
      if (startFrame >=? stopFrame)%Z then raise InvalidRange
      else if (stopFrame - startFrame <? frameSamplingInterval)%Z then
        raise WindowTooLarge
      else
        median_compute garbageQ garbageF startFrame stopFrame
          frameSamplingInterval
  end.

Fixpoint diffs (t0 : Q) (ts : list Q) : list Q :=
  match ts with
  | [] => []
  | t :: r => (t - t0)%Q :: diffs t r
  end.

(** [Channel.getActualFrameIntevals_ms] *)
Definition getActualFrameIntevals_ms (self : Channel)
  : result (option (list Q)) :=
  let compute :=
    if length (pages self) =? 1 then OK None
    else match elapsedTimes_ms self with
         | [] => Raise IndexError
         | t0 :: ts => OK (Some (diffs t0 ts))
         end in
  match actualFrameIntervals_ms self with
  | None => compute
  | Some a =>
      rbind (ne_None_truth (length a)) (fun t =>
      if t then OK (Some a) else compute)
  end.

Definition getIntendedFrameInterval_ms (self : Channel) : Q :=
  finterval_ms self.

(** [Channel.doFrameIntervalSanityCheck(maxDiff)].  Dividing a NumPy float
    by zero gives inf or nan, and every comparison with those is false. *)
Definition doFrameIntervalSanityCheck (self : Channel) (maxDiff : Q)
  : result (option bool) :=
  if length (pages self) =? 1 then OK None
  else
    rbind (getActualFrameIntevals_ms self) (fun ivs =>
    match ivs with
    | None => Raise (AttributeError "'NoneType' object has no attribute 'mean'")
    | Some a =>
        if Qeq_bool (getIntendedFrameInterval_ms self) 0 then OK (Some false)
        else
          let fract := (np_mean a / getIntendedFrameInterval_ms self)%Q in
          OK (Some (Qlt_bool (Qabs (1 - fract)) maxDiff))
    end).

Definition default_maxDiff : Q := 1 # 100.

(** ** class FarenbackAnalyzer *)

Record FarenbackAnalyzer : Type := mk_FarenbackAnalyzer {
  channel : Channel;
  progress : Q;
  flows : option (ndarray R);             (* (t, x, y, uv) *)
  speeds : option (ndarray R);            (* (t, x, y) *)
  avg_speeds : option (ndarray R);
  histograms : option (ndarray R * ndarray R);
  drawnFrames : option (ndarray Z);
  scaler : Q
}.

Definition set_channel (v : Channel) (a : FarenbackAnalyzer)
  : FarenbackAnalyzer :=
  mk_FarenbackAnalyzer v (progress a) (flows a) (speeds a) (avg_speeds a)
    (histograms a) (drawnFrames a) (scaler a).

Definition set_flows (v : option (ndarray R)) (a : FarenbackAnalyzer)
  : FarenbackAnalyzer :=
  mk_FarenbackAnalyzer (channel a) (progress a) v (speeds a) (avg_speeds a)
    (histograms a) (drawnFrames a) (scaler a).

Definition set_speeds (v : option (ndarray R)) (a : FarenbackAnalyzer)
  : FarenbackAnalyzer :=
  mk_FarenbackAnalyzer (channel a) (progress a) (flows a) v (avg_speeds a)
    (histograms a) (drawnFrames a) (scaler a).

Definition set_avg_speeds (v : option (ndarray R)) (a : FarenbackAnalyzer)
  : FarenbackAnalyzer :=
  mk_FarenbackAnalyzer (channel a) (progress a) (flows a) (speeds a) v
    (histograms a) (drawnFrames a) (scaler a).

Definition set_histograms (v : option (ndarray R * ndarray R))
  (a : FarenbackAnalyzer) : FarenbackAnalyzer :=
  mk_FarenbackAnalyzer (channel a) (progress a) (flows a) (speeds a)
    (avg_speeds a) v (drawnFrames a) (scaler a).

Definition set_scaler (v : Q) (a : FarenbackAnalyzer) : FarenbackAnalyzer :=
  mk_FarenbackAnalyzer (channel a) (progress a) (flows a) (speeds a)
    (avg_speeds a) (histograms a) (drawnFrames a) v.

(** The mean of the actual intervals of a channel, as
    [getActualFrameIntevals_ms().mean()] evaluates it. *)
Definition actual_mean (c : Channel) : result Q :=
  rbind (getActualFrameIntevals_ms c) (fun ivs =>
  match ivs with
  | None => Raise (AttributeError "'NoneType' object has no attribute 'mean'")
  | Some a => OK (np_mean a)
  end).

(** [FarenbackAnalyzer._getScaler].  In the branch taken when the sanity
    check does not hold, the last statement assigns to [Ch0], a name bound
    neither in the method nor in the module: it raises NameError.  The
    mean of the intervals is a NumPy float, so the division by the rounded
    interval does not raise when that interval is zero. *)
Definition _getScaler : M FarenbackAnalyzer Q :=
  self <- gets (fun a => a) ;;
  chk <- lift (doFrameIntervalSanityCheck (channel self) default_maxDiff) ;;
  (if py_not chk then
     finterval_ms <- lift (actual_mean (channel self)) ;;
     let finterval_s := py_round2 (finterval_ms / 1000) in
     let frames_per_min := np_round2 (np_div_60 finterval_ms finterval_s) in
     modify (fun a =>
               set_channel
                 (set_channel_scaler
                    (Some (np_mul (pxSize_um (channel a)) frames_per_min))
                    (channel a)) a) ;;;
     raise (NameError "Ch0")
   else ret tt) ;;;
  self <- gets (fun a => a) ;;
  let finterval_s := (finterval_ms (channel self) / 1000)%Q in
  let frames_per_min := (finterval_s / 60)%Q in
  ret (pxSize_um (channel self) * frames_per_min)%Q.

(** [FarenbackAnalyzer.__init__(channel)]; the channel object is shared
    with the caller, so its state after the call is returned as well. *)
Definition FarenbackAnalyzer_init (ch : Channel)
  : result FarenbackAnalyzer * Channel :=
  let self := mk_FarenbackAnalyzer ch 0 None None None None None 0 in
  match _getScaler self with
  | (OK s, self') => (OK (set_scaler s self'), channel self')
  | (Raise e, self') => (Raise e, channel self')
  end.

(** The histogram loop of [doFlowsToSpeed]: [hists] is filled row by row
    and [hist] keeps the value of the last iteration. *)
Fixpoint hist_loop (out : ndarray R) (nbins : Z) (hist_range : R * R)
  (idxs : list nat) (hists : ndarray R)
  (hist : option (ndarray R * ndarray R))
  : result (ndarray R * option (ndarray R * ndarray R)) :=
  match idxs with
  | [] => OK (hists, hist)
  | i :: rest =>
      rbind (getitem0 out i) (fun frame =>
      rbind (np_histogram frame nbins hist_range) (fun h =>
      rbind (setitem0 0%R hists i (fst h)) (fun hists' =>
      hist_loop out nbins hist_range rest hists' (Some h))))
  end.

(** [FarenbackAnalyzer.doFlowsToSpeed(scaler, doAvgSpeed, doHist, nbins,
    hist_range)].  Comparing an array with [None] never passes the [if],
    whatever its size: the ValueError of an ambiguous truth value is
    swallowed by the [except] arm. *)
Definition doFlowsToSpeed (scaler_arg : option Q) (doAvgSpeed doHist : bool)
  (nbins : Z) (hist_range : option (R * R))
  : M FarenbackAnalyzer (ndarray R) :=
  self <- gets (fun a => a) ;;
  let scaler := match scaler_arg with
                | None => scaler self
                | Some s => s
                end in
  F <- match flows self with
       | None => raise (Exception "No flow calculated, please calculate flow first!")
       | Some F => ret F
       end ;;
  let out := np_square F in
  out <- lift (np_sum 3 out) ;;
  let out := np_scale (np_sqrt out) (Q2R scaler) in
  modify (set_speeds (Some out)) ;;;
  (if doHist then
     hist_range <- match hist_range with
                   | None => m <- lift (np_max out) ;; ret (0%R, m)
                   | Some r => ret r
                   end ;;
     if (nbins <? 0)%Z then
       raise (ValueError "negative dimensions are not allowed")
     else
       let T := hd 0 (shape F) in
       let hists :=
         mk_ndarray float32 [T; Z.to_nat nbins]
           (repeat 1%R (T * Z.to_nat nbins)) in
       r <- lift (hist_loop out nbins hist_range (seq 0 T) hists None) ;;
       match snd r with
       | None => raise (UnboundLocalError "hist")
       | Some hist =>
           let bins := snd hist in
           modify (set_histograms (Some (fst r, bins)))
       end
   else ret tt) ;;;
  (if doAvgSpeed then
     avg <- lift (np_mean2 1 2 out) ;;
     modify (set_avg_speeds (Some avg))
   else ret tt) ;;;
  ret out.

(** [FarenbackAnalyzer.saveSpeedArray]: the shape of [self.speeds] is
    changed in place to (t, 1, 1, x, y, 1) and the array is written as
    float32.  The value returned here is the array handed to the writer;
    the file name and the ImageJ metadata are not modelled.  The
    resolution [1 / self.channel.pxSize_um] is an argument of the call of
    the writer, evaluated after the reshape: with a pixel size of zero it
    raises ZeroDivisionError and nothing is written. *)
Definition saveSpeedArray : M FarenbackAnalyzer (ndarray R) :=
  self <- gets (fun a => a) ;;
  sp <- match speeds self with
        | None => raise (AttributeError "'NoneType' object has no attribute 'shape'")
        | Some sp => ret sp
        end ;;
  match shape sp with
  | s0 :: s1 :: s2 :: _ =>
      sp' <- lift (set_shape sp [s0; 1; 1; s1; s2; 1]) ;;
      modify (set_speeds (Some sp')) ;;;
      if Qeq_bool (pxSize_um (channel self)) 0 then raise ZeroDivisionError
      else ret (mk_ndarray float32 (shape sp') (data sp'))
  | _ => raise IndexError
  end.

(** [np.arange(a, b)] *)
Definition np_arange (a b : Z) : list Z := py_range a b.

(** [FarenbackAnalyzer.saveSpeedCSV]: the rows (time in seconds, mean
    speed of the frame) of the data frame that is written. *)
Definition saveSpeedCSV : M FarenbackAnalyzer (list (Q * R)) :=
  self <- gets (fun a => a) ;;
  sp <- match speeds self with
        | None => raise (AttributeError "'NoneType' object has no attribute 'shape'")
        | Some sp => ret sp
        end ;;
  arr <- (if length (shape sp) =? 6 then lift (np_mean2 3 4 sp)
          else lift (np_mean2 1 2 sp)) ;;
  fr_interval <- match frameSamplingInterval (channel self) with
                 | None => raise (TypeError "unsupported operand type(s) for -")
                 | Some w => ret w
                 end ;;
  n <- match shape arr with
       | [] => raise IndexError
       | n :: _ => ret n
       end ;;
  arr <- lift (set_shape arr [n]) ;;
  let timepoints_abs :=
    map (fun i => (inject_Z i * finterval_ms (channel self) / 1000)%Q)
      (np_arange (fr_interval - 1) (Z.of_nat n + fr_interval - 1)) in
  if length timepoints_abs =? length (data arr)
  then ret (combine timepoints_abs (data arr))
  else raise (ValueError "Shape of passed values does not match index").

(** ** The reconciliation step of [analyzeFiles]

    On [Ch0], the statements from the print of the actual interval to the
    end of the [if not Ch0.doFrameIntervalSanityCheck()] block. *)
Definition analyzeFiles_reconcile : M Channel unit :=
  Ch0 <- gets (fun c => c) ;;
  _ <- lift (actual_mean Ch0) ;;
  chk <- lift (doFrameIntervalSanityCheck Ch0 default_maxDiff) ;;
  if py_not chk then
    finterval_ms <- lift (actual_mean Ch0) ;;
    let finterval_s := py_round2 (finterval_ms / 1000) in
    let frames_per_min := np_round2 (np_div_60 finterval_ms finterval_s) in
    modify (set_channel_scaler (Some (np_mul (pxSize_um Ch0) frames_per_min))) ;;;
    modify (set_finterval_ms finterval_ms)
  else ret tt.

(** The scale factor [analyzeFiles] ends up with: reconciliation on the
    channel, then construction of the analyzer on the same channel (the
    median filter call in between touches none of the fields read here). *)
Definition analyzeFiles_scaler (Ch0 : Channel) : result Q :=
  match analyzeFiles_reconcile Ch0 with
  | (OK _, Ch0') =>
      match fst (FarenbackAnalyzer_init Ch0') with
      | OK a => OK (scaler a)
      | Raise e => Raise e
      end
  | (Raise e, _) => Raise e
  end.

(** ** Statements of the specification, in its own words *)

(** Indices of the pages whose slice id and channel id both match. *)
Definition matching_pages (t : TiffFile) (chIndex sliceIndex : Z)
  : list nat :=
  filter
    (fun i =>
       match nth_error (IndexMap_Slice (IndexMap (micromanager_metadata t))) i,
             nth_error (IndexMap_Channel (IndexMap (micromanager_metadata t))) i
       with
       | Some s, Some c => (s =? sliceIndex)%Z && (c =? chIndex)%Z
       | _, _ => false
       end)
    (seq 0 (length (tif_pages t))).

(** The version string carries none of the three markers. *)
Definition no_known_marker (version : string) : Prop :=
  one4_search version = false /\ gamma_search version = false
  /\ beta_search version = false.

(** The sample of input frame [i] at pixel [(y, x)] of a stack; frames are
    numbered from [0] to the frame count minus one. *)
Definition frame_pixel (arr : ndarray Q) (i : Z) (y x : nat) : option Q :=
  match shape arr with
  | [n; h; w] =>
      if (0 <=? i)%Z && (i <? Z.of_nat n)%Z && (y <? h) && (x <? w)
      then Some (item 0%Q arr [Z.to_nat i; y; x])
      else None
  | _ => None
  end.

(** The samples at [(y, x)] of the [W] consecutive input frames that start
    at frame [s]; defined when all of these frames exist. *)
Fixpoint window_samples (arr : ndarray Q) (s : Z) (W : nat) (y x : nat)
  : option (list Q) :=
  match W with
  | 0 => Some []
  | S W' =>
      match frame_pixel arr s y x, window_samples arr (s + 1)%Z W' y x with
      | Some v, Some r => Some (v :: r)
      | _, _ => None
      end
  end.

(** [out] is the gliding temporal median of [arr]: the stated number of
    frames, each the per-pixel median of its window, as the float32 value
    the stack holds. *)
Definition gliding_median (arr : ndarray Q) (startFrame stopFrame W : Z)
  (out : ndarray fval) : Prop :=
  dtype out = float32
  /\ exists n h w,
      shape arr = [n; h; w]
      /\ shape out = [Z.to_nat ((stopFrame - startFrame) - (W - 1)); h; w]
      /\ forall k y x,
          (Z.of_nat k < (stopFrame - startFrame) - (W - 1))%Z ->
          y < h -> x < w ->
          exists samples,
            window_samples arr (startFrame + Z.of_nat k) (Z.to_nat W) y x
            = Some samples
            /\ item NaN out [k; y; x] = astype_float32 (median1 samples).

(** Mean speed of frame [i] of a (time, height, width) speed map. *)
Definition frame_mean (sp : ndarray R) (h w i : nat) : R :=
  (sum_R (map (fun y => sum_R (map (fun x => item 0%R sp [i; y; x])
                                 (seq 0 w)))
            (seq 0 h))
   / INR (h * w))%R.

(** Time stamp of row [i] of the speed CSV. *)
Definition csv_time (c : Channel) (fr_interval : Z) (i : nat) : Q :=
  (inject_Z (fr_interval - 1 + Z.of_nat i) * finterval_ms c / 1000)%Q.

(** ** Sample inputs *)

Definition ex_page (v t : Q) : TiffPage :=
  {| page_array := mk_ndarray uint16 [1; 1] [v]; ElapsedTime_ms := Some t |}.

Definition ex_metadata (version : string) (n : nat) : mm_metadata :=
  {| Summary := {| MicroManagerVersion := Some version;
                   WaitInterval := Some 1000%Q;
                   Interval_ms := Some 1000%Q;
                   Width := Some 1;
                   Height := Some 1 |};
     IndexMap := {| IndexMap_Slice := repeat 0%Z n;
                    IndexMap_Channel := repeat 0%Z n |};
     PixelSize_um := Some 1%Q;
     PixelSizeUm := Some 1%Q |}.

(** A container of one-pixel pages; page [i] holds the intensity
    [nth i values] and was taken at [nth i times]. *)
Definition ex_tif (version : string) (values times : list Q) : TiffFile :=
  {| tif_pages := map (fun vt => ex_page (fst vt) (snd vt))
                    (combine values times);
     micromanager_metadata := ex_metadata version (length times) |}.

Definition gamma_version : string := "2.0.0-gamma1 20190527".

(** The Channel that [Channel(0, tif, "Ch1")] builds from such a file. *)
Definition ex_channel (values times : list Q) : Channel :=
  let t := ex_tif gamma_version values times in
  mk_Channel 0 0 t "Ch1" (micromanager_metadata t) 1 1000 times
    (tif_pages t) None None None None None.

(** Three frames one second apart, as intended. *)
Definition ch_on_time : Channel :=
  ex_channel [5; 7; 9]%Q [0; 1000; 2000]%Q.

(** Three frames 1200 ms apart where 1000 ms was intended. *)
Definition ch_slow : Channel :=
  ex_channel [5; 7; 9]%Q [0; 1200; 2400]%Q.

Definition ch_four : Channel :=
  ex_channel [5; 9; 7; 8]%Q [0; 1000; 2000; 3000]%Q.

(** A one-frame, one-pixel flow field with displacement [(dx, dy)]. *)
Definition flow_1x1 (dx dy : R) : ndarray R :=
  mk_ndarray float32 [1; 1; 1; 2] [dx; dy].

(** Two one-pixel frames of flow: (3, 4) in the first, (0, 0) in the
    second, so that the two frames of the speed map differ in maximum. *)
Definition flow_two_frames : ndarray R :=
  mk_ndarray float32 [2; 1; 1; 2] [3; 4; 0; 0]%R.

Definition analyzer_with (c : Channel) (s : Q) (F : option (ndarray R))
  (sp : option (ndarray R)) : FarenbackAnalyzer :=
  mk_FarenbackAnalyzer c 0 F sp None None None s.


(** ** The rest of the two classes, and [normalization_to_8bit] *)

Definition set_progress (v : Q) (a : FarenbackAnalyzer) : FarenbackAnalyzer :=
  mk_FarenbackAnalyzer (channel a) v (flows a) (speeds a) (avg_speeds a)
    (histograms a) (drawnFrames a) (scaler a).

Definition set_drawnFrames (v : option (ndarray Z)) (a : FarenbackAnalyzer)
  : FarenbackAnalyzer :=
  mk_FarenbackAnalyzer (channel a) (progress a) (flows a) (speeds a)
    (avg_speeds a) (histograms a) v (scaler a).

(** [Channel.rehapeMedianFramesTo6d]: the shape of the stored median is
    replaced in place by (t, 1, 1, x, y, 1). *)
Definition rehapeMedianFramesTo6d : M Channel unit :=
  self <- gets (fun c => c) ;;
  med <- match medianArray self with
         | None => raise (AttributeError "'NoneType' object has no attribute 'shape'")
         | Some m => ret m
         end ;;
  match shape med with
  | s0 :: s1 :: s2 :: _ =>
      med' <- lift (set_shape med [s0; 1; 1; s1; s2; 1]) ;;
      modify (set_medianArray (Some med'))
  | _ => raise IndexError
  end.

(** [FarenbackAnalyzer.rehapeDrawnFramesTo6d]: as above on the drawn
    frames, after a test that returns at once on a six-axis array. *)
Definition rehapeDrawnFramesTo6d : M FarenbackAnalyzer unit :=
  self <- gets (fun a => a) ;;
  fr <- match drawnFrames self with
        | None => raise (AttributeError "'NoneType' object has no attribute 'shape'")
        | Some fr => ret fr
        end ;;
  if length (shape fr) =? 6 then ret tt
  else
    match shape fr with
    | s0 :: s1 :: s2 :: _ =>
        fr' <- lift (set_shape fr [s0; 1; 1; s1; s2; 1]) ;;
        modify (set_drawnFrames (Some fr'))
    | _ => raise IndexError
    end.

(** The keyword arguments of [doFarenbackFlow], handed to OpenCV as they
    are. *)
Record FarnebackParams : Type := mk_FarnebackParams {
  pyr_scale : Q;
  levels : Z;
  winsize : Z;
  iterations : Z;
  poly_n : Z;
  poly_sigma : Q;
  flags : Z
}.

Definition default_FarnebackParams : FarnebackParams :=
  mk_FarnebackParams (1 # 2) 3 15 3 5 (12 # 10) 0.

(** A method of the channel called from a method of the analyzer: it runs
    on [self.channel] and on the decode counter. *)
Definition on_channel {A} (m : M (Channel * nat) A)
  : M (FarenbackAnalyzer * nat) A :=
  fun s =>
    match m (channel (fst s), snd s) with
    | (r, (c, d)) => (r, (set_channel c (fst s), d))
    end.

Section Farneback.
(** [cv.calcOpticalFlowFarneback(prev, next, None, ...)] is not part of
    the program: any function of the two frames and the parameters, which
    returns a flow or raises. *)
Variable calcOpticalFlowFarneback :
  ndarray fval -> ndarray fval -> FarnebackParams -> result (ndarray R).

Fixpoint doFarenbackFlow_loop (arr : ndarray fval) (params : FarnebackParams)
  (n1 : nat) (idxs : list nat) (fl : ndarray R)
  : M (FarenbackAnalyzer * nat) (ndarray R) :=
  match idxs with
  | [] => ret fl
  | i :: rest =>
      a <- lift (getitem0 arr i) ;;
      b <- lift (getitem0 arr (i + 1)) ;;
      flow <- lift (calcOpticalFlowFarneback a b params) ;;
      fl' <- lift (setitem0 0%R fl i flow) ;;
      modify (fun s => (set_flows (Some fl') (fst s), snd s)) ;;;
      modify (fun s =>
                (set_progress
                   (100 * inject_Z (Z.of_nat i) / inject_Z (Z.of_nat n1))%Q
                   (fst s), snd s)) ;;;
      doFarenbackFlow_loop arr params n1 rest fl'
  end.

(** [FarenbackAnalyzer.doFarenbackFlow(params)]: the median filter with
    its default arguments, then one flow per pair of consecutive frames. *)
Definition doFarenbackFlow (garbageQ : Q) (garbageF : fval) (garbageR : R)
  (params : FarnebackParams) : M (FarenbackAnalyzer * nat) (ndarray R) :=
  arr <- on_channel
           (getTemporalMedianFilterArray garbageQ garbageF 0 None 3 false) ;;
  match shape arr with
  | s0 :: s1 :: s2 :: _ =>
      if s0 =? 0 then
        raise (ValueError "negative dimensions are not allowed")
      else
        let fl := np_empty float32 [s0 - 1; s1; s2; 2] garbageR in
        modify (fun s => (set_flows (Some fl) (fst s), snd s)) ;;;
        doFarenbackFlow_loop arr params (s0 - 1) (seq 0 (s0 - 1)) fl
  | _ => raise IndexError
  end.
End Farneback.

(** [np.percentile(a, q)] over all elements, linear interpolation between
    the two nearest ranks.  On an empty array NumPy gives nan (or raises,
    by version), and [int] of it raises: here the percentile raises. *)
Definition np_percentile (l : list Q) (q : Q) : result Q :=
  if Qlt_bool q 0 || Qlt_bool 100 q then
    Raise (ValueError "Percentiles must be in the range [0, 100]")
  else
    match l with
    | [] => Raise (ValueError "cannot convert float NaN to integer")
    | _ =>
        let s := sort_Q l in
        let n := length l in
        let pos := (q / 100 * inject_Z (Z.of_nat (n - 1)))%Q in
        let lo := Z.to_nat (Qfloor pos) in
        let frac := (pos - inject_Z (Qfloor pos))%Q in
        let a := nth lo s 0%Q in
        let b := nth (Nat.min (lo + 1) (n - 1)) s 0%Q in
        OK (a + frac * (b - a))%Q
    end.

(** [np.interp(x, (low, high), (0, 255))] at one [x]: 255 above [high],
    0 below [low], 255 at [high], 0 at [low], the chord in between. *)
Definition np_interp_0_255 (low high x : Q) : Q :=
  if Qlt_bool high x then 255%Q
  else if Qlt_bool x low then 0%Q
  else if Qle_bool high x then 255%Q
  else if Qeq_bool low x then 0%Q
  else ((255 - 0) / (high - low) * (x - low) + 0)%Q.

(** [normalization_to_8bit(image_stack, lowPcClip, highPcClip)] on a
    stack of numbers; [astype('uint8')] truncates. *)
Definition normalization_to_8bit (image_stack : ndarray Q)
  (lowPcClip highPcClip : Q) : result (ndarray Z) :=
  rbind (np_percentile (data image_stack) lowPcClip) (fun pl =>
  let low := py_int pl in
  rbind (np_percentile (data image_stack) (100 - highPcClip)) (fun ph =>
  let high := py_int ph in
  let image_equalized :=
    map (np_interp_0_255 (inject_Z low) (inject_Z high)) (data image_stack) in
  OK (mk_ndarray uint8 (shape image_stack) (map py_int image_equalized)))).

(** The scale factor of a result of [FarenbackAnalyzer.__init__]. *)
Definition built_scaler (r : result FarenbackAnalyzer * Channel)
  : result Q :=
  match fst r with
  | OK a => OK (scaler a)
  | Raise e => Raise e
  end.

(** ** More sample inputs *)

(** A channel of one page. *)
Definition ch_single : Channel := ex_channel [5]%Q [0]%Q.

(** A channel over pages of two rows and three columns, described by the
    metadata as Width 3 and Height 2. *)
Definition wide_page (t : Q) : TiffPage :=
  {| page_array := mk_ndarray uint16 [2; 3] [1; 2; 3; 4; 5; 6]%Q;
     ElapsedTime_ms := Some t |}.

Definition wide_metadata : mm_metadata :=
  {| Summary := {| MicroManagerVersion := Some gamma_version;
                   WaitInterval := Some 1000%Q;
                   Interval_ms := Some 1000%Q;
                   Width := Some 3;
                   Height := Some 2 |};
     IndexMap := {| IndexMap_Slice := [0; 0]%Z;
                    IndexMap_Channel := [0; 0]%Z |};
     PixelSize_um := Some 1%Q;
     PixelSizeUm := Some 1%Q |}.

Definition ch_wide : Channel :=
  let t := {| tif_pages := [wide_page 0; wide_page 1000];
              micromanager_metadata := wide_metadata |} in
  mk_Channel 0 0 t "Ch1" wide_metadata 1 1000 [0; 1000]%Q (tif_pages t)
    None None None None None.

(** A container in which the second page has no elapsed-time stamp. *)
Definition tif_unstamped : TiffFile :=
  {| tif_pages := [ex_page 5 0;
                   {| page_array := mk_ndarray uint16 [1; 1] [7%Q];
                      ElapsedTime_ms := None |}];
     micromanager_metadata := ex_metadata gamma_version 2 |}.

(** A flow primitive that finds no motion. *)
Definition still_flow (a b : ndarray fval) (p : FarnebackParams)
  : result (ndarray R) :=
  OK (mk_ndarray float64 (shape a ++ [2])
        (repeat 0%R (size (shape a) * 2))).

(** [ch_on_time] with a pixel size of zero in its metadata. *)
Definition ch_zero_pixel : Channel :=
  let t := ex_tif gamma_version [5; 7; 9]%Q [0; 1000; 2000]%Q in
  mk_Channel 0 0 t "Ch1" (micromanager_metadata t) 0 1000
    [0; 1000; 2000]%Q (tif_pages t) None None None None None.

(** Three frames that carry the same time stamp. *)
Definition ch_frozen : Channel := ex_channel [5; 7; 9]%Q [0; 0; 0]%Q.

(** A channel whose second page is 16-bit where the first is 8-bit. *)
Definition mixed_tif : TiffFile :=
  {| tif_pages := [{| page_array := mk_ndarray uint8 [1; 1] [5%Q];
                      ElapsedTime_ms := Some 0%Q |};
                   {| page_array := mk_ndarray uint16 [1; 1] [300%Q];
                      ElapsedTime_ms := Some 1000%Q |}];
     micromanager_metadata := ex_metadata gamma_version 2 |}.

Definition ch_mixed : Channel :=
  mk_Channel 0 0 mixed_tif "Ch1" (micromanager_metadata mixed_tif) 1 1000
    [0; 1000]%Q (tif_pages mixed_tif) None None None None None.

(** [ch_four] after its median filter has run with the default window. *)
Definition ch_four_filtered : Channel :=
  set_medianArray
    (Some (mk_ndarray float32 [2; 1; 1] [Num 7; Num 8]))
    (set_frameSamplingInterval (Some 3%Z) ch_four).
(** * Facts about arrays *)

Unset Implicit Arguments.

Section NDArrayFacts.
Variable A : Type.

Lemma length_all_indices (sh : list nat) :
  length (all_indices sh) = size sh.
Proof.
  induction sh as [|s r IH]; simpl; [reflexivity|].
  generalize 0 at 1.
  induction s as [|s IHs]; intros a; simpl; [reflexivity|].
  rewrite length_app, length_map, IH, IHs. reflexivity.
Qed.

Lemma offset_lt (sh idx : list nat) :
  in_bounds sh idx = true -> offset sh idx < size sh.
Proof.
  revert idx.
  induction sh as [|s r IH]; intros [|i j]; simpl; try discriminate; [lia|].
  intros H. apply andb_true_iff in H as [Hi Hj].
  apply Nat.ltb_lt in Hi. specialize (IH _ Hj). nia.
Qed.

(** In a concatenation of blocks of equal length [m], element
    [i * m + k] is element [k] of block [i]. *)
Lemma nth_flat_map_blocks {B} (f : nat -> list B) (m : nat) (d : B) :
  (forall i, length (f i) = m) ->
  forall s a i k, i < s -> k < m ->
    nth (i * m + k) (flat_map f (seq a s)) d = nth k (f (a + i)) d.
Proof.
  intros Hlen.
  induction s as [|s IH]; intros a i k Hi Hk; [lia|].
  simpl. destruct i as [|i].
  - rewrite app_nth1 by (rewrite Hlen; simpl; lia).
    simpl. now rewrite Nat.add_0_r.
  - rewrite app_nth2 by (rewrite Hlen; simpl; lia).
    rewrite Hlen.
    replace (S i * m + k - m) with (i * m + k) by (simpl; lia).
    rewrite IH by lia. f_equal. f_equal. lia.
Qed.

Lemma nth_all_indices (sh idx : list nat) (d : list nat) :
  in_bounds sh idx = true ->
  nth (offset sh idx) (all_indices sh) d = idx.
Proof.
  revert idx.
  induction sh as [|s r IH]; intros [|i j]; simpl; try discriminate;
    [reflexivity|].
  intros H. apply andb_true_iff in H as [Hi Hj].
  apply Nat.ltb_lt in Hi.
  rewrite nth_flat_map_blocks with (m := size r).
  - simpl.
    rewrite (nth_indep _ d (i :: d))
      by (rewrite length_map, length_all_indices; now apply offset_lt).
    rewrite (map_nth (cons i)). now rewrite IH.
  - intros. now rewrite length_map, length_all_indices.
  - exact Hi.
  - now apply offset_lt.
Qed.

Lemma item_tabulate (d : A) (dt : np_dtype) (sh : list nat)
  (f : list nat -> A) (idx : list nat) :
  in_bounds sh idx = true ->
  item d (tabulate dt sh f) idx = f idx.
Proof.
  intros H. unfold item, tabulate. simpl.
  rewrite (nth_indep _ d (f idx))
    by (rewrite length_map, length_all_indices; now apply offset_lt).
  rewrite (map_nth f). now rewrite nth_all_indices.
Qed.

Lemma length_tabulate (dt : np_dtype) (sh : list nat) (f : list nat -> A) :
  length (data (tabulate dt sh f)) = size sh.
Proof. unfold tabulate. simpl. now rewrite length_map, length_all_indices. Qed.

Lemma flat_map_singleton {B C} (f : B -> C) (l : list B) :
  flat_map (fun x => [f x]) l = map f l.
Proof. induction l; simpl; congruence. Qed.

Lemma all_indices_1d (n : nat) :
  all_indices [n] = map (fun i => [i]) (seq 0 n).
Proof. simpl. apply flat_map_singleton. Qed.

Lemma item_elementwise {B} (d : A) (e : B) (g : A -> B) (a : ndarray A)
  (idx : list nat) :
  g d = e -> item e (elementwise a g) idx = g (item d a idx).
Proof.
  intros <-. unfold item, elementwise. simpl. apply map_nth.
Qed.
(** Assigning a frame of the right shape. *)
Lemma setitem0_same_shape {B : Type} (d : B) (a v : ndarray B) (n i : nat)
  (r : list nat) :
  shape a = n :: r -> i < n -> shape v = r ->
  setitem0 d a i v
  = OK (mk_ndarray (dtype a) (n :: r)
          (firstn (i * size r) (data a) ++ data v
             ++ skipn ((i + 1) * size r) (data a))).
Proof.
  intros Ha Hi Hv. unfold setitem0, broadcast_to. rewrite Ha.
  apply Nat.ltb_lt in Hi as ->.
  destruct (list_eq_dec Nat.eq_dec (shape v) r); [reflexivity|contradiction].
Qed.

End NDArrayFacts.

(** Assigning a frame changes that frame and no other. *)
Lemma item_setitem0 {B} (d : B) (a a' v : ndarray B) (n i : nat)
  (r : list nat) :
  shape a = n :: r -> i < n -> shape v = r ->
  length (data a) = n * size r ->
  length (data v) = size r ->
  setitem0 d a i v = OK a' ->
  shape a' = n :: r
  /\ dtype a' = dtype a
  /\ length (data a') = n * size r
  /\ (forall j, in_bounds r j = true ->
        item d a' (i :: j) = item d v j)
  /\ (forall k j, k <> i -> k < n -> in_bounds r j = true ->
        item d a' (k :: j) = item d a (k :: j)).
Proof.
  intros Ha Hi Hv Hla Hlv Hset.
  rewrite (setitem0_same_shape d a v n i r Ha Hi Hv) in Hset.
  injection Hset as <-. cbn [shape dtype data].
  assert (Hfl : length (firstn (i * size r) (data a)) = i * size r)
    by (apply firstn_length_le; nia).
  repeat split.
  - rewrite !length_app, Hfl, Hlv, length_skipn, Hla. nia.
  - intros j Hj. pose proof (offset_lt r j Hj) as Ho.
    unfold item. cbn [shape data offset]. rewrite Hv.
    rewrite app_nth2 by lia. rewrite Hfl.
    rewrite app_nth1 by lia. f_equal. lia.
  - intros k j Hk Hkn Hj. pose proof (offset_lt r j Hj) as Ho.
    unfold item. cbn [shape data offset]. rewrite Ha. cbn [offset].
    destruct (Nat.lt_ge_cases k i) as [Hlt|Hge].
    + rewrite app_nth1 by (rewrite Hfl; nia).
      rewrite nth_firstn.
      destruct (Nat.ltb_spec (k * size r + offset r j) (i * size r));
        [reflexivity|nia].
    + rewrite app_nth2 by (rewrite Hfl; nia). rewrite Hfl.
      rewrite app_nth2 by (rewrite Hlv; nia). rewrite Hlv.
      rewrite nth_skipn. f_equal. nia.
Qed.

(** * The speed converter *)

Ltac run_py :=
  unfold bind, gets, lift, modify, ret, raise, rbind; simpl.

Section SpeedFacts.
Open Scope R_scope.

Lemma np_sum_ok (axis : nat) (a : ndarray R) :
  (axis < length (shape a))%nat ->
  np_sum axis a
  = OK (tabulate (dtype a) (remove_nth axis (shape a))
          (fun j => sum_R (map (fun c => item 0 a (insert_nth axis c j))
                             (seq 0 (nth axis (shape a) 0%nat))))).
Proof.
  intros H. unfold np_sum.
  now apply Nat.ltb_lt in H as ->.
Qed.

Lemma item_np_sum (axis : nat) (a s : ndarray R) (j : list nat) :
  np_sum axis a = OK s ->
  in_bounds (remove_nth axis (shape a)) j = true ->
  item 0 s j
  = sum_R (map (fun c => item 0 a (insert_nth axis c j))
             (seq 0 (nth axis (shape a) 0%nat))).
Proof.
  unfold np_sum. destruct (axis <? length (shape a))%nat; [|discriminate].
  intros [= <-] Hj. now rewrite item_tabulate.
Qed.

Lemma shape_np_sum (axis : nat) (a s : ndarray R) :
  np_sum axis a = OK s -> shape s = remove_nth axis (shape a).
Proof.
  unfold np_sum. destruct (axis <? length (shape a))%nat; [|discriminate].
  now intros [= <-].
Qed.

Lemma in_bounds_3 (T H W t y x : nat) :
  (t < T)%nat -> (y < H)%nat -> (x < W)%nat ->
  in_bounds [T; H; W] [t; y; x] = true.
Proof.
  intros Ht Hy Hx. simpl.
  apply Nat.ltb_lt in Ht as ->. apply Nat.ltb_lt in Hy as ->.
  now apply Nat.ltb_lt in Hx as ->.
Qed.

(** The array [doFlowsToSpeed] stores in [self.speeds]. *)
Lemma speeds_item (F out : ndarray R) (s : R) (T H W t y x : nat) :
  shape F = [T; H; W; 2%nat] ->
  np_sum 3 (np_square F) = OK out ->
  (t < T)%nat -> (y < H)%nat -> (x < W)%nat ->
  item 0 (np_scale (np_sqrt out) s) [t; y; x]
  = sqrt (item 0 F [t; y; x; 0%nat] * item 0 F [t; y; x; 0%nat]
          + item 0 F [t; y; x; 1%nat] * item 0 F [t; y; x; 1%nat]) * s.
Proof.
  intros HF Hsum Ht Hy Hx.
  unfold np_scale, np_sqrt.
  rewrite (item_elementwise R 0 0 (fun v => v * s)) by apply Rmult_0_l.
  rewrite (item_elementwise R 0 0 sqrt) by apply sqrt_0.
  rewrite (item_np_sum _ _ _ _ Hsum)
    by (simpl; rewrite HF; now apply in_bounds_3).
  simpl. rewrite HF. simpl.
  unfold np_square.
  rewrite !(item_elementwise R 0 0 (fun v => v * v)) by apply Rmult_0_l.
  now rewrite Rplus_0_r.
Qed.

Lemma np_mean2_3d (a : ndarray R) (T H W : nat) :
  shape a = [T; H; W] -> exists avg, np_mean2 1 2 a = OK avg.
Proof.
  intros Ha. unfold np_mean2, rbind.
  rewrite np_sum_ok by (rewrite Ha; simpl; lia).
  rewrite np_sum_ok by (simpl; rewrite Ha; simpl; lia).
  eexists. reflexivity.
Qed.

(** [doFlowsToSpeed] without the histogram, once the flow is there. *)
Lemma doFlowsToSpeed_noHist (self : FarenbackAnalyzer)
  (scaler_arg : option Q) (doAvgSpeed : bool) (nbins : Z)
  (hist_range : option (R * R)) (F summed : ndarray R) :
  flows self = Some F ->
  np_sum 3 (np_square F) = OK summed ->
  let out :=
    np_scale (np_sqrt summed)
      (Q2R match scaler_arg with Some s => s | None => scaler self end) in
  doFlowsToSpeed scaler_arg doAvgSpeed false nbins hist_range self
  = if doAvgSpeed then
      match np_mean2 1 2 out with
      | OK avg => (OK out,
                   set_avg_speeds (Some avg) (set_speeds (Some out) self))
      | Raise e => (Raise e, set_speeds (Some out) self)
      end
    else (OK out, set_speeds (Some out) self).
Proof.
  intros HF Hsum out.
  unfold doFlowsToSpeed, bind, gets, lift, modify, ret, raise.
  rewrite HF, Hsum. fold out.
  destruct doAvgSpeed; [destruct (np_mean2 1 2 out)|]; reflexivity.
Qed.
(** Whatever the flags, and whether or not the histogram step goes
    through, the speed map is stored before anything else is done, and
    it is what the call returns when it returns. *)
Lemma doFlowsToSpeed_speeds (self : FarenbackAnalyzer)
  (scaler_arg : option Q) (doAvgSpeed doHist : bool) (nbins : Z)
  (hist_range : option (R * R)) (F summed : ndarray R) :
  flows self = Some F ->
  np_sum 3 (np_square F) = OK summed ->
  let out :=
    np_scale (np_sqrt summed)
      (Q2R match scaler_arg with Some s => s | None => scaler self end) in
  exists r self',
    doFlowsToSpeed scaler_arg doAvgSpeed doHist nbins hist_range self
    = (r, self')
    /\ speeds self' = Some out
    /\ (forall o, r = OK o -> o = out).
Proof.
  intros HF Hsum out.
  unfold doFlowsToSpeed, bind, gets, lift, modify, ret, raise.
  rewrite HF, Hsum. fold out.
  destruct doHist.
  - destruct hist_range as [rg|].
    + destruct (nbins <? 0)%Z.
      { eexists. eexists. split; [reflexivity|].
        split; [reflexivity|discriminate]. }
      destruct (hist_loop out nbins rg _ _ None) as [[hs [hist|]]|e].
      * cbn [snd fst].
        destruct doAvgSpeed; [destruct (np_mean2 1 2 out)|];
          (eexists; eexists; split; [reflexivity|]; split; [reflexivity|]);
          (discriminate || now intros o [= <-]).
      * eexists. eexists. split; [reflexivity|].
        split; [reflexivity|discriminate].
      * eexists. eexists. split; [reflexivity|].
        split; [reflexivity|discriminate].
    + destruct (np_max out) as [m|e].
      2:{ eexists. eexists. split; [reflexivity|].
          split; [reflexivity|discriminate]. }
      destruct (nbins <? 0)%Z.
      { eexists. eexists. split; [reflexivity|].
        split; [reflexivity|discriminate]. }
      destruct (hist_loop out nbins (0, m) _ _ None) as [[hs [hist|]]|e].
      * cbn [snd fst].
        destruct doAvgSpeed; [destruct (np_mean2 1 2 out)|];
          (eexists; eexists; split; [reflexivity|]; split; [reflexivity|]);
          (discriminate || now intros o [= <-]).
      * eexists. eexists. split; [reflexivity|].
        split; [reflexivity|discriminate].
      * eexists. eexists. split; [reflexivity|].
        split; [reflexivity|discriminate].
  - destruct doAvgSpeed; [destruct (np_mean2 1 2 out)|];
      (eexists; eexists; split; [reflexivity|]; split; [reflexivity|]);
      (discriminate || now intros o [= <-]).
Qed.
End SpeedFacts.

(** C7.  [doFlowsToSpeed] fails when no flow field has been computed; on
    a flow field of shape (t, x, y, 2) it stores in [self.speeds], for
    every setting of its flags, the array whose value at every pixel is
    the Euclidean norm of the displacement vector times the scale factor
    (the argument, or [self.scaler] when the argument is [None]), and
    that array is what the call returns whenever it returns; without the
    histogram it always returns.  With scale factor 1 a field that is
    (3, 4) everywhere gives 5 everywhere. *)
Theorem C7_doFlowsToSpeed_euclidean_norm :
  forall (self : FarenbackAnalyzer) (scaler_arg : option Q)
         (doAvgSpeed doHist : bool) (nbins : Z) (hist_range : option (R * R)),
    (flows self = None ->
     fails (fst (doFlowsToSpeed scaler_arg doAvgSpeed doHist nbins hist_range
                   self)))
    /\ forall F T H W,
        flows self = Some F ->
        shape F = [T; H; W; 2] ->
        exists out r self',
          doFlowsToSpeed scaler_arg doAvgSpeed doHist nbins hist_range self
          = (r, self')
          /\ speeds self' = Some out
          /\ (forall o, r = OK o -> o = out)
          /\ (doHist = false -> r = OK out)
          /\ shape out = [T; H; W]
          /\ (forall t y x, t < T -> y < H -> x < W ->
                item 0%R out [t; y; x]
                = (sqrt (item 0 F [t; y; x; 0]%nat * item 0 F [t; y; x; 0]%nat
                         + item 0 F [t; y; x; 1]%nat * item 0 F [t; y; x; 1]%nat)
                   * Q2R (match scaler_arg with
                          | Some s => s
                          | None => scaler self
                          end))%R)
          /\ (scaler_arg = Some 1%Q ->
              (forall t y x, t < T -> y < H -> x < W ->
                 item 0%R F [t; y; x; 0]%nat = 3%R
                 /\ item 0%R F [t; y; x; 1]%nat = 4%R) ->
              forall t y x, t < T -> y < H -> x < W ->
                item 0%R out [t; y; x] = 5%R).
Proof.
  intros self scaler_arg doAvgSpeed doHist nbins hist_range. split.
  - intros HF. unfold doFlowsToSpeed. run_py. rewrite HF. simpl.
    eexists. reflexivity.
  - intros F T H W HF Hsh.
    assert (Hlen : 3 < length (shape (np_square F)))
      by (simpl; rewrite Hsh; simpl; lia).
    pose proof (np_sum_ok _ _ Hlen) as Hsum.
    set (s := Q2R match scaler_arg with Some s => s | None => scaler self end).
    assert (Hitem : forall out, np_sum 3 (np_square F) = OK out ->
              forall t y x, t < T -> y < H -> x < W ->
                item 0%R (np_scale (np_sqrt out) s) [t; y; x]
                = (sqrt (item 0 F [t; y; x; 0]%nat * item 0 F [t; y; x; 0]%nat
                         + item 0 F [t; y; x; 1]%nat * item 0 F [t; y; x; 1]%nat)
                   * s)%R)
      by (intros; now apply speeds_item with (T := T) (H := H) (W := W)).
    specialize (Hitem _ Hsum).
    remember (tabulate _ _ _) as summed eqn:Hs in Hsum, Hitem.
    assert (Hshape : shape summed = [T; H; W])
      by (rewrite (shape_np_sum _ _ _ Hsum); simpl; now rewrite Hsh).
    destruct (doFlowsToSpeed_speeds self scaler_arg doAvgSpeed doHist nbins
                hist_range F summed HF Hsum)
      as (r & self' & Hrun & Hsp & Hret).
    fold s in Hsp, Hret.
    exists (np_scale (np_sqrt summed) s), r, self'.
    split; [exact Hrun|]. split; [exact Hsp|]. split; [exact Hret|].
    split.
    { intros ->.
      rewrite (doFlowsToSpeed_noHist _ _ _ _ _ _ _ HF Hsum) in Hrun.
      fold s in Hrun.
      destruct doAvgSpeed.
      - destruct (np_mean2_3d (np_scale (np_sqrt summed) s) T H W Hshape)
          as [avg Havg].
        rewrite Havg in Hrun. now injection Hrun as <- _.
      - now injection Hrun as <- _. }
    split; [exact Hshape|]. split; [exact Hitem|].
    intros Hone Hu t y x Ht Hy Hx.
    rewrite Hitem by assumption.
    destruct (Hu t y x Ht Hy Hx) as [-> ->].
    subst s. rewrite Hone.
    replace (3 * 3 + 4 * 4)%R with (5 * 5)%R by lra.
    rewrite sqrt_square by lra. unfold Q2R. simpl. lra.
Qed.

(** * The scale factor *)

Section ScalerFacts.

(** With a sanity check that holds, [_getScaler] skips the replacement
    branch and returns pixel size times (interval in seconds over 60). *)
Lemma getScaler_when_sane (self : FarenbackAnalyzer) :
  doFrameIntervalSanityCheck (channel self) default_maxDiff
  = OK (Some true) ->
  _getScaler self
  = (OK (pxSize_um (channel self)
         * (finterval_ms (channel self) / 1000 / 60))%Q, self).
Proof.
  intros H. unfold _getScaler, bind, gets, lift, ret.
  rewrite H. reflexivity.
Qed.

(** With a sanity check that does not hold, every path through the
    replacement branch ends in an exception. *)
Lemma getScaler_when_diverging (self : FarenbackAnalyzer) :
  doFrameIntervalSanityCheck (channel self) default_maxDiff
  = OK (Some false) ->
  fails (fst (_getScaler self)).
Proof.
  intros H. unfold _getScaler, bind, gets, lift, ret, modify, raise.
  rewrite H. simpl.
  destruct (actual_mean (channel self)) as [m|e]; simpl;
    eexists; reflexivity.
Qed.

Lemma getScaler_NameError (self : FarenbackAnalyzer) (m : Q) :
  doFrameIntervalSanityCheck (channel self) default_maxDiff
  = OK (Some false) ->
  actual_mean (channel self) = OK m ->
  fst (_getScaler self) = Raise (NameError "Ch0").
Proof.
  intros H Hm. unfold _getScaler, bind, gets, lift, ret, modify, raise.
  rewrite H. simpl. rewrite Hm. reflexivity.
Qed.

Lemma Q2R_sixtieth (s : Q) : (s == 1 # 60)%Q -> Q2R s = (1 / 60)%R.
Proof.
  intros H. rewrite (Qeq_eqR _ _ H). unfold Q2R. simpl. lra.
Qed.

Lemma sanity_check_of_mean (c : Channel) (m maxDiff : Q) :
  length (pages c) <> 1 ->
  actual_mean c = OK m ->
  doFrameIntervalSanityCheck c maxDiff
  = OK (Some (if Qeq_bool (finterval_ms c) 0 then false
              else Qlt_bool (Qabs (1 - m / finterval_ms c)) maxDiff)).
Proof.
  intros Hn Hm. apply Nat.eqb_neq in Hn.
  unfold doFrameIntervalSanityCheck, actual_mean, rbind in *.
  rewrite Hn. unfold getIntendedFrameInterval_ms.
  destruct (getActualFrameIntevals_ms c) as [[a|]|e]; try discriminate.
  injection Hm as <-. now destruct (Qeq_bool (finterval_ms c) 0).
Qed.

(** The sanity check of a channel whose intended interval has been
    replaced by the mean [m] of its actual intervals. *)
Lemma sanity_after_replacement (c : Channel) (m : Q) :
  length (pages c) <> 1 ->
  actual_mean c = OK m ->
  ~ (m == 0)%Q ->
  doFrameIntervalSanityCheck (set_finterval_ms m c) default_maxDiff
  = OK (Some true).
Proof.
  intros Hn Hm Hm0.
  rewrite (sanity_check_of_mean (set_finterval_ms m c) m) by assumption.
  cbn [finterval_ms set_finterval_ms].
  destruct (Qeq_bool m 0) eqn:E;
    [apply Qeq_bool_iff in E; contradiction|].
  unfold Qlt_bool.
  destruct (Qle_bool default_maxDiff (Qabs (1 - m / m))) eqn:E';
    [|reflexivity].
  apply Qle_bool_iff in E'.
  assert (Hx : (1 - m / m == 0)%Q) by (field; exact Hm0).
  rewrite Hx in E'. vm_compute in E'. now elim E'.
Qed.

(** The driver path: [analyzeFiles] replaces the interval on the channel
    before it builds the analyzer, so the scale factor it gets is
    computed from the mean of the actual intervals. *)
Lemma analyzeFiles_scaler_uses_actual (Ch0 : Channel) (m : Q) :
  doFrameIntervalSanityCheck Ch0 default_maxDiff = OK (Some false) ->
  actual_mean Ch0 = OK m ->
  ~ (m == 0)%Q ->
  analyzeFiles_scaler Ch0 = OK (pxSize_um Ch0 * (m / 1000 / 60))%Q.
Proof.
  intros Hchk Hm Hm0.
  assert (Hn : length (pages Ch0) <> 1).
  { intros E. unfold doFrameIntervalSanityCheck in Hchk.
    rewrite E in Hchk. discriminate. }
  unfold analyzeFiles_scaler, analyzeFiles_reconcile.
  unfold bind, gets, lift, ret, modify.
  rewrite Hm, Hchk. simpl.
  unfold FarenbackAnalyzer_init.
  rewrite getScaler_when_sane.
  - reflexivity.
  - simpl.
    apply (sanity_after_replacement (set_channel_scaler _ Ch0));
      assumption.
Qed.
End ScalerFacts.

(** C1.  On a channel with pixel size 1 um and intended interval 1000 ms
    that passes the sanity check, the analyzer is built with the scale
    factor 1/60 (pixel size times seconds-per-frame over 60, where the
    docstring asks for frames per minute, 60 over seconds-per-frame), so
    the default conversion of a flow field that is (2, 0) everywhere gives
    1/30 at every pixel, not 120. *)
Theorem C1_default_scaler_is_one_sixtieth :
  forall (ch : Channel) (F : ndarray R) (T H W : nat),
    (pxSize_um ch == 1)%Q ->
    (finterval_ms ch == 1000)%Q ->
    doFrameIntervalSanityCheck ch default_maxDiff = OK (Some true) ->
    shape F = [T; H; W; 2] ->
    (forall t y x, t < T -> y < H -> x < W ->
       item 0%R F [t; y; x; 0] = 2%R /\ item 0%R F [t; y; x; 1] = 0%R) ->
    exists a out st,
      FarenbackAnalyzer_init ch = (OK a, ch)
      /\ (scaler a == 1 # 60)%Q
      /\ doFlowsToSpeed None false false 10 None (set_flows (Some F) a)
         = (OK out, st)
      /\ forall t y x, t < T -> y < H -> x < W ->
           item 0%R out [t; y; x] = (1 / 30)%R
           /\ item 0%R out [t; y; x] <> 120%R.
Proof.
  intros ch F T H W Hpx Hfi Hchk Hsh Hu.
  set (self := mk_FarenbackAnalyzer ch 0 None None None None None 0).
  pose proof (getScaler_when_sane self Hchk) as Hs. simpl in Hs.
  set (s := (pxSize_um ch * (finterval_ms ch / 1000 / 60))%Q) in *.
  assert (Hs60 : (s == 1 # 60)%Q).
  { subst s. rewrite Hpx, Hfi. reflexivity. }
  assert (Hlen : 3 < length (shape (np_square F)))
    by (simpl; rewrite Hsh; simpl; lia).
  pose proof (np_sum_ok _ _ Hlen) as Hsum.
  remember (tabulate _ _ _) as summed eqn:Esummed in Hsum.
  exists (set_scaler s self), (np_scale (np_sqrt summed) (Q2R s)).
  eexists. split; [|split; [exact Hs60|split]].
  - unfold FarenbackAnalyzer_init. fold self. now rewrite Hs.
  - now rewrite (doFlowsToSpeed_noHist _ None false 10 None F summed).
  - intros t y x Ht Hy Hx.
    rewrite (speeds_item F summed _ T H W) by assumption.
    destruct (Hu t y x Ht Hy Hx) as [-> ->].
    rewrite (Q2R_sixtieth _ Hs60).
    replace (2 * 2 + 0 * 0)%R with (2 * 2)%R by lra.
    rewrite sqrt_square by lra. split; lra.
Qed.

(** C3.  On a channel whose sanity check does not hold, building the
    analyzer fails: [_getScaler] enters the replacement branch, which
    ends in the assignment to the unbound name [Ch0]; no scale factor is
    computed, from the actual mean or otherwise.  Whenever the mean of
    the actual intervals can be taken the exception is that NameError,
    also when the rounded interval is zero (NumPy divides by it without
    raising). *)
Theorem C3_diverging_channel_gets_no_scaler :
  forall ch : Channel,
    doFrameIntervalSanityCheck ch default_maxDiff = OK (Some false) ->
    fails (fst (FarenbackAnalyzer_init ch))
    /\ forall m,
        actual_mean ch = OK m ->
        fst (FarenbackAnalyzer_init ch) = Raise (NameError "Ch0").
Proof.
  intros ch Hchk.
  set (self := mk_FarenbackAnalyzer ch 0 None None None None None 0).
  split.
  - destruct (getScaler_when_diverging self Hchk) as [e He].
    exists e. unfold FarenbackAnalyzer_init. fold self.
    destruct (_getScaler self) as [[s|e'] self']; simpl in *;
      congruence.
  - intros m Hm.
    pose proof (getScaler_NameError self m Hchk Hm) as He.
    unfold FarenbackAnalyzer_init. fold self.
    destruct (_getScaler self) as [[s|e'] self']; simpl in *; congruence.
Qed.

(** * The two writers *)

Section WriterFacts.
Open Scope R_scope.

Lemma in_bounds_2 (T H t y : nat) :
  (t < T)%nat -> (y < H)%nat -> in_bounds [T; H] [t; y] = true.
Proof.
  intros Ht Hy. simpl.
  apply Nat.ltb_lt in Ht as ->. now apply Nat.ltb_lt in Hy as ->.
Qed.

(** Averaging a (t, h, w) array over its axes 1 and 2. *)
Lemma np_mean2_native (sp : ndarray R) (t h w : nat) :
  shape sp = [t; h; w] ->
  exists avg,
    np_mean2 1 2 sp = OK avg
    /\ shape avg = [t]
    /\ data avg = map (frame_mean sp h w) (seq 0 t).
Proof.
  intros Hsh. unfold np_mean2, rbind.
  rewrite np_sum_ok by (rewrite Hsh; simpl; lia).
  rewrite np_sum_ok by (simpl; rewrite Hsh; simpl; lia).
  eexists. split; [reflexivity|].
  cbn [shape data elementwise tabulate dtype]. rewrite Hsh.
  cbn [remove_nth nth]. split; [reflexivity|].
  rewrite all_indices_1d, !map_map.
  apply map_ext_in. intros i Hi. apply in_seq in Hi.
  unfold frame_mean. f_equal. f_equal.
  cbn [insert_nth]. apply map_ext_in. intros y Hy. apply in_seq in Hy.
  rewrite item_tabulate by (apply in_bounds_2; lia).
  reflexivity.
Qed.

(** Averaging the same buffer, seen as (t, 1, 1, h, w, 1), over its
    axes 3 and 4. *)
Lemma np_mean2_reshaped (sp sp6 : ndarray R) (t h w : nat) :
  shape sp = [t; h; w] ->
  shape sp6 = [t; 1; 1; h; w; 1]%nat ->
  data sp6 = data sp ->
  exists avg,
    np_mean2 3 4 sp6 = OK avg
    /\ shape avg = [t; 1; 1; 1]%nat
    /\ data avg = map (frame_mean sp h w) (seq 0 t).
Proof.
  intros Hsh Hsh6 Hdata. unfold np_mean2, rbind.
  rewrite np_sum_ok by (rewrite Hsh6; simpl; lia).
  rewrite np_sum_ok by (simpl; rewrite Hsh6; simpl; lia).
  eexists. split; [reflexivity|].
  cbn [shape data elementwise tabulate dtype]. rewrite Hsh6.
  cbn [remove_nth nth]. split; [reflexivity|].
  replace (all_indices [t; 1; 1; 1]%nat)
    with (map (fun i => [i; 0; 0; 0]%nat) (seq 0 t))
    by (simpl; now rewrite flat_map_singleton).
  rewrite !map_map.
  apply map_ext_in. intros i Hi. apply in_seq in Hi.
  unfold frame_mean. f_equal. f_equal.
  cbn [insert_nth]. apply map_ext_in. intros y Hy. apply in_seq in Hy.
  rewrite item_tabulate.
  - cbn [insert_nth]. f_equal. apply map_ext. intros x.
    unfold item. rewrite Hsh6, Hsh, Hdata. f_equal. simpl. lia.
  - simpl. destruct (Nat.ltb_spec i t); [|lia].
    destruct (Nat.ltb_spec y h); [reflexivity|lia].
Qed.

Lemma length_py_range (a b : Z) : length (py_range a b) = Z.to_nat (b - a).
Proof. unfold py_range. now rewrite length_map, length_seq. Qed.

Lemma combine_map_seq {B C} (f : nat -> B) (g : nat -> C) (l : list nat) :
  combine (map f l) (map g l) = map (fun i => (f i, g i)) l.
Proof. induction l; simpl; congruence. Qed.

(** What [saveSpeedCSV] writes, given the array of means it computed. *)
Lemma saveSpeedCSV_rows (self : FarenbackAnalyzer) (sp avg : ndarray R)
  (t : nat) (rest : list nat) (means : nat -> R) :
  speeds self = Some sp ->
  (if (length (shape sp) =? 6)%nat then np_mean2 3 4 sp
   else np_mean2 1 2 sp) = OK avg ->
  shape avg = t :: rest ->
  size rest = 1%nat ->
  data avg = map means (seq 0 t) ->
  fst (saveSpeedCSV self)
  = match frameSamplingInterval (channel self) with
    | None => Raise (TypeError "unsupported operand type(s) for -")
    | Some fr =>
        OK (map (fun i => (csv_time (channel self) fr i, means i))
              (seq 0 t))
    end.
Proof.
  intros Hsp Havg Hsh Hrest Hdata.
  unfold saveSpeedCSV, bind, gets, lift, ret, raise.
  rewrite Hsp.
  destruct (length (shape sp) =? 6)%nat; rewrite Havg;
    (destruct (frameSamplingInterval (channel self)) as [fr|];
     [|reflexivity]);
    rewrite Hsh; unfold set_shape; rewrite Hsh;
    (replace (size [t] =? size (t :: rest))%nat with true
      by (symmetry; apply Nat.eqb_eq; simpl; rewrite Hrest; lia));
    cbn [data shape]; rewrite Hdata;
    unfold np_arange;
    rewrite !length_map, length_py_range, length_seq;
    (replace (Z.to_nat (Z.of_nat t + fr - 1 - (fr - 1))) with t by lia);
    rewrite Nat.eqb_refl; cbn [fst]; f_equal;
    unfold py_range;
    (replace (Z.to_nat (Z.of_nat t + fr - 1 - (fr - 1))) with t by lia);
    rewrite map_map; apply combine_map_seq.
Qed.

Lemma size_reshaped (t h w : nat) :
  size [t; 1; 1; h; w; 1]%nat = size [t; h; w].
Proof. simpl. lia. Qed.

(** [saveSpeedArray] on speeds of three axes: the reshape always happens;
    the array reaches the writer unless the pixel size is zero. *)
Lemma saveSpeedArray_run (self : FarenbackAnalyzer) (sp : ndarray R)
  (t h w : nat) :
  speeds self = Some sp ->
  shape sp = [t; h; w] ->
  saveSpeedArray self
  = (if Qeq_bool (pxSize_um (channel self)) 0
     then Raise ZeroDivisionError
     else OK (mk_ndarray float32 [t; 1; 1; h; w; 1]%nat (data sp)),
     set_speeds
       (Some (mk_ndarray (dtype sp) [t; 1; 1; h; w; 1]%nat (data sp))) self)
  /\ channel (snd (saveSpeedArray self)) = channel self.
Proof.
  intros Hsp Hsh.
  assert (H : saveSpeedArray self
              = (if Qeq_bool (pxSize_um (channel self)) 0
                 then Raise ZeroDivisionError
                 else OK (mk_ndarray float32 [t; 1; 1; h; w; 1]%nat (data sp)),
                 set_speeds
                   (Some (mk_ndarray (dtype sp) [t; 1; 1; h; w; 1]%nat
                            (data sp))) self)).
  { unfold saveSpeedArray, bind, gets, lift, ret, raise, modify.
    rewrite Hsp, Hsh. unfold set_shape. rewrite Hsh.
    rewrite (proj2 (Nat.eqb_eq _ _) (size_reshaped t h w)).
    now destruct (Qeq_bool (pxSize_um (channel self)) 0). }
  split; [exact H|]. now rewrite H.
Qed.
End WriterFacts.

(** C10.  On a (time, height, width) speed array, [saveSpeedArray] changes
    the shape in place to (time, 1, 1, height, width, 1) over the same
    buffer (it then hands the array to the writer, or raises
    ZeroDivisionError when the pixel size is zero), and [saveSpeedCSV]
    gives the same result after that reshape as before it: with a
    sampling interval set, both calls return the same rows, row [i]
    holding the mean of frame [i] over height and width. *)
Theorem C10_saveSpeedCSV_same_means_after_reshape :
  forall (self : FarenbackAnalyzer) (sp : ndarray R) (t h w : nat),
    speeds self = Some sp ->
    shape sp = [t; h; w] ->
    exists r self' sp6,
      saveSpeedArray self = (r, self')
      /\ (~ (pxSize_um (channel self) == 0)%Q ->
          r = OK (mk_ndarray float32 [t; 1; 1; h; w; 1] (data sp)))
      /\ ((pxSize_um (channel self) == 0)%Q -> r = Raise ZeroDivisionError)
      /\ speeds self' = Some sp6
      /\ shape sp6 = [t; 1; 1; h; w; 1]
      /\ data sp6 = data sp
      /\ channel self' = channel self
      /\ fst (saveSpeedCSV self') = fst (saveSpeedCSV self)
      /\ forall fr,
          frameSamplingInterval (channel self) = Some fr ->
          fst (saveSpeedCSV self)
          = OK (map (fun i => (csv_time (channel self) fr i,
                               frame_mean sp h w i))
                  (seq 0 t))
          /\ fst (saveSpeedCSV self')
             = OK (map (fun i => (csv_time (channel self) fr i,
                                  frame_mean sp h w i))
                     (seq 0 t)).
Proof.
  intros self sp t h w Hsp Hsh.
  set (sp6 := mk_ndarray (dtype sp) [t; 1; 1; h; w; 1] (data sp)).
  set (self' := set_speeds (Some sp6) self).
  destruct (saveSpeedArray_run self sp t h w Hsp Hsh) as [Hsave _].
  fold sp6 in Hsave. fold self' in Hsave.
  destruct (np_mean2_native sp t h w Hsh) as (avg & Havg & Hs & Hd).
  destruct (np_mean2_reshaped sp sp6 t h w Hsh eq_refl eq_refl)
    as (avg6 & Havg6 & Hs6 & Hd6).
  assert (Hrows : fst (saveSpeedCSV self)
                  = match frameSamplingInterval (channel self) with
                    | None => Raise (TypeError "unsupported operand type(s) for -")
                    | Some fr =>
                        OK (map (fun i => (csv_time (channel self) fr i,
                                           frame_mean sp h w i)) (seq 0 t))
                    end).
  { apply (saveSpeedCSV_rows self sp avg t []); try assumption.
    - now rewrite Hsh.
    - reflexivity. }
  assert (Hrows6 : fst (saveSpeedCSV self')
                   = match frameSamplingInterval (channel self) with
                     | None => Raise (TypeError "unsupported operand type(s) for -")
                     | Some fr =>
                         OK (map (fun i => (csv_time (channel self) fr i,
                                            frame_mean sp h w i)) (seq 0 t))
                     end).
  { apply (saveSpeedCSV_rows self' sp6 avg6 t [1; 1; 1]); try assumption;
      reflexivity. }
  eexists. exists self', sp6.
  split; [exact Hsave|].
  split.
  { intros Hpx. destruct (Qeq_bool (pxSize_um (channel self)) 0) eqn:E;
      [apply Qeq_bool_iff in E; contradiction|reflexivity]. }
  split.
  { intros Hpx. apply Qeq_bool_iff in Hpx. now rewrite Hpx. }
  repeat split; try reflexivity.
  - now rewrite Hrows, Hrows6.
  - now rewrite Hrows, H.
  - now rewrite Hrows6, H.
Qed.

(** * The histogram *)

Section HistogramFacts.
Open Scope R_scope.









End HistogramFacts.


(** * Channel construction *)

Section ConstructionFacts.

Lemma filter_nil_false {B} (f : B -> bool) (l : list B) :
  filter f l = [] -> forall x, In x l -> f x = false.
Proof.
  intros H x Hx. destruct (f x) eqn:E; [|reflexivity].
  assert (Hin : In x (filter f l)) by (apply filter_In; now split).
  rewrite H in Hin. destruct Hin.
Qed.

Lemma py_getitem_lt {B} (l : list B) (i : nat) :
  i < length l -> exists b, nth_error l i = Some b /\ py_getitem l i = OK b.
Proof.
  intros H. unfold py_getitem.
  destruct (nth_error l i) as [b|] eqn:E.
  - now exists b.
  - apply nth_error_None in E. lia.
Qed.

(** A run of the extraction loop over indices none of which matches
    appends nothing, to the local list or to the elapsed times. *)
Lemma page_loop_no_match (idxs : list nat) :
  forall (out : list TiffPage) (self : Channel),
    (forall i, In i idxs ->
       i < length (IndexMap_Slice (IndexMap (tif_mm_metadata self)))
       /\ i < length (IndexMap_Channel (IndexMap (tif_mm_metadata self)))
       /\ match nth_error
                  (IndexMap_Slice (IndexMap (tif_mm_metadata self))) i,
                nth_error
                  (IndexMap_Channel (IndexMap (tif_mm_metadata self))) i
          with
          | Some s, Some c => (s =? sliceIdx self)%Z && (c =? chIndex self)%Z
          | _, _ => false
          end = false) ->
    _page_extractor_loop idxs out self = (OK out, self).
Proof.
  induction idxs as [|i rest IH]; intros out self Hall; [reflexivity|].
  destruct (Hall i (or_introl eq_refl)) as (Hs & Hc & Htest).
  destruct (py_getitem_lt _ i Hs) as (s & Es & Gs).
  destruct (py_getitem_lt _ i Hc) as (c & Ec & Gc).
  rewrite Es, Ec in Htest.
  assert (Hrest : _page_extractor_loop rest out self = (OK out, self))
    by (apply IH; intros j Hj; apply Hall; now right).
  cbn [_page_extractor_loop]. unfold bind, gets, lift.
  rewrite Gs. destruct (s =? sliceIdx self)%Z; [|exact Hrest].
  rewrite Gc. simpl in Htest. rewrite Htest. exact Hrest.
Qed.
End ConstructionFacts.

(** C4.  On metadata whose version string carries none of the
    three markers the resolver raises nothing: it returns [None]; the
    failure comes afterwards, in the constructor, as the TypeError of
    unpacking [None] into two names. *)
Theorem C4_unknown_version_resolves_to_None :
  forall (md : mm_metadata) (version : string),
    MicroManagerVersion (Summary md) = Some version ->
    no_known_marker version ->
    _read_px_size_and_finteval md = OK None
    /\ forall chIndex pgs name sliceIndex,
        Channel_init chIndex
          {| tif_pages := pgs; micromanager_metadata := md |} name sliceIndex
        = Raise (TypeError "cannot unpack non-iterable NoneType object").
Proof.
  intros md version Hv (H14 & Hg & Hb).
  assert (Hread : _read_px_size_and_finteval md = OK None).
  { unfold _read_px_size_and_finteval. rewrite Hv. simpl.
    now rewrite Hb, H14, Hg. }
  split; [exact Hread|].
  intros chIndex pgs name sliceIndex. unfold Channel_init. simpl.
  now rewrite Hread.
Qed.

(** C8.  When the two index maps have one entry per page and
    no page has both the requested slice id and the requested channel id,
    construction goes through: the Channel it returns has an empty page
    list and an empty list of elapsed times. *)
Theorem C8_no_matching_page_gives_empty_channel :
  forall (tiffFile : TiffFile) (chIdx slIdx : Z) (name : string)
         (px fi : Q),
    _read_px_size_and_finteval (micromanager_metadata tiffFile)
    = OK (Some (px, fi)) ->
    length (IndexMap_Slice (IndexMap (micromanager_metadata tiffFile)))
    = length (tif_pages tiffFile) ->
    length (IndexMap_Channel (IndexMap (micromanager_metadata tiffFile)))
    = length (tif_pages tiffFile) ->
    matching_pages tiffFile chIdx slIdx = [] ->
    exists ch,
      Channel_init chIdx tiffFile name slIdx = OK ch
      /\ pages ch = []
      /\ elapsedTimes_ms ch = []
      /\ pxSize_um ch = px /\ finterval_ms ch = fi.
Proof.
  intros tiffFile chIdx slIdx name px fi Hread Hls Hlc Hnone.
  unfold Channel_init. rewrite Hread. cbn [rbind].
  unfold _page_extractor, bind, gets.
  cbn [tif].
  rewrite page_loop_no_match.
  - eexists. split; [reflexivity|]. now repeat split.
  - intros i Hi. cbn [tif_mm_metadata sliceIdx chIndex].
    pose proof Hi as Hlt. apply in_seq in Hlt.
    rewrite Hls, Hlc. repeat split; try lia.
    exact (filter_nil_false _ _ Hnone i Hi).
Qed.

(** * Frame materialisation *)

Section GetArrayFacts.

Lemma shape_setitem0 {B} (d : B) (a a' v : ndarray B) (i : nat) :
  setitem0 d a i v = OK a' -> shape a' = shape a /\ dtype a' = dtype a.
Proof.
  unfold setitem0. destruct (shape a) as [|n r]; [discriminate|].
  destruct (i <? n); [|discriminate].
  destruct (broadcast_to d v r); [|discriminate].
  now intros [= <-].
Qed.

(** The loop of [getArray] never touches the channel; what it returns
    depends on the channel through its page list only, and when it
    succeeds it has decoded one page per index. *)
Lemma getArray_loop_run (idxs : list nat) :
  forall (out : ndarray Q) (c : Channel) (d : nat),
    fst (snd (getArray_loop idxs out (c, d))) = c
    /\ (forall c' d', pages c' = pages c ->
          fst (getArray_loop idxs out (c', d'))
          = fst (getArray_loop idxs out (c, d)))
    /\ (forall arr, fst (getArray_loop idxs out (c, d)) = OK arr ->
          snd (snd (getArray_loop idxs out (c, d))) = d + length idxs
          /\ shape arr = shape out).
Proof.
  induction idxs as [|i rest IH]; intros out c d.
  - simpl. repeat split; try reflexivity.
    + unfold ret. simpl. lia.
    + unfold ret in H. simpl in H. congruence.
  - cbn [getArray_loop]. unfold bind, gets, lift, asarray. cbn [fst snd].
    destruct (py_getitem (pages c) i) as [p|e] eqn:Ep.
    + destruct (setitem0 0%Q out i (np_astype (dtype out) (page_array p)))
        as [out'|e] eqn:Es.
      * destruct (IH out' c (S d)) as (H1 & H2 & H3).
        split; [exact H1|]. split.
        -- intros c' d' Hp. rewrite Hp, Ep. cbn [fst snd]. rewrite Es.
           now apply H2.
        -- intros arr Harr. destruct (H3 arr Harr) as [Hd Hsh].
           split; [simpl; lia|].
           rewrite Hsh. now apply (shape_setitem0 _ _ _ _ _ Es).
      * repeat split; try reflexivity.
        -- intros c' d' Hp. now rewrite Hp, Ep, Es.
        -- discriminate.
        -- discriminate.
    + repeat split; try reflexivity.
      * intros c' d' Hp. now rewrite Hp, Ep.
      * discriminate.
      * discriminate.
Qed.

(** [getArray] leaves [self] as it found it, [self.array] included. *)
Lemma getArray_self_unchanged (g : Q) (c : Channel) (d : nat) :
  fst (snd (getArray g (c, d))) = c.
Proof.
  assert (Hc : fst (snd (getArray_compute g (c, d))) = c).
  { unfold getArray_compute, bind, gets, lift, asarray. cbn [fst snd].
    destruct (from_key (Width _) _); [|reflexivity].
    destruct (from_key (Height _) _); [|reflexivity].
    destruct (py_getitem (pages c) 0); [|reflexivity].
    apply getArray_loop_run. }
  unfold getArray, bind, gets, lift. cbn [fst snd].
  destruct (array c) as [a|]; [|exact Hc].
  destruct (ne_None_truth (size (shape a))) as [[|]|]; try reflexivity.
  exact Hc.
Qed.

(** On a channel without a stored array a successful [getArray] has
    decoded the first page once for the dtype and every page once for
    the pixels, and returns a stack with one frame per page. *)
Lemma getArray_fresh (g : Q) (c : Channel) (d : nat) (arr : ndarray Q) :
  array c = None ->
  fst (getArray g (c, d)) = OK arr ->
  snd (snd (getArray g (c, d))) = d + length (pages c) + 1
  /\ exists w h, shape arr = [length (pages c); w; h].
Proof.
  intros Ha. unfold getArray, bind, gets, lift. cbn [fst snd].
  rewrite Ha.
  unfold getArray_compute, bind, gets, lift, asarray. cbn [fst snd].
  destruct (from_key (Width _) _) as [w|]; [|discriminate].
  destruct (from_key (Height _) _) as [h|]; [|discriminate].
  destruct (py_getitem (pages c) 0) as [p0|]; [|discriminate].
  intros Harr.
  destruct (getArray_loop_run (seq 0 (length (pages c)))
              (np_empty (dtype (page_array p0)) [length (pages c); w; h] g)
              c (S d)) as (_ & _ & H3).
  destruct (H3 arr Harr) as [Hd Hsh]. split.
  - rewrite Hd, length_seq. lia.
  - exists w, h. exact Hsh.
Qed.

(** The outcome of [getArray] does not depend on the decode counter nor
    on the fields of the channel it does not read. *)
Lemma getArray_congr (g : Q) (c c' : Channel) (d d' : nat) :
  pages c' = pages c ->
  array c' = array c ->
  tif_mm_metadata c' = tif_mm_metadata c ->
  fst (getArray g (c', d')) = fst (getArray g (c, d)).
Proof.
  intros Hp Ha Hm.
  assert (Hc : fst (getArray_compute g (c', d'))
               = fst (getArray_compute g (c, d))).
  { unfold getArray_compute, bind, gets, lift, asarray. cbn [fst snd].
    rewrite Hp, Hm.
    destruct (from_key (Width _) _); [|reflexivity].
    destruct (from_key (Height _) _); [|reflexivity].
    destruct (py_getitem (pages c) 0); [|reflexivity].
    now apply getArray_loop_run. }
  unfold getArray, bind, gets, lift. cbn [fst snd]. rewrite Ha.
  destruct (array c) as [a|]; [|exact Hc].
  destruct (ne_None_truth (size (shape a))) as [[|]|]; try reflexivity.
  exact Hc.
Qed.
End GetArrayFacts.

(** C9.  On a channel whose [array] attribute is [None] (as [__init__]
    leaves it) a successful [getArray] stores nothing: [self.array] is
    still [None] afterwards, and the next call decodes every page again
    to return the same stack. *)
Theorem C9_getArray_stores_nothing :
  forall (g : Q) (c : Channel) (d : nat) (arr : ndarray Q),
    array c = None ->
    fst (getArray g (c, d)) = OK arr ->
    let st := snd (getArray g (c, d)) in
    array (fst st) = None
    /\ snd st = d + (length (pages c) + 1)
    /\ fst (getArray g st) = OK arr
    /\ snd (snd (getArray g st)) = d + 2 * (length (pages c) + 1).
Proof.
  intros g c d arr Ha Harr st.
  assert (Hst : st = (c, d + length (pages c) + 1)).
  { subst st. destruct (getArray_fresh g c d arr Ha Harr) as [Hd _].
    pose proof (getArray_self_unchanged g c d) as Hc.
    destruct (snd (getArray g (c, d))) as [c1 d1]. simpl in *. congruence. }
  rewrite Hst. cbn [fst snd].
  assert (Harr' : fst (getArray g (c, d + length (pages c) + 1)) = OK arr)
    by (now rewrite (getArray_congr g c c d (d + length (pages c) + 1))).
  repeat split; try assumption; try lia.
  destruct (getArray_fresh g c _ arr Ha Harr') as [Hd _]. lia.
Qed.

(** * Validation of the temporal median filter *)

Section ValidationFacts.

Lemma median_cache_miss (self : Channel) (recalculate : bool) :
  medianArray self = None \/ recalculate = true ->
  median_cache_hit self recalculate = None.
Proof.
  unfold median_cache_hit. intros [->| ->]; [reflexivity|].
  destruct (medianArray self) as [m|]; [|reflexivity].
  destruct (ne_None_truth (size (shape m))) as [t|]; [|reflexivity].
  now rewrite andb_false_r.
Qed.
End ValidationFacts.

(** * The temporal median filter *)

Section MedianFacts.

Lemma py_slice_bound_nonneg (n : nat) (i : Z) :
  (0 <= i)%Z -> (i <= Z.of_nat n)%Z -> py_slice_bound n i = Z.to_nat i.
Proof.
  intros H0 Hn. unfold py_slice_bound.
  destruct (Z.ltb_spec i 0); lia.
Qed.

(** Frame [f] of the slice [a[lo:hi]] is frame [lo + f] of [a]. *)
Lemma item_slice0 {B} (d : B) (a : ndarray B) (n : nat) (r : list nat)
  (lo hi : Z) (f : nat) (j : list nat) :
  shape a = n :: r ->
  (0 <= lo)%Z -> (lo <= hi)%Z -> (hi <= Z.of_nat n)%Z ->
  f < Z.to_nat (hi - lo) ->
  in_bounds r j = true ->
  shape (slice0 a lo hi) = Z.to_nat (hi - lo) :: r
  /\ item d (slice0 a lo hi) (f :: j) = item d a ((Z.to_nat lo + f) :: j).
Proof.
  intros Hsh H0 Hle Hn Hf Hj.
  unfold slice0, item. rewrite Hsh.
  rewrite !py_slice_bound_nonneg by lia. cbn [shape data offset].
  replace (Z.to_nat hi - Z.to_nat lo) with (Z.to_nat (hi - lo)) by lia.
  split; [reflexivity|].
  pose proof (offset_lt r j Hj) as Ho.
  rewrite nth_firstn.
  destruct (Nat.ltb_spec (f * size r + offset r j)
              (Z.to_nat (hi - lo) * size r)); [|nia].
  rewrite nth_skipn. f_equal. lia.
Qed.

Lemma item_median_axis0 (a : ndarray Q) (cnt : nat) (r j : list nat) :
  shape a = cnt :: r ->
  in_bounds r j = true ->
  item NaN (np_median_axis0 a) j
  = median1 (map (fun f => item 0%Q a (f :: j)) (seq 0 cnt)).
Proof.
  intros Hsh Hj. unfold np_median_axis0. rewrite Hsh.
  now rewrite item_tabulate.
Qed.

Lemma shape_median_axis0 (a : ndarray Q) (cnt : nat) (r : list nat) :
  shape a = cnt :: r ->
  shape (np_median_axis0 a) = r
  /\ length (data (np_median_axis0 a)) = size r.
Proof.
  intros Hsh. unfold np_median_axis0. rewrite Hsh.
  split; [reflexivity|apply length_tabulate].
Qed.

Lemma in_bounds_hw (h w y x : nat) :
  y < h -> x < w -> in_bounds [h; w] [y; x] = true.
Proof.
  intros Hy Hx. simpl.
  apply Nat.ltb_lt in Hy as ->. now apply Nat.ltb_lt in Hx as ->.
Qed.

(** The window of the specification, when all its frames exist. *)
Lemma window_samples_ok (arr : ndarray Q) (n h w y x : nat) :
  shape arr = [n; h; w] -> y < h -> x < w ->
  forall (cnt : nat) (s : Z),
    (0 <= s)%Z -> (s + Z.of_nat cnt <= Z.of_nat n)%Z ->
    window_samples arr s cnt y x
    = Some (map (fun f => item 0%Q arr [Z.to_nat s + f; y; x]) (seq 0 cnt)).
Proof.
  intros Hsh Hy Hx.
  induction cnt as [|cnt IH]; intros s H0 Hn; [reflexivity|].
  cbn [window_samples]. unfold frame_pixel at 1. rewrite Hsh.
  destruct (Z.leb_spec 0 s); [|lia].
  destruct (Z.ltb_spec s (Z.of_nat n)); [|lia].
  apply Nat.ltb_lt in Hy as Hyb. apply Nat.ltb_lt in Hx as Hxb.
  rewrite Hyb, Hxb. cbn [andb].
  rewrite IH by lia.
  cbn [seq map]. rewrite Nat.add_0_r. f_equal. f_equal.
  rewrite <- seq_shift, map_map.
  apply map_ext. intros f. do 2 f_equal. lia.
Qed.

Lemma shape_slice0 {B} (a : ndarray B) (n : nat) (r : list nat) (lo hi : Z) :
  shape a = n :: r -> exists cnt, shape (slice0 a lo hi) = cnt :: r.
Proof. intros H. unfold slice0. rewrite H. eexists. reflexivity. Qed.

(** The frame [np.median(a, axis=0, out=fr)] leaves in [fr]. *)
Lemma median_out32 (a : ndarray Q) (cnt : nat) (r : list nat) :
  shape a = cnt :: r ->
  shape (np_median_axis0_out32 a) = r
  /\ length (data (np_median_axis0_out32 a)) = size r
  /\ forall j, in_bounds r j = true ->
       item NaN (np_median_axis0_out32 a) j
       = astype_float32
           (median1 (map (fun f => item 0%Q a (f :: j)) (seq 0 cnt))).
Proof.
  intros Hsh. destruct (shape_median_axis0 a cnt r Hsh) as [Hs Hl].
  unfold np_median_axis0_out32. cbn [shape data]. rewrite Hs.
  split; [reflexivity|]. split; [now rewrite length_map|].
  intros j Hj. rewrite <- (item_median_axis0 a cnt r j Hsh Hj).
  unfold item. cbn [shape data]. rewrite Hs.
  change NaN with (astype_float32 NaN) at 1. apply map_nth.
Qed.

(** The loop, started at output frame [k0] with [m] frames to go, for any
    start frame and window size: output frame [k] is the frame
    [np.median] leaves for the slice
    [arr[start + k : start + k + W]]. *)
Lemma median_loop_frames (arr : ndarray Q) (W start : Z) (n h w nout : nat) :
  shape arr = [n; h; w] ->
  forall (m k0 : nat) (med : ndarray fval) (st : Channel * nat),
    k0 + m = nout ->
    shape med = [nout; h; w] ->
    length (data med) = nout * size [h; w] ->
    medianArray (fst st) = Some med ->
    exists med' st',
      median_loop arr W
        (map (fun i => (start + Z.of_nat i)%Z) (seq k0 m)) med k0 st
      = (OK med', st')
      /\ shape med' = [nout; h; w]
      /\ dtype med' = dtype med
      /\ st' = (set_medianArray (Some med') (fst st), snd st)
      /\ (forall k y x, k < k0 -> y < h -> x < w ->
            item NaN med' [k; y; x] = item NaN med [k; y; x])
      /\ (forall k y x, k0 <= k -> k < nout -> y < h -> x < w ->
            item NaN med' [k; y; x]
            = item NaN
                (np_median_axis0_out32
                   (slice0 arr (start + Z.of_nat k)
                      (start + Z.of_nat k + W))) [y; x]).
Proof.
  intros Hsh.
  induction m as [|m IH]; intros k0 med st Hk Hmed Hlen Hst.
  - exists med, st. cbn [seq map median_loop]. unfold ret.
    repeat split; try assumption; try reflexivity.
    + destruct st as [c d]. cbn [fst snd] in *.
      f_equal. destruct c. cbn in *. now subst.
    + intros; lia.
  - cbn [seq map median_loop].
    set (inframe := (start + Z.of_nat k0)%Z).
    set (sl := slice0 arr inframe (inframe + W)).
    assert (Hk0 : k0 < nout) by lia.
    destruct (shape_slice0 arr n [h; w] inframe (inframe + W) Hsh)
      as [cnt Hslsh].
    fold sl in Hslsh.
    destruct (median_out32 sl cnt [h; w] Hslsh) as (Hvsh & Hvlen & _).
    destruct (setitem0 NaN med k0 (np_median_axis0_out32 sl))
      as [med1|e] eqn:Es.
    2:{ rewrite (setitem0_same_shape NaN med _ nout k0 [h; w])
          in Es by assumption. discriminate. }
    destruct (item_setitem0 NaN med med1 (np_median_axis0_out32 sl) nout k0
                [h; w] Hmed Hk0 Hvsh Hlen Hvlen Es)
      as (Hsh1 & Hdt1 & Hlen1 & Hsame & Hother).
    unfold bind at 1, lift at 1. unfold bind at 1, modify at 1.
    destruct (IH (S k0) med1
                (set_medianArray (Some med1) (fst st), snd st))
      as (med' & st' & Hrun & Hsh' & Hdt' & Hst' & Hlow & Hhigh);
      try assumption; try lia; try reflexivity.
    exists med', st'. rewrite Hrun.
    repeat split; try assumption.
    + congruence.
    + intros k y x Hkk Hy Hx.
      rewrite Hlow by lia.
      apply Hother; [lia|lia|now apply in_bounds_hw].
    + intros k y x Hge Hlt Hy Hx.
      destruct (Nat.eq_dec k k0) as [->|Hne].
      * rewrite Hlow by lia.
        apply Hsame. now apply in_bounds_hw.
      * apply Hhigh; try assumption. lia.
Qed.

(** A frame of the loop when the window lies inside the stack: the
    float32 value of the median of the samples of the window. *)
Lemma median_window_item (arr : ndarray Q) (W s : Z) (n h w y x : nat) :
  shape arr = [n; h; w] ->
  (0 <= s)%Z -> (0 <= W)%Z -> (s + W <= Z.of_nat n)%Z ->
  y < h -> x < w ->
  item NaN (np_median_axis0_out32 (slice0 arr s (s + W))) [y; x]
  = astype_float32
      (median1 (map (fun f => item 0%Q arr [Z.to_nat s + f; y; x])
                  (seq 0 (Z.to_nat W)))).
Proof.
  intros Hsh H0 HW Hfit Hy Hx.
  assert (Hslsh : shape (slice0 arr s (s + W)) = Z.to_nat W :: [h; w]).
  { unfold slice0. rewrite Hsh.
    rewrite !py_slice_bound_nonneg by lia. cbn [shape].
    f_equal. lia. }
  destruct (median_out32 _ _ _ Hslsh) as (_ & _ & Hit).
  rewrite Hit by now apply in_bounds_hw.
  do 2 f_equal. apply map_ext_in. intros f Hf. apply in_seq in Hf.
  destruct (item_slice0 0%Q arr n [h; w] s (s + W) f [y; x] Hsh)
    as [_ Hitem]; try lia; [now apply in_bounds_hw|].
  exact Hitem.
Qed.

(** The loop, for a start frame and a window size that are not negative
    and windows that lie inside the stack. *)
Lemma median_loop_spec (arr : ndarray Q) (W start : Z)
  (n h w nout : nat) :
  shape arr = [n; h; w] ->
  (0 <= start)%Z -> (0 <= W)%Z ->
  (forall k, k < nout -> (start + Z.of_nat k + W <= Z.of_nat n)%Z) ->
  forall (m k0 : nat) (med : ndarray fval) (st : Channel * nat),
    k0 + m = nout ->
    shape med = [nout; h; w] ->
    length (data med) = nout * size [h; w] ->
    medianArray (fst st) = Some med ->
    exists med' st',
      median_loop arr W
        (map (fun i => (start + Z.of_nat i)%Z) (seq k0 m)) med k0 st
      = (OK med', st')
      /\ shape med' = [nout; h; w]
      /\ dtype med' = dtype med
      /\ medianArray (fst st') = Some med'
      /\ frameSamplingInterval (fst st') = frameSamplingInterval (fst st)
      /\ (forall k y x, k < k0 -> y < h -> x < w ->
            item NaN med' [k; y; x] = item NaN med [k; y; x])
      /\ (forall k y x, k0 <= k -> k < nout -> y < h -> x < w ->
            item NaN med' [k; y; x]
            = astype_float32
                (median1 (map (fun f => item 0%Q arr
                                          [Z.to_nat start + k + f; y; x])
                            (seq 0 (Z.to_nat W))))).
Proof.
  intros Hsh H0 HW Hfit m k0 med st Hk Hmed Hlen Hst.
  destruct (median_loop_frames arr W start n h w nout Hsh m k0 med st
              Hk Hmed Hlen Hst)
    as (med' & st' & Hrun & Hsh' & Hdt & Hst' & Hlow & Hhigh).
  exists med', st'. split; [exact Hrun|]. split; [exact Hsh'|].
  split; [exact Hdt|]. rewrite Hst'. cbn [fst].
  split; [reflexivity|]. split; [reflexivity|]. split; [exact Hlow|].
  intros k y x Hge Hlt Hy Hx.
  rewrite Hhigh by assumption.
  rewrite (median_window_item arr W (start + Z.of_nat k) n h w y x Hsh);
    try assumption; try lia.
  - do 2 f_equal. apply map_ext. intros f. do 2 f_equal. lia.
  - apply Hfit. exact Hlt.
Qed.

Lemma effective_stop_le (self : Channel) (stopFrame : option Z) :
  (effective_stop self stopFrame <= Z.of_nat (length (pages self)))%Z.
Proof.
  unfold effective_stop. destruct stopFrame as [s|]; [|lia].
  destruct (Z.gtb_spec s (Z.of_nat (length (pages self)))); lia.
Qed.
End MedianFacts.


(** C2.  On a channel whose frames materialise to the stack
    [arr], a call that passes the validation with a start frame that is
    not negative and a window size that is not negative returns (and
    stores) a float32 stack of (stopFrame - startFrame) - (window - 1)
    frames, [stopFrame] being the value after clamping; output frame [k]
    holds at every pixel the median of the samples of that pixel in the
    input frames startFrame + k, ..., startFrame + k + window - 1. *)
Theorem C2_gliding_median_of_valid_window :
  forall (gQ : Q) (gF : fval) (self : Channel) (d : nat)
         (startFrame : Z) (stopFrame : option Z) (W : Z) (recalculate : bool)
         (arr : ndarray Q),
    medianArray self = None \/ recalculate = true ->
    array self = None ->
    fst (getArray gQ (self, d)) = OK arr ->
    (0 <= startFrame)%Z ->
    (0 <= W)%Z ->
    (startFrame < effective_stop self stopFrame)%Z ->
    (W <= effective_stop self stopFrame - startFrame)%Z ->
    exists out st,
      getTemporalMedianFilterArray gQ gF startFrame stopFrame W recalculate
        (self, d) = (OK out, st)
      /\ medianArray (fst st) = Some out
      /\ frameSamplingInterval (fst st) = Some W
      /\ gliding_median arr startFrame (effective_stop self stopFrame) W out.
Proof.
  intros gQ gF self d startFrame stopFrame W recalculate arr
    Hmiss Harray Harr H0 HW Hlt Hfit.
  set (stop := effective_stop self stopFrame) in *.
  pose proof (effective_stop_le self stopFrame) as Hstop. fold stop in Hstop.
  destruct (getArray_fresh gQ self d arr Harray Harr) as [_ (w & h & Hsh)].
  set (c1 := set_frameSamplingInterval (Some W) self).
  assert (Harr1 : fst (getArray gQ (c1, d)) = OK arr)
    by (now rewrite (getArray_congr gQ self c1 d d)).
  pose proof (getArray_self_unchanged gQ c1 d) as Hself1.
  set (nout := Z.to_nat (stop - startFrame - (W - 1))).
  set (med0 := np_empty float32 [nout; w; h] gF).
  destruct (getArray gQ (c1, d)) as [r [c2 d2]] eqn:Eget.
  cbn [fst snd] in Harr1, Hself1. subst r c2.
  destruct (median_loop_spec arr W startFrame (length (pages self)) w h nout
              Hsh H0 HW) with
    (m := nout) (k0 := 0) (med := med0)
    (st := (set_medianArray (Some med0) c1, d2))
    as (out & st & Hrun & Hsho & Hdt & Hst & Hfsi & _ & Hval);
    try reflexivity.
  { intros k Hk. unfold nout in Hk. lia. }
  { unfold med0, np_empty. cbn [data]. now rewrite repeat_length. }
  exists out, st.
  split; [|split; [exact Hst|split; [exact Hfsi|]]].
  - unfold getTemporalMedianFilterArray, bind, gets. cbn [fst].
    rewrite (median_cache_miss _ _ Hmiss). fold stop.
    destruct (Z.geb_spec startFrame stop); [lia|].
    destruct (Z.ltb_spec (stop - startFrame) W); [lia|].
    unfold median_compute, bind, modify. cbn [fst snd]. fold c1.
    rewrite Eget. rewrite Hsh.
    destruct (Z.ltb_spec (stop - startFrame - (W - 1)) 0); [lia|].
    cbn [fst snd]. fold nout. fold med0.
    unfold py_range.
    replace (Z.to_nat (stop - W + 1 - startFrame)) with nout
      by (unfold nout; lia).
    exact Hrun.
  - split; [now rewrite Hdt|].
    exists (length (pages self)), w, h.
    split; [exact Hsh|]. split; [exact Hsho|].
    intros k y x Hk Hy Hx.
    exists (map (fun f => item 0%Q arr [Z.to_nat startFrame + k + f; y; x])
              (seq 0 (Z.to_nat W))).
    split.
    + rewrite (window_samples_ok arr (length (pages self)) w h y x Hsh Hy Hx)
        by lia.
      f_equal. apply map_ext. intros f. do 2 f_equal. lia.
    + apply Hval; try assumption; unfold nout; lia.
Qed.


(** * The statements at sample inputs *)

(** The constructor builds the sample channels from the sample files. *)
Example Channel_init_ch_on_time :
  Channel_init 0 (ex_tif gamma_version [5; 7; 9]%Q [0; 1000; 2000]%Q) "Ch1" 0
  = OK ch_on_time.
Proof. reflexivity. Qed.

Example Channel_init_ch_slow :
  Channel_init 0 (ex_tif gamma_version [5; 7; 9]%Q [0; 1200; 2400]%Q) "Ch1" 0
  = OK ch_slow.
Proof. reflexivity. Qed.

(** On [ch_slow] the driver path does get a scale factor, computed from
    the actual mean of 1200 ms: 1 * (1200 / 1000) / 60. *)
Example analyzeFiles_scaler_ch_slow :
  exists s, analyzeFiles_scaler ch_slow = OK s /\ (s == 1 # 50)%Q.
Proof. eexists. split; [vm_compute; reflexivity|reflexivity]. Qed.

(** Storing 2^24 + 1 as float32 gives 2^24: the two neighbours are
    equally near and 2^24 has the even significand. *)
Example to_float32_of_16777217 : to_float32 16777217 = Num 16777216.
Proof. vm_compute. reflexivity. Qed.

(** A 16-bit 300 assigned into an 8-bit stack wraps to 44. *)
Example np_cast_uint8_of_300 : np_cast uint8 300 = 44%Q.
Proof. reflexivity. Qed.

(** On [ch_frozen] the mean of the intervals is zero: the analyzer
    still fails with the NameError, the division by the zero interval
    having given an infinity that was stored in [Channel.scaler]. *)
Example FarenbackAnalyzer_init_ch_frozen :
  fst (FarenbackAnalyzer_init ch_frozen) = Raise (NameError "Ch0")
  /\ channel_scaler (snd (FarenbackAnalyzer_init ch_frozen))
     = Some (Inf false).
Proof. split; vm_compute; reflexivity. Qed.

Lemma C1_witness :
  (pxSize_um ch_on_time == 1)%Q
  /\ (finterval_ms ch_on_time == 1000)%Q
  /\ doFrameIntervalSanityCheck ch_on_time default_maxDiff = OK (Some true)
  /\ shape (flow_1x1 2 0) = [1; 1; 1; 2]
  /\ exists a out st,
      FarenbackAnalyzer_init ch_on_time = (OK a, ch_on_time)
      /\ (scaler a == 1 # 60)%Q
      /\ doFlowsToSpeed None false false 10 None
           (set_flows (Some (flow_1x1 2 0)) a) = (OK out, st)
      /\ item 0%R out [0; 0; 0] = (1 / 30)%R
      /\ item 0%R out [0; 0; 0] <> 120%R.
Proof.
  split; [reflexivity|]. split; [reflexivity|]. split; [reflexivity|].
  split; [reflexivity|].
  destruct (C1_default_scaler_is_one_sixtieth ch_on_time (flow_1x1 2 0)
              1 1 1)
    as (a & out & st & Ha & Hs & Hrun & Hval).
  - reflexivity.
  - reflexivity.
  - reflexivity.
  - reflexivity.
  - intros t y x Ht Hy Hx.
    assert (t = 0) as -> by lia. assert (y = 0) as -> by lia.
    assert (x = 0) as -> by lia. split; reflexivity.
  - exists a, out, st. repeat split; try assumption; apply Hval; lia.
Defined.

Lemma C3_witness :
  doFrameIntervalSanityCheck ch_slow default_maxDiff = OK (Some false)
  /\ fails (fst (FarenbackAnalyzer_init ch_slow))
  /\ fst (FarenbackAnalyzer_init ch_slow) = Raise (NameError "Ch0").
Proof.
  split; [reflexivity|].
  destruct (C3_diverging_channel_gets_no_scaler ch_slow eq_refl) as [Hf Hn].
  split; [exact Hf|].
  eapply Hn; vm_compute; reflexivity.
Defined.

(** C2, counterexample.  Two calls that the validation accepts and whose
    result is not the gliding median: with start frame -1 the first
    window is [arr[-1:2]], which is empty, and there is no input frame -1
    to start three consecutive frames at; with window size -1 the first
    output frame is the median of [arr[0:-1]], two frames, not the median
    of an empty window. *)
Lemma C2_counterexample :
  fst (getArray 0%Q (ch_on_time, 0))
  = OK (mk_ndarray uint16 [3; 1; 1] [5; 7; 9]%Q)
  /\ (exists out st,
        getTemporalMedianFilterArray 0%Q NaN (-1) None 3 false (ch_on_time, 0)
        = (OK out, st)
        /\ ~ gliding_median (mk_ndarray uint16 [3; 1; 1] [5; 7; 9]%Q) (-1)
             (effective_stop ch_on_time None) 3 out)
  /\ (exists out st,
        getTemporalMedianFilterArray 0%Q NaN 0 None (-1) false (ch_on_time, 0)
        = (OK out, st)
        /\ ~ gliding_median (mk_ndarray uint16 [3; 1; 1] [5; 7; 9]%Q) 0
             (effective_stop ch_on_time None) (-1) out).
Proof.
  split; [reflexivity|]. split.
  - eexists. eexists. split; [vm_compute; reflexivity|].
    intros (_ & n & h & w & Hsh & _ & Hall).
    injection Hsh as <- <- <-.
    destruct (Hall 0 0 0) as (samples & Hs & _); try lia.
    + vm_compute. reflexivity.
    + vm_compute in Hs. discriminate.
  - eexists. eexists. split; [vm_compute; reflexivity|].
    intros (_ & n & h & w & Hsh & _ & Hall).
    injection Hsh as <- <- <-.
    destruct (Hall 0 0 0) as (samples & Hs & Hv); try lia.
    + vm_compute. reflexivity.
    + vm_compute in Hs. injection Hs as <-.
      vm_compute in Hv. discriminate.
Qed.

Lemma C2_witness :
  (medianArray ch_four = None \/ false = true)
  /\ array ch_four = None
  /\ fst (getArray 0%Q (ch_four, 0))
     = OK (mk_ndarray uint16 [4; 1; 1] [5; 9; 7; 8]%Q)
  /\ (0 <= 0)%Z /\ (0 <= 3)%Z
  /\ (0 < effective_stop ch_four None)%Z
  /\ (3 <= effective_stop ch_four None - 0)%Z
  /\ exists out st,
      getTemporalMedianFilterArray 0%Q NaN 0 None 3 false (ch_four, 0)
      = (OK out, st)
      /\ medianArray (fst st) = Some out
      /\ frameSamplingInterval (fst st) = Some 3%Z
      /\ gliding_median (mk_ndarray uint16 [4; 1; 1] [5; 9; 7; 8]%Q) 0
           (effective_stop ch_four None) 3 out.
Proof.
  split; [now left|]. split; [reflexivity|]. split; [reflexivity|].
  split; [lia|]. split; [lia|].
  split; [vm_compute; reflexivity|].
  split; [vm_compute; discriminate|].
  apply C2_gliding_median_of_valid_window.
  - now left.
  - reflexivity.
  - reflexivity.
  - lia.
  - lia.
  - vm_compute. reflexivity.
  - vm_compute. discriminate.
Defined.

(** C4, counterexample.  A version string with none of the markers, on
    which the resolver does not fail. *)
Lemma C4_counterexample :
  no_known_marker "3.0.0 20210101"
  /\ ~ fails (_read_px_size_and_finteval (ex_metadata "3.0.0 20210101" 2)).
Proof.
  split; [repeat split; reflexivity|].
  intros [e He]. vm_compute in He. discriminate.
Qed.

Lemma C4_witness :
  MicroManagerVersion (Summary (ex_metadata "3.0.0 20210101" 2))
  = Some "3.0.0 20210101"
  /\ no_known_marker "3.0.0 20210101"
  /\ _read_px_size_and_finteval (ex_metadata "3.0.0 20210101" 2) = OK None
  /\ Channel_init 0
       {| tif_pages := []; micromanager_metadata :=
                             ex_metadata "3.0.0 20210101" 2 |} "Ch1" 0
     = Raise (TypeError "cannot unpack non-iterable NoneType object").
Proof.
  split; [reflexivity|]. split; [repeat split; reflexivity|].
  destruct (C4_unknown_version_resolves_to_None
              (ex_metadata "3.0.0 20210101" 2) "3.0.0 20210101")
    as [Hr Hc].
  - reflexivity.
  - repeat split; reflexivity.
  - split; [exact Hr|apply Hc].
Defined.



Lemma C7_witness :
  flows (analyzer_with ch_on_time 1 (Some (flow_1x1 3 4)) None)
  = Some (flow_1x1 3 4)
  /\ shape (flow_1x1 3 4) = [1; 1; 1; 2]
  /\ fails (fst (doFlowsToSpeed (Some 1%Q) false false 10 None
                   (analyzer_with ch_on_time 1 None None)))
  /\ (exists out self',
        doFlowsToSpeed (Some 1%Q) false false 10 None
          (analyzer_with ch_on_time 1 (Some (flow_1x1 3 4)) None)
        = (OK out, self')
        /\ speeds self' = Some out
        /\ item 0%R out [0; 0; 0] = 5%R)
  /\ exists out r self',
      doFlowsToSpeed (Some 1%Q) true true 10 None
        (analyzer_with ch_on_time 1 (Some (flow_1x1 3 4)) None)
      = (r, self')
      /\ speeds self' = Some out
      /\ item 0%R out [0; 0; 0] = 5%R.
Proof.
  assert (Hu : forall t y x, t < 1 -> y < 1 -> x < 1 ->
            item 0%R (flow_1x1 3 4) [t; y; x; 0] = 3%R
            /\ item 0%R (flow_1x1 3 4) [t; y; x; 1] = 4%R).
  { intros t y x Ht Hy Hx.
    assert (t = 0) as -> by lia. assert (y = 0) as -> by lia.
    assert (x = 0) as -> by lia. split; reflexivity. }
  split; [reflexivity|]. split; [reflexivity|]. split; [|split].
  - apply (C7_doFlowsToSpeed_euclidean_norm
             (analyzer_with ch_on_time 1 None None) (Some 1%Q) false false 10
             None).
    reflexivity.
  - destruct (proj2 (C7_doFlowsToSpeed_euclidean_norm
                       (analyzer_with ch_on_time 1 (Some (flow_1x1 3 4)) None)
                       (Some 1%Q) false false 10 None)
                (flow_1x1 3 4) 1 1 1 eq_refl eq_refl)
      as (out & r & self' & Hrun & Hsp & _ & Hok & _ & _ & Hfive).
    exists out, self'. rewrite Hrun, (Hok eq_refl).
    split; [reflexivity|]. split; [exact Hsp|].
    apply Hfive; try lia; try reflexivity. exact Hu.
  - destruct (proj2 (C7_doFlowsToSpeed_euclidean_norm
                       (analyzer_with ch_on_time 1 (Some (flow_1x1 3 4)) None)
                       (Some 1%Q) true true 10 None)
                (flow_1x1 3 4) 1 1 1 eq_refl eq_refl)
      as (out & r & self' & Hrun & Hsp & _ & _ & _ & _ & Hfive).
    exists out, r, self'. split; [exact Hrun|]. split; [exact Hsp|].
    apply Hfive; try lia; try reflexivity. exact Hu.
Defined.

(** C8, counterexample.  No page of the sample file is on channel 1, and
    [Channel(1, tif, "Ch2")] is built all the same. *)
Lemma C8_counterexample :
  matching_pages (ex_tif gamma_version [5; 7; 9]%Q [0; 1000; 2000]%Q) 1 0 = []
  /\ ~ fails (Channel_init 1
                (ex_tif gamma_version [5; 7; 9]%Q [0; 1000; 2000]%Q) "Ch2" 0).
Proof.
  split; [reflexivity|].
  intros [e He]. vm_compute in He. discriminate.
Qed.

Lemma C8_witness :
  _read_px_size_and_finteval
    (micromanager_metadata
       (ex_tif gamma_version [5; 7; 9]%Q [0; 1000; 2000]%Q))
  = OK (Some (1%Q, 1000%Q))
  /\ matching_pages (ex_tif gamma_version [5; 7; 9]%Q [0; 1000; 2000]%Q) 1 0
     = []
  /\ exists ch,
      Channel_init 1 (ex_tif gamma_version [5; 7; 9]%Q [0; 1000; 2000]%Q)
        "Ch2" 0 = OK ch
      /\ pages ch = [] /\ elapsedTimes_ms ch = []
      /\ pxSize_um ch = 1%Q /\ finterval_ms ch = 1000%Q.
Proof.
  split; [reflexivity|]. split; [reflexivity|].
  apply C8_no_matching_page_gives_empty_channel; reflexivity.
Defined.

Lemma C9_witness :
  array ch_on_time = None
  /\ fst (getArray 0%Q (ch_on_time, 0))
     = OK (mk_ndarray uint16 [3; 1; 1] [5; 7; 9]%Q)
  /\ array (fst (snd (getArray 0%Q (ch_on_time, 0)))) = None
  /\ snd (snd (getArray 0%Q (ch_on_time, 0))) = 4
  /\ fst (getArray 0%Q (snd (getArray 0%Q (ch_on_time, 0))))
     = OK (mk_ndarray uint16 [3; 1; 1] [5; 7; 9]%Q)
  /\ snd (snd (getArray 0%Q (snd (getArray 0%Q (ch_on_time, 0))))) = 8.
Proof.
  split; [reflexivity|]. split; [reflexivity|].
  exact (C9_getArray_stores_nothing 0%Q ch_on_time 0
           (mk_ndarray uint16 [3; 1; 1] [5; 7; 9]%Q) eq_refl eq_refl).
Defined.

Lemma C10_witness :
  speeds (analyzer_with ch_four_filtered 1 None
            (Some (mk_ndarray float32 [2; 1; 2] [5; 7; 1; 2]%R)))
  = Some (mk_ndarray float32 [2; 1; 2] [5; 7; 1; 2]%R)
  /\ shape (mk_ndarray float32 [2; 1; 2] [5; 7; 1; 2]%R) = [2; 1; 2]
  /\ ~ (pxSize_um ch_four_filtered == 0)%Q
  /\ frameSamplingInterval ch_four_filtered = Some 3%Z
  /\ exists written self' sp6 rows,
      saveSpeedArray (analyzer_with ch_four_filtered 1 None
                        (Some (mk_ndarray float32 [2; 1; 2] [5; 7; 1; 2]%R)))
      = (OK written, self')
      /\ speeds self' = Some sp6
      /\ shape sp6 = [2; 1; 1; 1; 2; 1]
      /\ fst (saveSpeedCSV
                (analyzer_with ch_four_filtered 1 None
                   (Some (mk_ndarray float32 [2; 1; 2] [5; 7; 1; 2]%R))))
         = OK rows
      /\ fst (saveSpeedCSV self') = OK rows
      /\ map snd rows = [((5 + 7) / 2)%R; ((1 + 2) / 2)%R].
Proof.
  split; [reflexivity|]. split; [reflexivity|]. split; [discriminate|].
  split; [reflexivity|].
  destruct (C10_saveSpeedCSV_same_means_after_reshape
              (analyzer_with ch_four_filtered 1 None
                 (Some (mk_ndarray float32 [2; 1; 2] [5; 7; 1; 2]%R)))
              (mk_ndarray float32 [2; 1; 2] [5; 7; 1; 2]%R) 2 1 2
              eq_refl eq_refl)
    as (r & self' & sp6 & Hsave & Hok & _ & Hsp & Hsh & _ & _ & _ & Hrows).
  destruct (Hrows 3%Z eq_refl) as [Hrows3 Hrows6].
  rewrite Hok in Hsave by discriminate.
  eexists. exists self', sp6. eexists.
  split; [exact Hsave|]. split; [exact Hsp|]. split; [exact Hsh|].
  split; [exact Hrows3|]. split; [exact Hrows6|].
  unfold frame_mean, item. simpl. f_equal; [|f_equal]; lra.
Defined.


(** * Further properties: construction of a Channel *)

Section ExtractionFacts.

(** A successful run of the extraction loop appends, in order, the pages
    at the matching indices and their elapsed-time stamps, and changes
    nothing else of the channel that the loop reads. *)
Lemma page_loop_ok (idxs : list nat) :
  forall (out out' : list TiffPage) (self self' : Channel),
    _page_extractor_loop idxs out self = (OK out', self') ->
    exists newp ts,
      out' = out ++ newp
      /\ elapsedTimes_ms self' = elapsedTimes_ms self ++ ts
      /\ map ElapsedTime_ms newp = map Some ts
      /\ map Some newp
         = map (nth_error (tif_pages (tif self)))
             (filter
                (fun i =>
                   match nth_error
                           (IndexMap_Slice (IndexMap (tif_mm_metadata self))) i,
                         nth_error
                           (IndexMap_Channel (IndexMap (tif_mm_metadata self))) i
                   with
                   | Some s, Some c =>
                       (s =? sliceIdx self)%Z && (c =? chIndex self)%Z
                   | _, _ => false
                   end) idxs).
Proof.
  induction idxs as [|i rest IH]; intros out out' self self'.
  - cbn [_page_extractor_loop]. unfold ret. intros [= <- <-].
    exists [], []. now rewrite !app_nil_r.
  - cbn [_page_extractor_loop filter]. unfold bind, gets, lift, modify.
    unfold py_getitem at 1.
    destruct (nth_error (IndexMap_Slice (IndexMap (tif_mm_metadata self))) i)
      as [s|]; [|discriminate].
    destruct (s =? sliceIdx self)%Z.
    + unfold py_getitem at 1.
      destruct (nth_error
                  (IndexMap_Channel (IndexMap (tif_mm_metadata self))) i)
        as [c|]; [|discriminate].
      destruct (c =? chIndex self)%Z; cbn [andb].
      * unfold py_getitem at 1.
        destruct (nth_error (tif_pages (tif self)) i) as [page|] eqn:Ep;
          [|discriminate].
        destruct (ElapsedTime_ms page) as [t|] eqn:Et; [|discriminate].
        cbn [from_key]. intros Hrun.
        destruct (IH _ _ _ _ Hrun) as (newp & ts & H1 & H2 & H3 & H4).
        exists (page :: newp), (t :: ts).
        cbn [set_elapsedTimes_ms elapsedTimes_ms tif tif_mm_metadata
               sliceIdx chIndex] in H2, H4.
        rewrite H1, H2, <- !app_assoc. cbn [app map].
        rewrite Et, H3, Ep, H4. repeat split; reflexivity.
      * intros Hrun. exact (IH _ _ _ _ Hrun).
    + intros Hrun.
      destruct (nth_error
                  (IndexMap_Channel (IndexMap (tif_mm_metadata self))) i);
        exact (IH _ _ _ _ Hrun).
Qed.

(** With one map entry and one page per index, a matching page without a
    stamp makes the loop raise KeyError. *)
Lemma page_loop_unstamped (idxs : list nat) :
  forall (out : list TiffPage) (self : Channel),
    (forall i, In i idxs ->
       i < length (IndexMap_Slice (IndexMap (tif_mm_metadata self)))
       /\ i < length (IndexMap_Channel (IndexMap (tif_mm_metadata self)))
       /\ i < length (tif_pages (tif self))) ->
    (exists i s c p,
       In i idxs
       /\ nth_error (IndexMap_Slice (IndexMap (tif_mm_metadata self))) i
          = Some s
       /\ nth_error (IndexMap_Channel (IndexMap (tif_mm_metadata self))) i
          = Some c
       /\ s = sliceIdx self /\ c = chIndex self
       /\ nth_error (tif_pages (tif self)) i = Some p
       /\ ElapsedTime_ms p = None) ->
    fst (_page_extractor_loop idxs out self)
    = Raise (KeyError "ElapsedTime-ms").
Proof.
  induction idxs as [|i rest IH]; intros out self Hfull Hbad.
  - destruct Hbad as (j & _ & _ & _ & [] & _).
  - destruct (Hfull i (or_introl eq_refl)) as (Hs & Hc & Hp).
    destruct (py_getitem_lt _ i Hs) as (s & Es & Gs).
    destruct (py_getitem_lt _ i Hc) as (c & Ec & Gc).
    destruct (py_getitem_lt _ i Hp) as (p & Ep & Gp).
    assert (Hrest : forall out1 self1,
              tif_mm_metadata self1 = tif_mm_metadata self ->
              tif self1 = tif self ->
              sliceIdx self1 = sliceIdx self ->
              chIndex self1 = chIndex self ->
              (exists j s c p,
                 In j rest
                 /\ nth_error
                      (IndexMap_Slice (IndexMap (tif_mm_metadata self))) j
                    = Some s
                 /\ nth_error
                      (IndexMap_Channel (IndexMap (tif_mm_metadata self))) j
                    = Some c
                 /\ s = sliceIdx self /\ c = chIndex self
                 /\ nth_error (tif_pages (tif self)) j = Some p
                 /\ ElapsedTime_ms p = None) ->
              fst (_page_extractor_loop rest out1 self1)
              = Raise (KeyError "ElapsedTime-ms")).
    { intros out1 self1 E1 E2 E3 E4 Hb. apply IH.
      - intros j Hj. rewrite E1, E2. apply Hfull. now right.
      - now rewrite E1, E2, E3, E4. }
    assert (Hcase : (exists j s c p,
                       In j rest
                       /\ nth_error
                            (IndexMap_Slice (IndexMap (tif_mm_metadata self))) j
                          = Some s
                       /\ nth_error
                            (IndexMap_Channel
                               (IndexMap (tif_mm_metadata self))) j
                          = Some c
                       /\ s = sliceIdx self /\ c = chIndex self
                       /\ nth_error (tif_pages (tif self)) j = Some p
                       /\ ElapsedTime_ms p = None)
                    \/ (s = sliceIdx self /\ c = chIndex self
                        /\ ElapsedTime_ms p = None)).
    { destruct Hbad as (j & s' & c' & p' & [<-|Hj] & Hs' & Hc' & E1 & E2
                        & Hp' & Hn).
      - right. rewrite Es in Hs'. rewrite Ec in Hc'. rewrite Ep in Hp'.
        injection Hs' as <-. injection Hc' as <-. injection Hp' as <-.
        now repeat split.
      - left. now exists j, s', c', p'. }
    cbn [_page_extractor_loop]. unfold bind, gets, lift, modify.
    rewrite Gs.
    destruct (Z.eqb_spec s (sliceIdx self)) as [Hse|Hse].
    + rewrite Gc.
      destruct (Z.eqb_spec c (chIndex self)) as [Hce|Hce].
      * rewrite Gp.
        destruct (ElapsedTime_ms p) as [t|] eqn:Et; [|reflexivity].
        cbn [from_key].
        destruct Hcase as [Hb|(_ & _ & Hn)]; [|discriminate].
        now apply Hrest.
      * destruct Hcase as [Hb|(_ & Hc' & _)]; [|contradiction].
        now apply Hrest.
    + destruct Hcase as [Hb|(Hs' & _)]; [|contradiction].
      now apply Hrest.
Qed.
End ExtractionFacts.

(** X1.  A Channel that [__init__] builds holds exactly the pages of the
    container whose slice id and channel id both match, in the order of
    the container, and one elapsed-time stamp per page, the stamp of that
    page. *)
Theorem X1_channel_pages_in_container_order :
  forall (tiffFile : TiffFile) (chIdx slIdx : Z) (name : string)
         (ch : Channel),
    Channel_init chIdx tiffFile name slIdx = OK ch ->
    map Some (pages ch)
    = map (nth_error (tif_pages tiffFile))
        (matching_pages tiffFile chIdx slIdx)
    /\ map ElapsedTime_ms (pages ch) = map Some (elapsedTimes_ms ch)
    /\ length (elapsedTimes_ms ch) = length (pages ch).
Proof.
  intros tiffFile chIdx slIdx name ch. unfold Channel_init, rbind.
  destruct (_read_px_size_and_finteval (micromanager_metadata tiffFile))
    as [[[px fi]|]|]; try discriminate.
  unfold _page_extractor, bind, gets. cbn [tif].
  set (self := mk_Channel chIdx slIdx tiffFile name
                 (micromanager_metadata tiffFile) px fi [] [] None None None
                 None None).
  destruct (_page_extractor_loop (seq 0 (length (tif_pages tiffFile))) []
              self) as [[out|e] self'] eqn:Erun; [|discriminate].
  intros [= <-].
  destruct (page_loop_ok _ _ _ _ _ Erun) as (newp & ts & H1 & H2 & H3 & H4).
  cbn [app] in H1. subst out.
  cbn [set_pages pages elapsedTimes_ms]. rewrite H2. cbn [self elapsedTimes_ms app].
  split; [exact H4|]. split; [exact H3|].
  apply (f_equal (@length _)) in H3. rewrite !length_map in H3. now symmetry.
Qed.

(** X2.  When the metadata resolves and the two index maps have one entry
    per page, a matching page without an elapsed-time stamp makes the
    construction of the Channel fail with a KeyError. *)
Theorem X2_unstamped_matching_page_is_a_KeyError :
  forall (tiffFile : TiffFile) (chIdx slIdx : Z) (name : string)
         (px fi : Q) (i : nat) (p : TiffPage),
    _read_px_size_and_finteval (micromanager_metadata tiffFile)
    = OK (Some (px, fi)) ->
    length (IndexMap_Slice (IndexMap (micromanager_metadata tiffFile)))
    = length (tif_pages tiffFile) ->
    length (IndexMap_Channel (IndexMap (micromanager_metadata tiffFile)))
    = length (tif_pages tiffFile) ->
    In i (matching_pages tiffFile chIdx slIdx) ->
    nth_error (tif_pages tiffFile) i = Some p ->
    ElapsedTime_ms p = None ->
    Channel_init chIdx tiffFile name slIdx = Raise (KeyError "ElapsedTime-ms").
Proof.
  intros tiffFile chIdx slIdx name px fi i p Hread Hls Hlc Hin Hp Hn.
  unfold Channel_init. rewrite Hread. cbn [rbind].
  unfold _page_extractor, bind, gets. cbn [tif].
  set (self := mk_Channel chIdx slIdx tiffFile name
                 (micromanager_metadata tiffFile) px fi [] [] None None None
                 None None).
  assert (Hrun : fst (_page_extractor_loop
                        (seq 0 (length (tif_pages tiffFile))) [] self)
                 = Raise (KeyError "ElapsedTime-ms")).
  { apply page_loop_unstamped.
    - intros j Hj. apply in_seq in Hj.
      cbn [self tif_mm_metadata tif]. rewrite Hls, Hlc. lia.
    - unfold matching_pages in Hin. apply filter_In in Hin as [Hseq Htest].
      cbn [self tif_mm_metadata tif sliceIdx chIndex].
      destruct (nth_error
                  (IndexMap_Slice (IndexMap (micromanager_metadata tiffFile)))
                  i) as [s|] eqn:Es; [|discriminate].
      destruct (nth_error
                  (IndexMap_Channel
                     (IndexMap (micromanager_metadata tiffFile))) i)
        as [c|] eqn:Ec; [|discriminate].
      apply andb_true_iff in Htest as [Hs Hc].
      apply Z.eqb_eq in Hs. apply Z.eqb_eq in Hc.
      exists i, s, c, p. repeat split; assumption. }
  destruct (_page_extractor_loop _ [] self) as [[out|e] self'];
    cbn [fst] in Hrun; [discriminate|]. now injection Hrun as ->.
Qed.

(** * Further properties: frame intervals and the scale factor *)

Section IntervalFacts.

Lemma length_diffs (ts : list Q) :
  forall t0, length (diffs t0 ts) = length ts.
Proof. induction ts as [|t r IH]; intros t0; simpl; [|rewrite IH]; reflexivity. Qed.

Lemma last_cons_default (r : list Q) :
  forall t t0, last (t :: r) t0 = last r t.
Proof.
  induction r as [|u r IH]; intros t t0; [reflexivity|].
  change (last (t :: u :: r) t0) with (last (u :: r) t0).
  now rewrite (IH u t0), (IH u t).
Qed.

(** The intervals telescope: their sum is the last stamp minus the
    first. *)
Lemma sum_diffs (ts : list Q) :
  forall t0, (fold_right Qplus 0 (diffs t0 ts) == last ts t0 - t0)%Q.
Proof.
  induction ts as [|t r IH]; intros t0.
  - simpl. ring.
  - cbn [diffs fold_right]. rewrite IH, last_cons_default. ring.
Qed.

Lemma Qlt_bool_iff (x y : Q) : Qlt_bool x y = true <-> (x < y)%Q.
Proof.
  unfold Qlt_bool. split.
  - intros H. apply Qnot_le_lt. intros Hle.
    apply Qle_bool_iff in Hle. rewrite Hle in H. discriminate.
  - intros H. destruct (Qle_bool y x) eqn:E; [|reflexivity].
    apply Qle_bool_iff in E. exfalso. exact (Qlt_not_le _ _ H E).
Qed.

Lemma intervals_of_fresh_channel (c : Channel) (t0 : Q) (ts : list Q) :
  actualFrameIntervals_ms c = None ->
  length (pages c) <> 1 ->
  elapsedTimes_ms c = t0 :: ts ->
  getActualFrameIntevals_ms c = OK (Some (diffs t0 ts)).
Proof.
  intros Ha Hn He. unfold getActualFrameIntevals_ms.
  rewrite Ha, He. now apply Nat.eqb_neq in Hn as ->.
Qed.

(** A rounded zero interval: [round(m / 1000, 2)] is zero when [m] is. *)
End IntervalFacts.

(** X3.  On a channel with more than one page (and no stored interval
    array) the actual frame intervals are the differences of consecutive
    elapsed-time stamps: one fewer than the stamps, and they add up to the
    last stamp minus the first. *)
Theorem X3_actual_intervals_telescope :
  forall (c : Channel) (t0 : Q) (ts : list Q),
    actualFrameIntervals_ms c = None ->
    length (pages c) <> 1 ->
    elapsedTimes_ms c = t0 :: ts ->
    exists ivs,
      getActualFrameIntevals_ms c = OK (Some ivs)
      /\ length ivs = length ts
      /\ (fold_right Qplus 0 ivs == last ts t0 - t0)%Q
      /\ forall k, k < length ts ->
           nth k ivs 0%Q = (nth k ts 0 - nth k (t0 :: ts) 0)%Q.
Proof.
  intros c t0 ts Ha Hn He. exists (diffs t0 ts).
  split; [now apply intervals_of_fresh_channel|].
  split; [apply length_diffs|]. split; [apply sum_diffs|].
  clear. revert t0. induction ts as [|t r IH]; intros t0 k Hk;
    [simpl in Hk; lia|].
  destruct k as [|k]; [reflexivity|].
  cbn [diffs nth]. simpl in Hk. rewrite IH by lia. reflexivity.
Qed.

(** X4.  The sanity check of a channel sees the first and the last stamp
    only: with n > 1 stamps it holds exactly when
    |1 - ((last - first) / (n - 1)) / intended| < maxDiff, whatever the
    stamps in between. *)
Theorem X4_sanity_check_reads_first_and_last_stamp :
  forall (c : Channel) (t0 : Q) (ts : list Q) (maxDiff : Q),
    actualFrameIntervals_ms c = None ->
    length (pages c) <> 1 ->
    elapsedTimes_ms c = t0 :: ts ->
    ~ (finterval_ms c == 0)%Q ->
    exists b,
      doFrameIntervalSanityCheck c maxDiff = OK (Some b)
      /\ (b = true <->
          (Qabs (1 - (last ts t0 - t0) / inject_Z (Z.of_nat (length ts))
                     / finterval_ms c) < maxDiff)%Q).
Proof.
  intros c t0 ts maxDiff Ha Hn He Hfi.
  assert (Hmean : actual_mean c = OK (np_mean (diffs t0 ts))).
  { unfold actual_mean.
    now rewrite (intervals_of_fresh_channel c t0 ts Ha Hn He). }
  rewrite (sanity_check_of_mean c _ maxDiff Hn Hmean).
  destruct (Qeq_bool (finterval_ms c) 0) eqn:E;
    [apply Qeq_bool_iff in E; contradiction|].
  eexists. split; [reflexivity|].
  rewrite Qlt_bool_iff.
  assert (Hm : (np_mean (diffs t0 ts)
                == (last ts t0 - t0) / inject_Z (Z.of_nat (length ts)))%Q).
  { unfold np_mean. now rewrite sum_diffs, length_diffs. }
  now rewrite Hm.
Qed.

(** X5.  A channel of one page has no interval: the sanity check answers
    [None], the interval array is [None], and building an analyzer on the
    channel fails, [_getScaler] taking [not None] for a failed check and
    asking [None] for its mean. *)
Theorem X5_single_page_channel_has_no_analyzer :
  forall (c : Channel) (maxDiff : Q),
    length (pages c) = 1 ->
    actualFrameIntervals_ms c = None ->
    doFrameIntervalSanityCheck c maxDiff = OK None
    /\ getActualFrameIntevals_ms c = OK None
    /\ FarenbackAnalyzer_init c
       = (Raise (AttributeError "'NoneType' object has no attribute 'mean'"),
          c).
Proof.
  intros c maxDiff Hn Ha.
  assert (Hchk : forall md, doFrameIntervalSanityCheck c md = OK None)
    by (intros md; unfold doFrameIntervalSanityCheck; now rewrite Hn).
  assert (Hiv : getActualFrameIntevals_ms c = OK None)
    by (unfold getActualFrameIntevals_ms; now rewrite Ha, Hn).
  split; [apply Hchk|]. split; [exact Hiv|].
  unfold FarenbackAnalyzer_init, _getScaler, bind, gets, lift.
  cbn [channel]. rewrite Hchk. cbn [py_not].
  unfold actual_mean. rewrite Hiv. reflexivity.
Qed.

(** X6.  The attribute [scaler] of the channel is never read: the scale
    factor an analyzer is built with (or the exception of the
    construction) is the same whatever that attribute holds. *)
Theorem X6_channel_scaler_is_never_read :
  forall (ch : Channel) (v : option fval),
    built_scaler (FarenbackAnalyzer_init (set_channel_scaler v ch))
    = built_scaler (FarenbackAnalyzer_init ch).
Proof.
  intros ch v.
  unfold built_scaler, FarenbackAnalyzer_init, _getScaler, bind, gets, lift,
    ret, modify, raise.
  cbn [channel].
  change (doFrameIntervalSanityCheck (set_channel_scaler v ch) default_maxDiff)
    with (doFrameIntervalSanityCheck ch default_maxDiff).
  change (actual_mean (set_channel_scaler v ch)) with (actual_mean ch).
  destruct (doFrameIntervalSanityCheck ch default_maxDiff) as [chk|e];
    [|reflexivity].
  destruct (py_not chk); [|reflexivity].
  destruct (actual_mean ch) as [m|e]; reflexivity.
Qed.

(** X7.  The reconciliation step of [analyzeFiles] is idempotent: after a
    run that succeeded (on a channel without a stored interval array) a
    second run changes nothing.  The sanity check of the channel holds
    afterwards exactly when the mean of the actual intervals is not zero;
    when the first and the last stamp coincide the run still succeeds,
    NumPy dividing by the zero interval without raising, and leaves a
    channel whose interval is zero and whose check is False. *)
Theorem X7_reconciliation_is_idempotent :
  forall (Ch0 Ch1 : Channel),
    actualFrameIntervals_ms Ch0 = None ->
    analyzeFiles_reconcile Ch0 = (OK tt, Ch1) ->
    analyzeFiles_reconcile Ch1 = (OK tt, Ch1)
    /\ exists m,
        actual_mean Ch0 = OK m
        /\ actual_mean Ch1 = OK m
        /\ doFrameIntervalSanityCheck Ch1 default_maxDiff
           = OK (Some (negb (Qeq_bool m 0))).
Proof.
  intros Ch0 Ch1 Ha Hrun.
  revert Hrun.
  unfold analyzeFiles_reconcile at 1. unfold bind, gets, lift, ret, modify.
  destruct (actual_mean Ch0) as [m|e] eqn:Em; [|discriminate].
  destruct (doFrameIntervalSanityCheck Ch0 default_maxDiff)
    as [[[|]|]|e] eqn:Echk; try discriminate; cbn [py_not negb].
  - (* the check holds: nothing is replaced *)
    intros [= <-].
    assert (Hn : length (pages Ch0) <> 1).
    { intros E. unfold doFrameIntervalSanityCheck in Echk.
      rewrite E in Echk. discriminate. }
    assert (Hm0 : Qeq_bool m 0 = false).
    { destruct (Qeq_bool m 0) eqn:E; [|reflexivity].
      apply Qeq_bool_iff in E.
      rewrite (sanity_check_of_mean Ch0 m default_maxDiff Hn Em) in Echk.
      destruct (Qeq_bool (finterval_ms Ch0) 0); [discriminate|].
      assert (Hb : Qlt_bool (Qabs (1 - m / finterval_ms Ch0)) default_maxDiff
                   = true) by congruence.
      apply Qlt_bool_iff in Hb.
      assert (Hx : (1 - m / finterval_ms Ch0 == 1)%Q).
      { rewrite E. unfold Qdiv. ring. }
      pose proof (Qabs_wd _ _ Hx) as Hy.
      exfalso. apply (Qlt_not_le _ _ Hb). rewrite Hy. discriminate. }
    split.
    + unfold analyzeFiles_reconcile, bind, gets, lift, ret.
      now rewrite Em, Echk.
    + exists m. rewrite Hm0. now repeat split.
  - (* the check fails: the interval is replaced by the mean *)
    intros [= <-].
    assert (Hn : length (pages Ch0) <> 1).
    { intros E. unfold doFrameIntervalSanityCheck in Echk.
      rewrite E in Echk. discriminate. }
    set (sc := Some (np_mul (pxSize_um Ch0)
                       (np_round2 (np_div_60 m (py_round2 (m / 1000)))))).
    set (Ch1 := set_finterval_ms m (set_channel_scaler sc Ch0)).
    assert (Em1 : actual_mean Ch1 = OK m) by exact Em.
    assert (Hchk1 : doFrameIntervalSanityCheck Ch1 default_maxDiff
                    = OK (Some (negb (Qeq_bool m 0)))).
    { destruct (Qeq_bool m 0) eqn:E.
      - rewrite (sanity_check_of_mean Ch1 m default_maxDiff Hn Em1).
        cbn [finterval_ms Ch1 set_finterval_ms]. now rewrite E.
      - apply (sanity_after_replacement (set_channel_scaler sc Ch0));
          [exact Hn|exact Em|].
        intros E'. apply Qeq_bool_iff in E'. congruence. }
    split.
    + unfold analyzeFiles_reconcile, bind, gets, lift, ret, modify.
      rewrite Em1, Hchk1.
      destruct (Qeq_bool m 0); reflexivity.
    + exists m. now repeat split.
  - (* no check on a single page: the mean could not have been taken *)
    unfold doFrameIntervalSanityCheck in Echk.
    destruct (length (pages Ch0) =? 1) eqn:En; [|].
    + unfold actual_mean, getActualFrameIntevals_ms in Em.
      rewrite Ha, En in Em. discriminate.
    + exfalso. revert Echk. unfold rbind.
      destruct (getActualFrameIntevals_ms Ch0) as [[a|]|]; try discriminate.
      destruct (Qeq_bool (getIntendedFrameInterval_ms Ch0) 0);
        discriminate.
Qed.

(** * Rounding to a binary format *)

Section FloatFacts.
Open Scope Q_scope.

Lemma pow2_pos (e : Z) : 0 < 2 ^ e.
Proof. apply Qpower_0_lt. reflexivity. Qed.

Lemma pow2_add (a b : Z) : 2 ^ (a + b) == 2 ^ a * 2 ^ b.
Proof. apply Qpower_plus. discriminate. Qed.


Lemma pow2_Z (k : Z) : (0 <= k)%Z -> 2 ^ k == inject_Z (2 ^ k).
Proof. intros H. symmetry. apply (Zpower_Qpower 2 k H). Qed.



(** The leading bit of a positive number. *)
Lemma Qilog2_spec (q : Q) :
  0 < q -> 2 ^ Qilog2 q <= q /\ q < 2 ^ (Qilog2 q + 1).
Proof.
  intros Hq.
  assert (Hn : (0 < Qnum q)%Z).
  { unfold Qlt in Hq. simpl in Hq. lia. }
  set (a := Z.log2 (Qnum q)). set (b := Z.log2 (Z.pos (Qden q))).
  destruct (Z.log2_spec (Qnum q) Hn) as [Ha1 Ha2]. fold a in Ha1, Ha2.
  destruct (Z.log2_spec (Z.pos (Qden q)) eq_refl) as [Hb1 Hb2].
  fold b in Hb1, Hb2.
  assert (Ha0 : (0 <= a)%Z) by apply Z.log2_nonneg.
  assert (Hb0 : (0 <= b)%Z) by apply Z.log2_nonneg.
  assert (Hqd : q == inject_Z (Qnum q) / inject_Z (Z.pos (Qden q))).
  { destruct q as [n d]. apply Qmake_Qdiv. }
  assert (Hd : 0 < inject_Z (Z.pos (Qden q))) by reflexivity.
  assert (Hup : q < 2 ^ (a - b + 1)).
  { rewrite Hqd. apply Qlt_shift_div_r; [exact Hd|].
    apply Qlt_le_trans with (inject_Z (2 ^ (a + 1))).
    - rewrite <- Zlt_Qlt. unfold Z.succ in Ha2. exact Ha2.
    - rewrite <- pow2_Z by lia.
      replace (a + 1)%Z with ((a - b + 1) + b)%Z by lia.
      rewrite pow2_add.
      apply Qmult_le_l; [apply pow2_pos|].
      rewrite pow2_Z by lia. rewrite <- Zle_Qle. exact Hb1. }
  assert (Hlow : 2 ^ (a - b - 1) < q).
  { rewrite Hqd. apply Qlt_shift_div_l; [exact Hd|].
    apply Qlt_le_trans with (inject_Z (2 ^ a)).
    - rewrite <- pow2_Z by lia.
      replace a with ((a - b - 1) + (b + 1))%Z at 2 by lia.
      rewrite pow2_add.
      apply Qmult_lt_l; [apply pow2_pos|].
      rewrite pow2_Z by lia. rewrite <- Zlt_Qlt.
      unfold Z.succ in Hb2. exact Hb2.
    - rewrite <- Zle_Qle. exact Ha1. }
  unfold Qilog2. fold a. fold b.
  destruct (Qle_bool (2 ^ (a - b)) q) eqn:E.
  - apply Qle_bool_iff in E. split; [exact E|exact Hup].
  - split; [apply Qlt_le_weak; exact Hlow|].
    replace (a - b - 1 + 1)%Z with (a - b)%Z by lia.
    apply Qnot_le_lt. intros H. apply Qle_bool_iff in H. congruence.
Qed.



Section Grid.
Variables prec emin : Z.
Hypothesis prec_pos : (1 <= prec)%Z.











End Grid.

Lemma round_half_even_comp (x y : Q) :
  x == y -> round_half_even x = round_half_even y.
Proof.
  intros H. unfold round_half_even.
  rewrite (Qfloor_comp x y H).
  assert (Hr : x - inject_Z (Qfloor y) == y - inject_Z (Qfloor y))
    by (rewrite H; reflexivity).
  now rewrite (Qcompare_comp _ _ Hr _ _ (Qeq_refl (1 # 2))).
Qed.

Lemma round_half_even_Z (n : Z) : round_half_even (inject_Z n) = n.
Proof.
  unfold round_half_even. rewrite Qfloor_Z.
  assert (Hr : inject_Z n - inject_Z n == 0) by ring.
  now rewrite (Qcompare_comp _ _ Hr _ _ (Qeq_refl (1 # 2))).
Qed.



Lemma Qilog2_inject_Z (z : Z) :
  (0 < z)%Z -> Qilog2 (inject_Z z) = Z.log2 z.
Proof.
  intros Hz.
  assert (Hq : 0 < inject_Z z) by (rewrite <- (Zlt_Qlt 0); exact Hz).
  destruct (Qilog2_spec _ Hq) as [H1 H2].
  destruct (Z.log2_spec z Hz) as [L1 L2]. unfold Z.succ in L2.
  pose proof (Z.log2_nonneg z) as L0.
  rewrite Zle_Qle in L1. rewrite Zlt_Qlt in L2.
  rewrite <- !pow2_Z in L1, L2 by lia.
  assert (A : 2 ^ Qilog2 (inject_Z z) < 2 ^ (Z.log2 z + 1)) by lra.
  assert (B : 2 ^ Z.log2 z < 2 ^ (Qilog2 (inject_Z z) + 1)) by lra.
  apply Qpower_lt_compat_l_inv in A; [|reflexivity].
  apply Qpower_lt_compat_l_inv in B; [|reflexivity].
  lia.
Qed.

(** Every integer of magnitude below 2^24 is a float32 value; this
    covers the pixels of 8-bit and 16-bit images. *)
Lemma float32_exact_small_int (z : Z) :
  (Z.abs z < 2 ^ 24)%Z -> float32_exact (inject_Z z).
Proof.
  intros Hz.
  destruct (Z.eq_dec z 0) as [->|Hz0].
  { exists 0. split; reflexivity. }
  set (l := Z.log2 (Z.abs z)).
  assert (Hl : (0 <= l < 24)%Z).
  { split; [apply Z.log2_nonneg|].
    apply Z.log2_lt_pow2; lia. }
  assert (Habs : Qabs (inject_Z z) = inject_Z (Z.abs z)) by reflexivity.
  assert (Hu : ulp_exp 24 (-149) (inject_Z z) = (l - 23)%Z).
  { unfold ulp_exp. rewrite Habs, Qilog2_inject_Z by lia. fold l. lia. }
  assert (Hg : round_to_grid 24 (-149) (inject_Z z) == inject_Z z).
  { unfold round_to_grid.
    destruct (Qeq_bool (inject_Z z) 0) eqn:E.
    { apply Qeq_bool_iff in E. symmetry. exact E. }
    rewrite Hu.
    assert (Hdiv : inject_Z z / 2 ^ (l - 23)
                   == inject_Z (z * 2 ^ (23 - l))).
    { rewrite inject_Z_mult, <- pow2_Z by lia.
      replace (23 - l)%Z with (- (l - 23))%Z by lia.
      rewrite Qpower_opp. reflexivity. }
    rewrite (round_half_even_comp _ _ Hdiv), round_half_even_Z.
    rewrite inject_Z_mult, <- pow2_Z by lia.
    rewrite <- Qmult_assoc, <- pow2_add.
    replace (23 - l + (l - 23))%Z with 0%Z by lia.
    change (2 ^ 0) with 1. ring. }
  unfold float32_exact, to_float32, round_binary.
  destruct (Qle_bool (2 ^ 128)
              (Qabs (round_to_grid 24 (-149) (inject_Z z)))) eqn:E.
  - exfalso. apply Qle_bool_iff in E. rewrite Hg, Habs in E.
    assert (H : inject_Z (Z.abs z) < inject_Z (2 ^ 24))
      by (rewrite <- Zlt_Qlt; exact Hz).
    assert (H' : inject_Z (2 ^ 24) < 2 ^ 128) by reflexivity.
    lra.
  - eexists. split; [reflexivity|]. now rewrite Qred_correct.
Qed.
End FloatFacts.

(** * Further properties: frame materialisation *)

Section StackFacts.

(** The cast of [out[i] = a] keeps the shape and the number of cells of
    [a], and is the identity on an array that has the dtype of [out]. *)
Lemma np_astype_shape (dst : np_dtype) (a : ndarray Q) :
  shape (np_astype dst a) = shape a
  /\ length (data (np_astype dst a)) = length (data a).
Proof.
  unfold np_astype. destruct (np_dtype_eqb (dtype a) dst); cbn [shape data].
  - split; reflexivity.
  - split; [reflexivity|apply length_map].
Qed.

Lemma np_astype_same (dst : np_dtype) (a : ndarray Q) :
  dtype a = dst -> np_astype dst a = a.
Proof.
  intros <-. unfold np_astype. now destruct (dtype a).
Qed.

(** The loop of [getArray] over pages that all have the shape of a frame
    of [out]: frames [k0] and up receive the pages, cast to the dtype of
    [out]; the others stay. *)
Lemma getArray_loop_frames (c : Channel) (n w h : nat) :
  length (pages c) = n ->
  (forall p, In p (pages c) ->
     shape (page_array p) = [w; h]
     /\ length (data (page_array p)) = size [w; h]) ->
  forall (m k0 : nat) (out : ndarray Q) (d : nat),
    k0 + m = n ->
    shape out = [n; w; h] ->
    length (data out) = n * size [w; h] ->
    exists out',
      getArray_loop (seq k0 m) out (c, d) = (OK out', (c, d + m))
      /\ shape out' = [n; w; h]
      /\ dtype out' = dtype out
      /\ (forall k y x, k < k0 -> y < w -> x < h ->
            item 0%Q out' [k; y; x] = item 0%Q out [k; y; x])
      /\ (forall k p y x, k0 <= k -> nth_error (pages c) k = Some p ->
            y < w -> x < h ->
            item 0%Q out' [k; y; x]
            = item 0%Q (np_astype (dtype out) (page_array p)) [y; x]).
Proof.
  intros Hn Hpages.
  induction m as [|m IH]; intros k0 out d Hk Hsh Hlen.
  - exists out. cbn [seq getArray_loop]. unfold ret.
    rewrite Nat.add_0_r. repeat split; try assumption; try reflexivity.
    intros k p y x Hge Hp.
    assert (k < length (pages c))
      by (apply nth_error_Some; congruence).
    lia.
  - cbn [seq getArray_loop]. unfold bind, gets, lift, asarray. cbn [fst snd].
    assert (Hk0 : k0 < length (pages c)) by lia.
    destruct (py_getitem_lt _ k0 Hk0) as (p & Ep & Gp). rewrite Gp.
    destruct (Hpages p (nth_error_In _ _ Ep)) as [Hpsh Hplen].
    destruct (np_astype_shape (dtype out) (page_array p)) as [Hcsh Hclen].
    rewrite Hpsh in Hcsh. rewrite Hplen in Hclen.
    assert (Hk0n : k0 < n) by lia.
    destruct (setitem0 0%Q out k0 (np_astype (dtype out) (page_array p)))
      as [out1|e] eqn:Es.
    2:{ rewrite (setitem0_same_shape 0%Q out _ n k0 [w; h]) in Es
          by assumption. discriminate. }
    destruct (item_setitem0 0%Q out out1 _ n k0 [w; h]
                Hsh Hk0n Hcsh Hlen Hclen Es)
      as (Hsh1 & Hdt1 & Hlen1 & Hsame & Hother).
    destruct (IH (S k0) out1 (S d)) as (out' & Hrun & Hsh' & Hdt' & Hlow & Hhigh);
      try assumption; try lia.
    exists out'. replace (d + S m) with (S d + m) by lia.
    split; [exact Hrun|]. split; [exact Hsh'|]. split; [congruence|]. split.
    + intros k y x Hkk Hy Hx. rewrite Hlow by lia.
      apply Hother; [lia|lia|now apply in_bounds_hw].
    + intros k q y x Hge Hq Hy Hx.
      destruct (Nat.eq_dec k k0) as [->|Hne].
      * rewrite Ep in Hq. injection Hq as <-.
        rewrite Hlow by lia. apply Hsame. now apply in_bounds_hw.
      * rewrite <- Hdt1. apply Hhigh; try assumption. lia.
Qed.

(** After any successful run of the median loop the channel stores the
    array the loop returns. *)
Lemma median_loop_state (arr : ndarray Q) (W : Z) (rng : list Z) :
  forall (med out : ndarray fval) (k : nat) (st st' : Channel * nat),
    medianArray (fst st) = Some med ->
    median_loop arr W rng med k st = (OK out, st') ->
    medianArray (fst st') = Some out.
Proof.
  induction rng as [|i rest IH]; intros med out k st st' Hst.
  - cbn [median_loop]. unfold ret. now intros [= <- <-].
  - cbn [median_loop]. unfold bind, lift, modify.
    destruct (setitem0 NaN med k _) as [med1|e]; [|discriminate].
    intros Hrun. apply (IH _ _ _ _ _ (eq_refl : medianArray (fst (set_medianArray (Some med1) (fst st), snd st)) = Some med1) Hrun).
Qed.

Lemma median_cache_hit_stored (self : Channel) (recalculate : bool)
  (m : ndarray fval) :
  median_cache_hit self recalculate = Some m -> medianArray self = Some m.
Proof.
  unfold median_cache_hit. destruct (medianArray self) as [m'|]; [|discriminate].
  destruct (ne_None_truth (size (shape m'))) as [t|e].
  - destruct (t && negb recalculate); [now intros [= <-]|discriminate].
  - destruct (negb recalculate); [now intros [= <-]|discriminate].
Qed.

Lemma Forall_insert_sorted (P : Q -> Prop) (x : Q) (l : list Q) :
  P x -> Forall P l -> Forall P (insert_sorted x l).
Proof.
  intros Hx. induction 1 as [|y l Hy Hl IH]; simpl.
  - now constructor.
  - destruct (Qle_bool x y); repeat constructor; assumption.
Qed.

Lemma length_insert_sorted (x : Q) (l : list Q) :
  length (insert_sorted x l) = S (length l).
Proof.
  induction l as [|y l IH]; simpl; [reflexivity|].
  destruct (Qle_bool x y); simpl; [reflexivity|now rewrite IH].
Qed.

(** Sorting keeps every element and the number of elements. *)
Lemma sort_Q_keeps (P : Q -> Prop) (l : list Q) :
  Forall P l -> Forall P (sort_Q l) /\ length (sort_Q l) = length l.
Proof.
  induction 1 as [|x l Hx Hl [IH1 IH2]]; simpl.
  - split; [constructor|reflexivity].
  - split; [now apply Forall_insert_sorted|].
    now rewrite length_insert_sorted, IH2.
Qed.

Lemma nth_sort_Q (P : Q -> Prop) (l : list Q) (i : nat) :
  Forall P l -> i < length l -> P (nth i (sort_Q l) 0%Q).
Proof.
  intros H Hi. destruct (sort_Q_keeps P l H) as [HF HL].
  rewrite Forall_forall in HF. apply HF. apply nth_In. lia.
Qed.


(** The median of a sample of odd length is one of its elements. *)
Lemma median1_odd_member (l : list Q) :
  Nat.odd (length l) = true ->
  exists q, median1 l = Num q /\ In q l.
Proof.
  intros Hodd. unfold median1.
  destruct (length l) as [|n'] eqn:El; [discriminate|].
  rewrite <- El.
  assert (Heven : Nat.even (length l) = false).
  { rewrite El. rewrite <- Nat.negb_odd, Hodd. reflexivity. }
  rewrite Heven. eexists. split; [reflexivity|].
  apply (nth_sort_Q (fun v => In v l)).
  - apply Forall_forall. auto.
  - apply Nat.div_lt; lia.
Qed.

(** The computing path of the median filter, pixel by pixel. *)
Lemma median_filter_items (gQ : Q) (gF : fval) (self : Channel) (d : nat)
  (startFrame : Z) (stopFrame : option Z) (W : Z) (recalculate : bool)
  (arr : ndarray Q) :
  medianArray self = None \/ recalculate = true ->
  array self = None ->
  fst (getArray gQ (self, d)) = OK arr ->
  (0 <= startFrame)%Z ->
  (0 <= W)%Z ->
  (startFrame < effective_stop self stopFrame)%Z ->
  (W <= effective_stop self stopFrame - startFrame)%Z ->
  exists out st w h,
    getTemporalMedianFilterArray gQ gF startFrame stopFrame W recalculate
      (self, d) = (OK out, st)
    /\ shape arr = [length (pages self); w; h]
    /\ shape out
       = [Z.to_nat (effective_stop self stopFrame - startFrame - (W - 1));
          w; h]
    /\ forall k y x,
        k < Z.to_nat (effective_stop self stopFrame - startFrame - (W - 1)) ->
        y < w -> x < h ->
        item NaN out [k; y; x]
        = astype_float32
            (median1 (map (fun f => item 0%Q arr
                                      [Z.to_nat startFrame + k + f; y; x])
                        (seq 0 (Z.to_nat W))))
        /\ Z.to_nat startFrame + k + Z.to_nat W <= length (pages self).
Proof.
  intros Hmiss Harray Harr H0 HW Hlt Hfit.
  set (stop := effective_stop self stopFrame) in *.
  pose proof (effective_stop_le self stopFrame) as Hstop. fold stop in Hstop.
  destruct (getArray_fresh gQ self d arr Harray Harr) as [_ (w & h & Hsh)].
  set (c1 := set_frameSamplingInterval (Some W) self).
  assert (Harr1 : fst (getArray gQ (c1, d)) = OK arr)
    by (now rewrite (getArray_congr gQ self c1 d d)).
  pose proof (getArray_self_unchanged gQ c1 d) as Hself1.
  set (nout := Z.to_nat (stop - startFrame - (W - 1))).
  set (med0 := np_empty float32 [nout; w; h] gF).
  destruct (getArray gQ (c1, d)) as [r [c2 d2]] eqn:Eget.
  cbn [fst snd] in Harr1, Hself1. subst r c2.
  destruct (median_loop_spec arr W startFrame (length (pages self)) w h nout
              Hsh H0 HW) with
    (m := nout) (k0 := 0) (med := med0)
    (st := (set_medianArray (Some med0) c1, d2))
    as (out & st & Hrun & Hsho & Hdt & Hst & Hfsi & _ & Hval);
    try reflexivity.
  { intros k Hk. unfold nout in Hk. lia. }
  { unfold med0, np_empty. cbn [data]. now rewrite repeat_length. }
  exists out, st, w, h.
  split; [|split; [exact Hsh|split; [exact Hsho|]]].
  - unfold getTemporalMedianFilterArray, bind, gets. cbn [fst].
    rewrite (median_cache_miss _ _ Hmiss). fold stop.
    destruct (Z.geb_spec startFrame stop); [lia|].
    destruct (Z.ltb_spec (stop - startFrame) W); [lia|].
    unfold median_compute, bind, modify. cbn [fst snd]. fold c1.
    rewrite Eget. rewrite Hsh.
    destruct (Z.ltb_spec (stop - startFrame - (W - 1)) 0); [lia|].
    cbn [fst snd]. fold nout. fold med0.
    unfold py_range.
    replace (Z.to_nat (stop - W + 1 - startFrame)) with nout
      by (unfold nout; lia).
    exact Hrun.
  - intros k y x Hk Hy Hx. split.
    + apply Hval; try assumption; lia.
    + unfold nout in Hk. lia.
Qed.
End StackFacts.

(** X8.  When every page has the shape (Width, Height) of the metadata,
    [getArray] on a channel without a stored array returns the stack of
    the pages in their order, with the dtype of the first page: frame [i]
    is page [i] pixel by pixel when that page has the dtype of the first
    one, and page [i] cast cell by cell to that dtype otherwise.  The
    call decodes the first page once more than the others and leaves the
    channel as it was. *)
Theorem X8_getArray_stacks_the_pages_in_order :
  forall (g : Q) (c : Channel) (d w h : nat),
    array c = None ->
    Width (Summary (tif_mm_metadata c)) = Some w ->
    Height (Summary (tif_mm_metadata c)) = Some h ->
    pages c <> [] ->
    (forall p, In p (pages c) ->
       shape (page_array p) = [w; h]
       /\ length (data (page_array p)) = w * h) ->
    exists arr,
      getArray g (c, d) = (OK arr, (c, d + length (pages c) + 1))
      /\ shape arr = [length (pages c); w; h]
      /\ (forall p0, nth_error (pages c) 0 = Some p0 ->
            dtype arr = dtype (page_array p0))
      /\ forall i p y x,
          nth_error (pages c) i = Some p -> y < w -> x < h ->
          item 0%Q arr [i; y; x]
          = if np_dtype_eqb (dtype (page_array p)) (dtype arr)
            then item 0%Q (page_array p) [y; x]
            else np_cast (dtype arr) (item 0%Q (page_array p) [y; x]).
Proof.
  intros g c d w h Ha Hw Hh Hne Hpages.
  assert (Hp0 : exists p0, nth_error (pages c) 0 = Some p0)
    by (destruct (pages c); [contradiction|eexists; reflexivity]).
  destruct Hp0 as [p0 Hp0].
  set (n := length (pages c)).
  set (out0 := np_empty (dtype (page_array p0)) [n; w; h] g).
  destruct (getArray_loop_frames c n w h) with
    (m := n) (k0 := 0) (out := out0) (d := S d)
    as (arr & Hrun & Hsh & Hdt & _ & Hval).
  - reflexivity.
  - intros p Hp. destruct (Hpages p Hp) as [H1 H2].
    split; [exact H1|]. simpl. lia.
  - reflexivity.
  - reflexivity.
  - unfold out0, np_empty. cbn [data]. now rewrite repeat_length.
  - exists arr. split; [|split; [exact Hsh|split]].
    + unfold getArray, bind, gets, lift. cbn [fst snd]. rewrite Ha.
      unfold getArray_compute, bind, gets, lift, asarray. cbn [fst snd].
      rewrite Hw, Hh. cbn [from_key]. unfold py_getitem at 1. rewrite Hp0.
      fold n. fold out0. rewrite Hrun. f_equal. f_equal. lia.
    + intros q Hq. rewrite Hp0 in Hq. injection Hq as <-. exact Hdt.
    + intros i p y x Hp Hy Hx.
      rewrite (Hval i p y x) by (try assumption; lia).
      rewrite Hdt. unfold np_astype.
      destruct (np_dtype_eqb (dtype (page_array p)) (dtype out0));
        [reflexivity|].
      unfold item. cbn [shape data].
      assert (Hz : np_cast (dtype out0) 0%Q = 0%Q)
        by (destruct (dtype out0); reflexivity).
      rewrite <- Hz at 1. apply map_nth.
Qed.

(** X9.  An empty Channel (no page, as extraction builds it when nothing
    matches) can be neither materialised nor filtered: [getArray] fails,
    and so does the median filter whatever its arguments. *)
Theorem X9_empty_channel_cannot_be_materialised :
  forall (gQ : Q) (gF : fval) (c : Channel) (d : nat),
    pages c = [] ->
    array c = None ->
    medianArray c = None ->
    fails (fst (getArray gQ (c, d)))
    /\ forall startFrame stopFrame W recalculate,
        fails (fst (getTemporalMedianFilterArray gQ gF startFrame stopFrame
                      W recalculate (c, d))).
Proof.
  intros gQ gF c d Hp Ha Hm.
  assert (Hget : forall c' d', pages c' = [] -> array c' = None ->
            fails (fst (getArray gQ (c', d')))).
  { intros c' d' Hp' Ha'. unfold getArray, bind, gets, lift. cbn [fst snd].
    rewrite Ha'.
    unfold getArray_compute, bind, gets, lift, asarray. cbn [fst snd].
    destruct (from_key (Width _) _); [|eexists; reflexivity].
    destruct (from_key (Height _) _); [|eexists; reflexivity].
    rewrite Hp'. eexists. reflexivity. }
  split; [now apply Hget|].
  intros startFrame stopFrame W recalculate.
  unfold getTemporalMedianFilterArray, bind, gets. cbn [fst].
  rewrite (median_cache_miss c recalculate (or_introl Hm)).
  destruct (startFrame >=? effective_stop c stopFrame)%Z;
    [eexists; reflexivity|].
  destruct (effective_stop c stopFrame - startFrame <? W)%Z;
    [eexists; reflexivity|].
  unfold median_compute, bind, modify. cbn [fst snd].
  destruct (Hget (set_frameSamplingInterval (Some W) c) d Hp Ha) as [e He].
  destruct (getArray gQ (set_frameSamplingInterval (Some W) c, d))
    as [[arr|e'] st]; cbn [fst] in He; [discriminate|].
  eexists. reflexivity.
Qed.

(** X10.  [getArray] allocates frames of shape (Width, Height) and assigns
    pages to them; a page of Height rows and Width columns with
    Width <> Height cannot be broadcast into such a frame, so on a
    channel of images that are not square [getArray] raises ValueError at
    the first page. *)
Theorem X10_getArray_rejects_images_that_are_not_square :
  forall (g : Q) (c : Channel) (d w h : nat) (p0 : TiffPage),
    array c = None ->
    Width (Summary (tif_mm_metadata c)) = Some w ->
    Height (Summary (tif_mm_metadata c)) = Some h ->
    nth_error (pages c) 0 = Some p0 ->
    shape (page_array p0) = [h; w] ->
    w <> h ->
    fst (getArray g (c, d))
    = Raise (ValueError "could not broadcast input array").
Proof.
  intros g c d w h p0 Ha Hw Hh Hp0 Hsh Hne.
  unfold getArray, bind, gets, lift. cbn [fst snd]. rewrite Ha.
  unfold getArray_compute, bind, gets, lift, asarray. cbn [fst snd].
  rewrite Hw, Hh. cbn [from_key]. unfold py_getitem at 1. rewrite Hp0.
  destruct (pages c) as [|q rest] eqn:Ep; [discriminate|].
  cbn [nth_error] in Hp0. injection Hp0 as ->.
  cbn [length seq getArray_loop]. unfold bind, gets, lift, asarray.
  cbn [fst snd]. rewrite Ep. cbn [py_getitem nth_error].
  change (dtype (np_empty (dtype (page_array p0)) _ g))
    with (dtype (page_array p0)).
  rewrite (np_astype_same _ (page_array p0) eq_refl).
  unfold setitem0, np_empty. cbn [shape]. cbn [Nat.ltb Nat.leb].
  unfold broadcast_to. rewrite Hsh.
  destruct (list_eq_dec Nat.eq_dec [h; w] [w; h]) as [E|_];
    [injection E as E1 E2; congruence|].
  cbn [length Nat.sub strip_ones skipn bcast_ok].
  destruct (Nat.eqb_spec h w); [congruence|].
  destruct (Nat.eqb_spec w h); [congruence|].
  destruct (Nat.eqb_spec h 1); destruct (Nat.eqb_spec w 1);
    try reflexivity. congruence.
Qed.

(** X11.  The stored median answers every later call: after any call that
    succeeded with a result that is not of size zero, a call without
    [recalculate] returns the same array whatever its other arguments
    (also a range the validation would reject), decodes nothing and
    leaves the channel as it is. *)
Theorem X11_stored_median_answers_later_calls :
  forall (gQ : Q) (gF : fval) (st st' : Channel * nat)
         (start1 : Z) (stop1 : option Z) (W1 : Z) (recalculate : bool)
         (out : ndarray fval),
    getTemporalMedianFilterArray gQ gF start1 stop1 W1 recalculate st
    = (OK out, st') ->
    size (shape out) <> 0 ->
    forall (start2 : Z) (stop2 : option Z) (W2 : Z),
      getTemporalMedianFilterArray gQ gF start2 stop2 W2 false st'
      = (OK out, st').
Proof.
  intros gQ gF st st' start1 stop1 W1 recalculate out Hrun Hsize.
  assert (Hstored : medianArray (fst st') = Some out).
  { revert Hrun. unfold getTemporalMedianFilterArray, bind, gets.
    destruct (median_cache_hit (fst st) recalculate) as [m|] eqn:Ehit.
    - unfold ret. intros [= <- <-].
      exact (median_cache_hit_stored _ _ _ Ehit).
    - destruct (start1 >=? effective_stop (fst st) stop1)%Z;
        [discriminate|].
      destruct (effective_stop (fst st) stop1 - start1 <? W1)%Z;
        [discriminate|].
      unfold median_compute, bind, modify.
      destruct (getArray gQ _) as [[arr|e] st1]; [|discriminate].
      destruct (shape arr) as [|s0 [|s1 [|s2 r]]]; try discriminate.
      destruct (_ <? 0)%Z; [discriminate|].
      intros Hloop.
      eapply median_loop_state; [|exact Hloop]. reflexivity. }
  intros start2 stop2 W2.
  unfold getTemporalMedianFilterArray, bind, gets, ret.
  unfold median_cache_hit. rewrite Hstored.
  destruct (size (shape out)) as [|[|k]]; [contradiction| |]; reflexivity.
Qed.


(** X13.  With a window of odd size, on a stack whose samples are float32
    values (as the pixels of 8-bit and 16-bit images are), every output
    pixel is one of the samples of its window: the value of that pixel in
    one of the input frames startFrame + k, ..., startFrame + k + W - 1. *)
Theorem X13_odd_window_returns_input_samples :
  forall (gQ : Q) (gF : fval) (self : Channel) (d : nat)
         (startFrame : Z) (stopFrame : option Z) (W : Z) (recalculate : bool)
         (arr : ndarray Q) (w h : nat),
    medianArray self = None \/ recalculate = true ->
    array self = None ->
    fst (getArray gQ (self, d)) = OK arr ->
    shape arr = [length (pages self); w; h] ->
    (0 <= startFrame)%Z ->
    (0 <= W)%Z -> Z.odd W = true ->
    (startFrame < effective_stop self stopFrame)%Z ->
    (W <= effective_stop self stopFrame - startFrame)%Z ->
    (forall i y x, i < length (pages self) -> y < w -> x < h ->
       float32_exact (item 0%Q arr [i; y; x])) ->
    exists out st,
      getTemporalMedianFilterArray gQ gF startFrame stopFrame W recalculate
        (self, d) = (OK out, st)
      /\ shape out
         = [Z.to_nat (effective_stop self stopFrame - startFrame - (W - 1));
            w; h]
      /\ forall k y x,
          k < Z.to_nat (effective_stop self stopFrame - startFrame - (W - 1)) ->
          y < w -> x < h ->
          exists f q,
            f < Z.to_nat W
            /\ item NaN out [k; y; x] = Num q
            /\ (q == item 0 arr [Z.to_nat startFrame + k + f; y; x]%nat)%Q.
Proof.
  intros gQ gF self d startFrame stopFrame W recalculate arr w h
    Hmiss Harray Harr Hshape H0 HW Hodd Hlt Hfit Hexact.
  destruct (median_filter_items gQ gF self d startFrame stopFrame W
              recalculate arr Hmiss Harray Harr H0 HW Hlt Hfit) as
    (out & st & w' & h' & Hrun & Hsh & Hsho & Hval).
  rewrite Hshape in Hsh. injection Hsh as <- <-.
  exists out, st. split; [exact Hrun|]. split; [exact Hsho|].
  intros k y x Hk Hy Hx.
  destruct (Hval k y x Hk Hy Hx) as [-> Hin].
  destruct (median1_odd_member
              (map (fun f => item 0%Q arr [Z.to_nat startFrame + k + f; y; x])
                 (seq 0 (Z.to_nat W)))) as (m & -> & Hm).
  - rewrite length_map, length_seq.
    apply Nat.odd_spec. apply Z.odd_spec in Hodd as [j Hj].
    exists (Z.to_nat j). lia.
  - apply in_map_iff in Hm as (f & <- & Hf). apply in_seq in Hf.
    destruct (Hexact (Z.to_nat startFrame + k + f) y x) as (r & Hr & Hrq);
      try assumption; try lia.
    exists f, r. split; [lia|]. split; [exact Hr|exact Hrq].
Qed.

(** * Further properties: speeds, averages and the writers *)

Section ReshapeFacts.

(** The element at (t, 0, 0, y, x, 0) of a buffer seen as
    (T, 1, 1, H, W, 1) is the element at (t, y, x) of the same buffer seen
    as (T, H, W). *)
Lemma item_reshaped {B : Type} (d : B) (a a6 : ndarray B) (T H W t y x : nat) :
  shape a = [T; H; W] ->
  shape a6 = [T; 1; 1; H; W; 1] ->
  data a6 = data a ->
  item d a6 [t; 0; 0; y; x; 0] = item d a [t; y; x].
Proof.
  intros Ha Ha6 Hd. unfold item. rewrite Ha, Ha6, Hd. f_equal. simpl. lia.
Qed.

Lemma size_reshaped_again (t h w : nat) :
  t <> 0 -> h * w <> 1 ->
  (size [t; 1; 1; 1; 1; 1] =? size [t; 1; 1; h; w; 1]) = false.
Proof.
  intros Ht Hhw. apply Nat.eqb_neq. simpl. rewrite !Nat.mul_1_r.
  intros E. apply Hhw.
  assert (t * 1 = t * (h * w)) by lia.
  apply Nat.mul_cancel_l in H; [lia|exact Ht].
Qed.
End ReshapeFacts.

(** X14.  With [doAvgSpeed], [doFlowsToSpeed] stores one mean per frame,
    the mean of the speeds of that frame over the two spatial axes; these
    are the values [saveSpeedCSV] then writes, one row per frame. *)
Theorem X14_avg_speeds_are_the_frame_means_of_the_csv :
  forall (self : FarenbackAnalyzer) (scaler_arg : option Q) (nbins : Z)
         (hist_range : option (R * R)) (F : ndarray R) (T H W : nat),
    flows self = Some F ->
    shape F = [T; H; W; 2] ->
    exists out self' avg,
      doFlowsToSpeed scaler_arg true false nbins hist_range self
      = (OK out, self')
      /\ avg_speeds self' = Some avg
      /\ shape avg = [T]
      /\ data avg = map (frame_mean out H W) (seq 0 T)
      /\ forall fr,
          frameSamplingInterval (channel self) = Some fr ->
          fst (saveSpeedCSV self')
          = OK (combine (map (csv_time (channel self) fr) (seq 0 T))
                  (data avg)).
Proof.
  intros self scaler_arg nbins hist_range F T H W HF Hsh.
  assert (Hlen : 3 < length (shape (np_square F)))
    by (simpl; rewrite Hsh; simpl; lia).
  pose proof (np_sum_ok _ _ Hlen) as Hsum.
  remember (tabulate _ _ _) as summed eqn:Esummed in Hsum.
  assert (Hshape : shape summed = [T; H; W])
    by (rewrite (shape_np_sum _ _ _ Hsum); simpl; now rewrite Hsh).
  set (out := np_scale (np_sqrt summed)
                (Q2R match scaler_arg with Some s => s | None => scaler self end)).
  destruct (np_mean2_native out T H W Hshape) as (avg & Havg & Hs & Hd).
  exists out, (set_avg_speeds (Some avg) (set_speeds (Some out) self)), avg.
  split.
  { rewrite (doFlowsToSpeed_noHist self scaler_arg true nbins hist_range F
               summed HF Hsum). fold out. now rewrite Havg. }
  split; [reflexivity|]. split; [exact Hs|]. split; [exact Hd|].
  intros fr Hfr.
  rewrite (saveSpeedCSV_rows _ out avg T [] (frame_mean out H W)).
  - cbn [channel set_avg_speeds set_speeds]. rewrite Hfr, Hd.
    now rewrite combine_map_seq.
  - reflexivity.
  - change (shape out) with (shape summed). now rewrite Hshape.
  - exact Hs.
  - reflexivity.
  - exact Hd.
Qed.

(** X15.  On a flow field without frames (what a median stack of one
    frame gives) the histogram cannot be computed: with the default range
    the maximum of the empty speed map raises ValueError, with an explicit
    range the variable [hist] is read before any iteration bound it; the
    empty speed map has been stored by then. *)
Theorem X15_histogram_of_an_empty_flow_field_fails :
  forall (self : FarenbackAnalyzer) (scaler_arg : option Q)
         (doAvgSpeed : bool) (nbins : Z) (F : ndarray R) (H W : nat),
    flows self = Some F ->
    shape F = [0; H; W; 2] ->
    (exists self',
       doFlowsToSpeed scaler_arg doAvgSpeed true nbins None self
       = (Raise (ValueError "zero-size array to reduction operation maximum"),
          self')
       /\ exists sp, speeds self' = Some sp /\ data sp = [])
    /\ forall r,
        (0 <= nbins)%Z ->
        exists self',
          doFlowsToSpeed scaler_arg doAvgSpeed true nbins (Some r) self
          = (Raise (UnboundLocalError "hist"), self')
          /\ exists sp, speeds self' = Some sp /\ data sp = [].
Proof.
  intros self scaler_arg doAvgSpeed nbins F H W HF Hsh.
  assert (Hlen : 3 < length (shape (np_square F)))
    by (simpl; rewrite Hsh; simpl; lia).
  pose proof (np_sum_ok _ _ Hlen) as Hsum.
  remember (tabulate _ _ _) as summed eqn:Esummed in Hsum.
  assert (Hdata : data summed = []).
  { rewrite Esummed. unfold tabulate. cbn [data shape np_square elementwise].
    rewrite Hsh. reflexivity. }
  set (out := np_scale (np_sqrt summed)
                (Q2R match scaler_arg with Some s => s | None => scaler self end)).
  assert (Hout : data out = [])
    by (unfold out, np_scale, np_sqrt, elementwise; cbn [data];
        now rewrite Hdata).
  split.
  - eexists. unfold doFlowsToSpeed, bind, gets, lift, ret, raise, modify.
    rewrite HF, Hsum. fold out. unfold np_max. rewrite Hout.
    split; [reflexivity|]. exists out. now split.
  - intros r Hn. eexists.
    unfold doFlowsToSpeed, bind, gets, lift, ret, raise, modify.
    rewrite HF, Hsum. fold out.
    destruct (Z.ltb_spec nbins 0); [lia|].
    rewrite Hsh. cbn [hd seq hist_loop snd].
    split; [reflexivity|]. exists out. now split.
Qed.

(** X16.  [saveSpeedArray] lays the speeds out in TZCYXS order over the
    same buffer: in [self.speeds] after the call the element at
    (t, 0, 0, y, x, 0) is the speed at (t, y, x).  With a pixel size that
    is not zero the call returns, and the float32 array handed to the
    writer has the same layout; with a pixel size of zero it raises
    ZeroDivisionError after the reshape, and nothing is written. *)
Theorem X16_saveSpeedArray_keeps_every_speed_in_place :
  forall (self : FarenbackAnalyzer) (sp : ndarray R) (T H W : nat),
    speeds self = Some sp ->
    shape sp = [T; H; W] ->
    exists r self' sp6,
      saveSpeedArray self = (r, self')
      /\ speeds self' = Some sp6
      /\ shape sp6 = [T; 1; 1; H; W; 1]
      /\ (forall t y x,
            item 0%R sp6 [t; 0; 0; y; x; 0] = item 0%R sp [t; y; x])
      /\ ((pxSize_um (channel self) == 0)%Q -> r = Raise ZeroDivisionError)
      /\ (~ (pxSize_um (channel self) == 0)%Q ->
          exists written,
            r = OK written
            /\ shape written = [T; 1; 1; H; W; 1]
            /\ dtype written = float32
            /\ forall t y x,
                item 0%R written [t; 0; 0; y; x; 0] = item 0%R sp [t; y; x]).
Proof.
  intros self sp T H W Hsp Hsh.
  set (sp6 := mk_ndarray (dtype sp) [T; 1; 1; H; W; 1] (data sp)).
  destruct (saveSpeedArray_run self sp T H W Hsp Hsh) as [Hrun _].
  fold sp6 in Hrun.
  eexists. exists (set_speeds (Some sp6) self), sp6.
  split; [exact Hrun|]. split; [reflexivity|]. split; [reflexivity|].
  split.
  { intros t y x.
    apply (item_reshaped 0%R sp _ T H W); try assumption; reflexivity. }
  split.
  - intros Hpx. apply Qeq_bool_iff in Hpx. now rewrite Hpx.
  - intros Hpx.
    destruct (Qeq_bool (pxSize_um (channel self)) 0) eqn:E;
      [apply Qeq_bool_iff in E; contradiction|].
    eexists. split; [reflexivity|].
    split; [reflexivity|]. split; [reflexivity|].
    intros t y x.
    apply (item_reshaped 0%R sp _ T H W); try assumption; reflexivity.
Qed.

(** X17.  [saveSpeedArray] cannot be repeated: it reshapes from the first
    three axes whatever the number of axes, so after a first call on
    speeds of more than one pixel per frame (whether that call returned
    or raised on a pixel size of zero) a second call asks for the shape
    (t, 1, 1, 1, 1, 1) and raises ValueError; the speeds stay as the first
    call left them. *)
Theorem X17_second_saveSpeedArray_raises :
  forall (self : FarenbackAnalyzer) (sp : ndarray R) (T H W : nat),
    speeds self = Some sp ->
    shape sp = [T; H; W] ->
    T <> 0 -> H * W <> 1 ->
    exists r self',
      saveSpeedArray self = (r, self')
      /\ (~ (pxSize_um (channel self) == 0)%Q -> exists written, r = OK written)
      /\ saveSpeedArray self'
         = (Raise (ValueError "cannot reshape array"), self').
Proof.
  intros self sp T H W Hsp Hsh HT HHW.
  set (sp6 := mk_ndarray (dtype sp) [T; 1; 1; H; W; 1] (data sp)).
  destruct (saveSpeedArray_run self sp T H W Hsp Hsh) as [Hrun _].
  fold sp6 in Hrun.
  eexists. exists (set_speeds (Some sp6) self).
  split; [exact Hrun|]. split.
  - intros Hpx.
    destruct (Qeq_bool (pxSize_um (channel self)) 0) eqn:E;
      [apply Qeq_bool_iff in E; contradiction|].
    eexists. reflexivity.
  - unfold saveSpeedArray, bind, gets, lift, ret, raise, modify.
    unfold sp6. cbn [speeds set_speeds shape]. unfold set_shape.
    cbn [shape]. now rewrite size_reshaped_again.
Qed.

(** X18.  [rehapeDrawnFramesTo6d] is idempotent: a call that succeeded
    leaves frames of six axes over the same buffer, and a second call
    returns at once without changing anything. *)
Theorem X18_rehapeDrawnFramesTo6d_is_idempotent :
  forall (self self' : FarenbackAnalyzer),
    rehapeDrawnFramesTo6d self = (OK tt, self') ->
    rehapeDrawnFramesTo6d self' = (OK tt, self')
    /\ exists fr fr',
        drawnFrames self = Some fr
        /\ drawnFrames self' = Some fr'
        /\ length (shape fr') = 6
        /\ data fr' = data fr.
Proof.
  intros self self'.
  unfold rehapeDrawnFramesTo6d at 1.
  unfold bind, gets, lift, ret, raise, modify.
  destruct (drawnFrames self) as [fr|] eqn:Efr; [|discriminate].
  destruct (Nat.eqb_spec (length (shape fr)) 6) as [E6|N6].
  - intros [= <-]. split.
    + unfold rehapeDrawnFramesTo6d, bind, gets, lift, ret.
      rewrite Efr. now apply Nat.eqb_eq in E6 as ->.
    + now exists fr, fr.
  - destruct (shape fr) as [|s0 [|s1 [|s2 r]]] eqn:Es; try discriminate.
    unfold set_shape.
    destruct (size [s0; 1; 1; s1; s2; 1] =? size (shape fr));
      [|discriminate].
    intros [= <-]. split.
    + unfold rehapeDrawnFramesTo6d, bind, gets, lift, ret. reflexivity.
    + eexists. eexists. repeat split; reflexivity.
Qed.

(** X19.  [rehapeMedianFramesTo6d] has no such test: on a stored median of
    shape (t, x, y) it changes the shape to (t, 1, 1, x, y, 1) over the
    same buffer, every sample staying at its place, and a second call
    raises ValueError when frames have more than one pixel. *)
Theorem X19_rehapeMedianFramesTo6d_once_only :
  forall (self : Channel) (med : ndarray fval) (T H W : nat),
    medianArray self = Some med ->
    shape med = [T; H; W] ->
    exists self' med6,
      rehapeMedianFramesTo6d self = (OK tt, self')
      /\ medianArray self' = Some med6
      /\ shape med6 = [T; 1; 1; H; W; 1]
      /\ (forall t y x,
            item NaN med6 [t; 0; 0; y; x; 0] = item NaN med [t; y; x])
      /\ (T <> 0 -> H * W <> 1 ->
          rehapeMedianFramesTo6d self'
          = (Raise (ValueError "cannot reshape array"), self')).
Proof.
  intros self med T H W Hmed Hsh.
  set (med6 := mk_ndarray (dtype med) [T; 1; 1; H; W; 1] (data med)).
  exists (set_medianArray (Some med6) self), med6.
  split.
  { unfold rehapeMedianFramesTo6d, bind, gets, lift, ret, raise, modify.
    rewrite Hmed, Hsh. unfold set_shape. rewrite Hsh.
    rewrite (proj2 (Nat.eqb_eq _ _) (size_reshaped T H W)). reflexivity. }
  split; [reflexivity|]. split; [reflexivity|]. split.
  - intros t y x. apply (item_reshaped NaN med _ T H W); try assumption;
      reflexivity.
  - intros HT HHW.
    unfold rehapeMedianFramesTo6d, bind, gets, lift, ret, raise, modify.
    unfold med6. cbn [medianArray set_medianArray shape]. unfold set_shape.
    cbn [shape]. now rewrite size_reshaped_again.
Qed.

(** X20.  [saveSpeedCSV] needs speeds and a median filter that has run:
    without speeds it raises AttributeError, and on speeds of shape
    (t, x, y) of a channel whose [frameSamplingInterval] is still [None]
    it raises TypeError at the time stamps, after the means have been
    computed. *)
Theorem X20_saveSpeedCSV_needs_speeds_and_a_sampling_interval :
  forall (self : FarenbackAnalyzer),
    (speeds self = None ->
     saveSpeedCSV self
     = (Raise (AttributeError "'NoneType' object has no attribute 'shape'"),
        self))
    /\ forall sp T H W,
        speeds self = Some sp ->
        shape sp = [T; H; W] ->
        frameSamplingInterval (channel self) = None ->
        saveSpeedCSV self
        = (Raise (TypeError "unsupported operand type(s) for -"), self).
Proof.
  intros self. split.
  - intros Hsp. unfold saveSpeedCSV, bind, gets, raise. now rewrite Hsp.
  - intros sp T H W Hsp Hsh Hfr.
    destruct (np_mean2_native sp T H W Hsh) as (avg & Havg & _ & _).
    unfold saveSpeedCSV, bind, gets, lift, ret, raise.
    rewrite Hsp, Hsh. cbn [length Nat.eqb]. rewrite Havg, Hfr. reflexivity.
Qed.

(** * Further properties: normalisation to 8 bits *)

Section NormalisationFacts.
Open Scope Q_scope.

Lemma Qle_bool_false (x y : Q) : Qle_bool x y = false -> y < x.
Proof.
  intros H. apply Qnot_le_lt. intros Hle.
  apply Qle_bool_iff in Hle. congruence.
Qed.

Lemma Qlt_bool_false (x y : Q) : Qlt_bool x y = false -> y <= x.
Proof.
  unfold Qlt_bool. intros H. apply Qle_bool_iff.
  now destruct (Qle_bool y x).
Qed.

Lemma Qlt_bool_true (x y : Q) : Qlt_bool x y = true -> x < y.
Proof.
  unfold Qlt_bool. intros H. apply Qle_bool_false.
  now destruct (Qle_bool y x).
Qed.

(** The chord from (low, 0) to (high, 255), between its ends. *)
Lemma chord_range (low high x : Q) :
  low <= x -> x < high ->
  0 <= (255 - 0) / (high - low) * (x - low) + 0 < 255.
Proof.
  intros H1 H2.
  assert (Hd : 0 < high - low) by lra.
  setoid_replace ((255 - 0) / (high - low) * (x - low) + 0)
    with (255 * (x - low) / (high - low)) by (field; lra).
  split.
  - apply Qle_shift_div_l; [exact Hd|]. lra.
  - apply Qlt_shift_div_r; [exact Hd|]. lra.
Qed.

Lemma chord_monotone (low high x y : Q) :
  low < high -> x <= y ->
  (255 - 0) / (high - low) * (x - low) + 0
  <= (255 - 0) / (high - low) * (y - low) + 0.
Proof.
  intros Hd Hxy.
  assert (Hs : 0 <= (255 - 0) / (high - low)).
  { apply Qle_shift_div_l; lra. }
  apply Qplus_le_compat; [|lra].
  rewrite !(Qmult_comm ((255 - 0) / (high - low))).
  apply Qmult_le_compat_r; [lra|exact Hs].
Qed.

Lemma np_interp_range (low high x : Q) :
  0 <= np_interp_0_255 low high x <= 255.
Proof.
  unfold np_interp_0_255.
  destruct (Qlt_bool high x) eqn:E1; [lra|].
  destruct (Qlt_bool x low) eqn:E2; [lra|].
  destruct (Qle_bool high x) eqn:E3; [lra|].
  destruct (Qeq_bool low x) eqn:E4; [lra|].
  apply Qlt_bool_false in E2. apply Qle_bool_false in E3.
  pose proof (chord_range low high x E2 E3). lra.
Qed.

(** [np.interp] onto (0, 255) never reverses the order of two samples. *)
Lemma np_interp_monotone (low high x y : Q) :
  x <= y -> np_interp_0_255 low high x <= np_interp_0_255 low high y.
Proof.
  intros Hxy.
  pose proof (np_interp_range low high x) as Rx.
  pose proof (np_interp_range low high y) as Ry.
  unfold np_interp_0_255 in *.
  destruct (Qlt_bool high y) eqn:Y1; [lra|].
  apply Qlt_bool_false in Y1.
  destruct (Qlt_bool high x) eqn:X1;
    [apply Qlt_bool_true in X1; lra|].
  destruct (Qlt_bool x low) eqn:X2; [lra|].
  apply Qlt_bool_false in X2.
  destruct (Qlt_bool y low) eqn:Y2;
    [apply Qlt_bool_true in Y2; lra|].
  destruct (Qle_bool high y) eqn:Y3; [lra|].
  apply Qle_bool_false in Y3.
  destruct (Qle_bool high x) eqn:X3;
    [apply Qle_bool_iff in X3; lra|].
  destruct (Qeq_bool low x) eqn:X4; [lra|].
  destruct (Qeq_bool low y) eqn:Y4.
  - apply Qeq_bool_iff in Y4.
    assert (Hx : ~ low == x) by (intros E; apply Qeq_bool_iff in E; congruence).
    exfalso. apply Hx. lra.
  - apply chord_monotone; lra.
Qed.

(** [int] of a float that is not negative is its floor. *)
Lemma py_int_nonneg (q : Q) : 0 <= q -> py_int q = Qfloor q.
Proof.
  intros H. unfold py_int, Qfloor. destruct q as [n d]. cbn [Qnum Qden].
  apply Z.quot_div_nonneg; [|lia].
  unfold Qle in H. simpl in H. lia.
Qed.

Lemma py_int_range (q : Q) :
  0 <= q <= 255 -> (0 <= py_int q <= 255)%Z.
Proof.
  intros [H0 H1]. rewrite (py_int_nonneg q H0). split.
  - change 0%Z with (Qfloor 0). now apply Qfloor_resp_le.
  - change 255%Z with (Qfloor 255). now apply Qfloor_resp_le.
Qed.

Lemma np_percentile_ok (l : list Q) (q : Q) :
  l <> [] -> 0 <= q <= 100 -> exists v, np_percentile l q = OK v.
Proof.
  intros Hl [H0 H1]. unfold np_percentile.
  assert (E0 : Qlt_bool q 0 = false).
  { destruct (Qlt_bool q 0) eqn:E; [|reflexivity].
    apply Qlt_bool_true in E. lra. }
  assert (E1 : Qlt_bool 100 q = false).
  { destruct (Qlt_bool 100 q) eqn:E; [|reflexivity].
    apply Qlt_bool_true in E. lra. }
  rewrite E0, E1. cbn [orb].
  destruct l; [contradiction|]. eexists. reflexivity.
Qed.
End NormalisationFacts.

(** X21.  [normalization_to_8bit] returns on every stack that is not empty
    when the two clip percentages are between 0 and 100, and whenever it
    returns, the result has the shape of the stack, the dtype uint8 and
    every value between 0 and 255. *)
Theorem X21_normalization_to_8bit_is_in_range :
  forall (image_stack : ndarray Q) (lowPcClip highPcClip : Q),
    (data image_stack <> [] ->
     (0 <= lowPcClip <= 100)%Q -> (0 <= highPcClip <= 100)%Q ->
     exists out,
       normalization_to_8bit image_stack lowPcClip highPcClip = OK out)
    /\ forall out,
        normalization_to_8bit image_stack lowPcClip highPcClip = OK out ->
        shape out = shape image_stack
        /\ dtype out = uint8
        /\ length (data out) = length (data image_stack)
        /\ Forall (fun z => (0 <= z <= 255)%Z) (data out).
Proof.
  intros image_stack lowPcClip highPcClip. split.
  - intros Hne Hlo Hhi. unfold normalization_to_8bit, rbind.
    destruct (np_percentile_ok (data image_stack) lowPcClip Hne Hlo)
      as [pl ->].
    destruct (np_percentile_ok (data image_stack) (100 - highPcClip) Hne)
      as [ph ->]; [lra|].
    eexists. reflexivity.
  - intros out. unfold normalization_to_8bit, rbind.
    destruct (np_percentile (data image_stack) lowPcClip) as [pl|];
      [|discriminate].
    destruct (np_percentile (data image_stack) (100 - highPcClip)) as [ph|];
      [|discriminate].
    intros [= <-]. cbn [shape dtype data].
    repeat split; try reflexivity.
    + now rewrite !length_map.
    + apply Forall_forall. intros z Hz.
      apply in_map_iff in Hz as (v & <- & Hv).
      apply in_map_iff in Hv as (x & <- & _).
      apply py_int_range. apply np_interp_range.
Qed.

(** X22.  [normalization_to_8bit] keeps the order of intensities: where
    one sample of the stack is at most another, its 8-bit value is at
    most the other's. *)
Theorem X22_normalization_to_8bit_keeps_the_order :
  forall (image_stack : ndarray Q) (lowPcClip highPcClip : Q)
         (out : ndarray Z) (i j : nat),
    normalization_to_8bit image_stack lowPcClip highPcClip = OK out ->
    i < length (data image_stack) ->
    j < length (data image_stack) ->
    (nth i (data image_stack) 0 <= nth j (data image_stack) 0)%Q ->
    (nth i (data out) 0 <= nth j (data out) 0)%Z.
Proof.
  intros image_stack lowPcClip highPcClip out i j.
  unfold normalization_to_8bit, rbind.
  destruct (np_percentile (data image_stack) lowPcClip) as [pl|];
    [|discriminate].
  destruct (np_percentile (data image_stack) (100 - highPcClip)) as [ph|];
    [|discriminate].
  intros [= <-] Hi Hj Hle. cbn [data].
  set (f := np_interp_0_255 (inject_Z (py_int pl)) (inject_Z (py_int ph))).
  rewrite (nth_indep _ 0%Z (py_int (f 0%Q))) by (now rewrite !length_map).
  rewrite (nth_indep _ 0%Z (py_int (f 0%Q)) (n := j))
    by (now rewrite !length_map).
  rewrite !map_map.
  rewrite (map_nth (fun x => py_int (f x))).
  rewrite (map_nth (fun x => py_int (f x))).
  rewrite !py_int_nonneg by apply np_interp_range.
  apply Qfloor_resp_le. now apply np_interp_monotone.
Qed.

(** * Further properties: the flow estimator *)

Section FlowFacts.
Variable calcOpticalFlowFarneback :
  ndarray fval -> ndarray fval -> FarnebackParams -> result (ndarray R).
Variable params : FarnebackParams.
Variables n h w : nat.
Variable med : ndarray fval.

Hypothesis med_shape : shape med = [S n; h; w].

(** The primitive answers every pair of frames with a flow of two
    components per pixel. *)
Hypothesis flow_shape :
  forall a b, shape a = [h; w] -> shape b = [h; w] ->
    exists f, calcOpticalFlowFarneback a b params = OK f
              /\ shape f = [h; w; 2]
              /\ length (data f) = size [h; w; 2].

Lemma getitem0_median_frame (i : nat) :
  i < S n ->
  exists a, getitem0 med i = OK a /\ shape a = [h; w].
Proof.
  intros Hi. unfold getitem0. rewrite med_shape.
  apply Nat.ltb_lt in Hi as ->. eexists. split; reflexivity.
Qed.

(** The loop of [doFarenbackFlow], started at pair [k0] with [m] pairs to
    go. *)
Lemma doFarenbackFlow_loop_spec :
  forall (m k0 : nat) (fl : ndarray R) (st : FarenbackAnalyzer * nat),
    k0 + m = n ->
    shape fl = [n; h; w; 2] ->
    length (data fl) = n * size [h; w; 2] ->
    flows (fst st) = Some fl ->
    exists fl' st',
      doFarenbackFlow_loop calcOpticalFlowFarneback med params n (seq k0 m)
        fl st = (OK fl', st')
      /\ shape fl' = [n; h; w; 2]
      /\ flows (fst st') = Some fl'
      /\ channel (fst st') = channel (fst st)
      /\ snd st' = snd st
      /\ (m = 0 -> progress (fst st') = progress (fst st))
      /\ (m <> 0 ->
          progress (fst st')
          = (100 * inject_Z (Z.of_nat (n - 1)) / inject_Z (Z.of_nat n))%Q)
      /\ (forall k j, k < k0 -> in_bounds [h; w; 2] j = true ->
            item 0%R fl' (k :: j) = item 0%R fl (k :: j))
      /\ (forall k, k0 <= k -> k < n ->
            exists a b f,
              getitem0 med k = OK a /\ getitem0 med (k + 1) = OK b
              /\ calcOpticalFlowFarneback a b params = OK f
              /\ forall j, in_bounds [h; w; 2] j = true ->
                   item 0%R fl' (k :: j) = item 0%R f j).
Proof.
  induction m as [|m IH]; intros k0 fl st Hk Hsh Hlen Hfl.
  - exists fl, st. cbn [seq doFarenbackFlow_loop]. unfold ret.
    repeat split; try assumption; try reflexivity; try congruence.
    intros; lia.
  - cbn [seq doFarenbackFlow_loop]. unfold bind, lift, modify.
    destruct (getitem0_median_frame k0) as (a & Ea & Hash); [lia|].
    destruct (getitem0_median_frame (k0 + 1)) as (b & Eb & Hbsh); [lia|].
    rewrite Ea, Eb.
    destruct (flow_shape a b Hash Hbsh) as (f & Ef & Hfsh & Hflen).
    rewrite Ef.
    assert (Hk0 : k0 < n) by lia.
    destruct (setitem0 0%R fl k0 f) as [fl1|e] eqn:Es.
    2:{ rewrite (setitem0_same_shape 0%R fl f n k0 [h; w; 2]) in Es
          by assumption. discriminate. }
    destruct (item_setitem0 0%R fl fl1 f n k0 [h; w; 2]
                Hsh Hk0 Hfsh Hlen Hflen Es)
      as (Hsh1 & _ & Hlen1 & Hsame & Hother).
    cbn [fst snd].
    destruct (IH (S k0) fl1
                (set_progress
                   (100 * inject_Z (Z.of_nat k0) / inject_Z (Z.of_nat n))%Q
                   (set_flows (Some fl1) (fst st)), snd st))
      as (fl' & st' & Hrun & Hsh' & Hfl' & Hch & Hd & Hp0 & Hp1 & Hlow
          & Hhigh); try assumption; try lia; try reflexivity.
    exists fl', st'. rewrite Hrun.
    split; [reflexivity|]. split; [exact Hsh'|]. split; [exact Hfl'|].
    split; [exact Hch|]. split; [exact Hd|]. split; [discriminate|]. split.
    + intros _. destruct m as [|m'].
      * rewrite (Hp0 eq_refl). cbn [progress set_progress fst].
        replace (n - 1) with k0 by lia. reflexivity.
      * apply Hp1. discriminate.
    + split.
      * intros k j Hkk Hj. rewrite Hlow by (try assumption; lia).
        apply Hother; [lia|lia|exact Hj].
      * intros k Hge Hlt.
        destruct (Nat.eq_dec k k0) as [->|Hne].
        -- exists a, b, f. repeat split; try assumption.
           intros j Hj. rewrite Hlow by (try assumption; lia).
           now apply Hsame.
        -- apply Hhigh; lia.
Qed.
End FlowFacts.

(** X23.  When the median filter (default arguments) gives a stack of
    n + 1 frames and the flow primitive answers each pair of frames with
    a field of two components per pixel, [doFarenbackFlow] returns and
    stores a flow field of n frames, frame [i] being the answer of the
    primitive on the median frames [i] and [i + 1].  The progress it
    leaves is 100 (n - 1) / n when n > 0, short of 100, and untouched
    when n = 0. *)
Theorem X23_doFarenbackFlow_one_flow_per_consecutive_pair :
  forall (calcOpticalFlowFarneback :
            ndarray fval -> ndarray fval -> FarnebackParams
            -> result (ndarray R))
         (gQ : Q) (gF : fval) (gR : R) (params : FarnebackParams)
         (self : FarenbackAnalyzer) (d d1 : nat) (c1 : Channel)
         (med : ndarray fval) (n h w : nat),
    getTemporalMedianFilterArray gQ gF 0 None 3 false (channel self, d)
    = (OK med, (c1, d1)) ->
    shape med = [S n; h; w] ->
    (forall a b, shape a = [h; w] -> shape b = [h; w] ->
       exists f, calcOpticalFlowFarneback a b params = OK f
                 /\ shape f = [h; w; 2]
                 /\ length (data f) = size [h; w; 2]) ->
    exists fl st',
      doFarenbackFlow calcOpticalFlowFarneback gQ gF gR params (self, d)
      = (OK fl, st')
      /\ shape fl = [n; h; w; 2]
      /\ flows (fst st') = Some fl
      /\ channel (fst st') = c1
      /\ snd st' = d1
      /\ (n = 0 -> progress (fst st') = progress self)
      /\ (n <> 0 ->
          progress (fst st')
          = (100 * inject_Z (Z.of_nat (n - 1)) / inject_Z (Z.of_nat n))%Q
          /\ (progress (fst st') < 100)%Q)
      /\ forall i, i < n ->
           exists a b f,
             getitem0 med i = OK a /\ getitem0 med (i + 1) = OK b
             /\ calcOpticalFlowFarneback a b params = OK f
             /\ forall j, in_bounds [h; w; 2] j = true ->
                  item 0%R fl (i :: j) = item 0%R f j.
Proof.
  intros bb gQ gF gR params self d d1 c1 med n h w Hmed Hsh Hbb.
  set (fl0 := np_empty float32 [n; h; w; 2] gR).
  destruct (doFarenbackFlow_loop_spec bb params n h w med Hsh Hbb n 0 fl0
              (set_flows (Some fl0) (set_channel c1 self), d1))
    as (fl & st' & Hrun & Hshf & Hfl & Hch & Hd & Hp0 & Hp1 & _ & Hval);
    try reflexivity.
  { unfold fl0, np_empty. cbn [data]. now rewrite repeat_length. }
  exists fl, st'.
  split.
  { unfold doFarenbackFlow, bind, on_channel, modify, raise. cbn [fst snd].
    rewrite Hmed, Hsh. cbn [Nat.eqb Nat.sub fst snd].
    rewrite Nat.sub_0_r. fold fl0. exact Hrun. }
  split; [exact Hshf|]. split; [exact Hfl|]. split; [exact Hch|].
  split; [exact Hd|]. split; [exact Hp0|]. split.
  - intros Hn. rewrite (Hp1 Hn). split; [reflexivity|].
    apply Qlt_shift_div_r.
    + change 0%Q with (inject_Z 0). rewrite <- Zlt_Qlt. lia.
    + apply Qmult_lt_l; [reflexivity|]. rewrite <- Zlt_Qlt. lia.
  - intros i Hi. apply Hval; lia.
Qed.

(** * Sample runs of the further properties *)

Lemma X1_witness :
  Channel_init 0 (ex_tif gamma_version [5; 7; 9]%Q [0; 1000; 2000]%Q) "Ch1" 0
  = OK ch_on_time
  /\ map Some (pages ch_on_time)
     = map (nth_error
              (tif_pages (ex_tif gamma_version [5; 7; 9]%Q [0; 1000; 2000]%Q)))
         (matching_pages (ex_tif gamma_version [5; 7; 9]%Q [0; 1000; 2000]%Q)
            0 0)
  /\ map ElapsedTime_ms (pages ch_on_time)
     = map Some (elapsedTimes_ms ch_on_time)
  /\ length (elapsedTimes_ms ch_on_time) = length (pages ch_on_time).
Proof.
  split; [reflexivity|].
  apply (X1_channel_pages_in_container_order
           (ex_tif gamma_version [5; 7; 9]%Q [0; 1000; 2000]%Q) 0 0 "Ch1"
           ch_on_time).
  reflexivity.
Defined.

Lemma X2_witness :
  _read_px_size_and_finteval (micromanager_metadata tif_unstamped)
  = OK (Some (1%Q, 1000%Q))
  /\ length (IndexMap_Slice (IndexMap (micromanager_metadata tif_unstamped)))
     = length (tif_pages tif_unstamped)
  /\ length (IndexMap_Channel (IndexMap (micromanager_metadata tif_unstamped)))
     = length (tif_pages tif_unstamped)
  /\ In 1 (matching_pages tif_unstamped 0 0)
  /\ nth_error (tif_pages tif_unstamped) 1
     = Some {| page_array := mk_ndarray uint16 [1; 1] [7%Q];
               ElapsedTime_ms := None |}
  /\ Channel_init 0 tif_unstamped "Ch1" 0 = Raise (KeyError "ElapsedTime-ms").
Proof.
  split; [reflexivity|]. split; [reflexivity|]. split; [reflexivity|].
  split; [right; left; reflexivity|]. split; [reflexivity|].
  apply (X2_unstamped_matching_page_is_a_KeyError tif_unstamped 0 0 "Ch1"
           1%Q 1000%Q 1
           {| page_array := mk_ndarray uint16 [1; 1] [7%Q];
              ElapsedTime_ms := None |}).
  - reflexivity.
  - reflexivity.
  - reflexivity.
  - right; left; reflexivity.
  - reflexivity.
  - reflexivity.
Defined.

Lemma X3_witness :
  actualFrameIntervals_ms ch_on_time = None
  /\ length (pages ch_on_time) <> 1
  /\ elapsedTimes_ms ch_on_time = [0; 1000; 2000]%Q
  /\ exists ivs,
      getActualFrameIntevals_ms ch_on_time = OK (Some ivs)
      /\ length ivs = 2
      /\ (fold_right Qplus 0 ivs == 2000 - 0)%Q.
Proof.
  split; [reflexivity|]. split; [discriminate|]. split; [reflexivity|].
  destruct (X3_actual_intervals_telescope ch_on_time 0%Q [1000; 2000]%Q)
    as (ivs & Hrun & Hlen & Hsum & _).
  - reflexivity.
  - discriminate.
  - reflexivity.
  - exists ivs. split; [exact Hrun|]. split; [exact Hlen|]. exact Hsum.
Defined.

Lemma X4_witness :
  actualFrameIntervals_ms ch_slow = None
  /\ length (pages ch_slow) <> 1
  /\ elapsedTimes_ms ch_slow = [0; 1200; 2400]%Q
  /\ ~ (finterval_ms ch_slow == 0)%Q
  /\ exists b,
      doFrameIntervalSanityCheck ch_slow default_maxDiff = OK (Some b)
      /\ (b = true <->
          (Qabs (1 - (2400 - 0) / inject_Z 2 / 1000) < default_maxDiff)%Q).
Proof.
  split; [reflexivity|]. split; [discriminate|]. split; [reflexivity|].
  split; [discriminate|].
  apply (X4_sanity_check_reads_first_and_last_stamp ch_slow 0%Q
           [1200; 2400]%Q default_maxDiff).
  - reflexivity.
  - discriminate.
  - reflexivity.
  - discriminate.
Defined.

Lemma X5_witness :
  length (pages ch_single) = 1
  /\ actualFrameIntervals_ms ch_single = None
  /\ doFrameIntervalSanityCheck ch_single default_maxDiff = OK None
  /\ getActualFrameIntevals_ms ch_single = OK None
  /\ FarenbackAnalyzer_init ch_single
     = (Raise (AttributeError "'NoneType' object has no attribute 'mean'"),
        ch_single).
Proof.
  split; [reflexivity|]. split; [reflexivity|].
  apply (X5_single_page_channel_has_no_analyzer ch_single default_maxDiff);
    reflexivity.
Defined.

Lemma X7_witness :
  actualFrameIntervals_ms ch_frozen = None
  /\ analyzeFiles_reconcile ch_frozen
     = (OK tt, snd (analyzeFiles_reconcile ch_frozen))
  /\ channel_scaler (snd (analyzeFiles_reconcile ch_frozen))
     = Some (Inf false)
  /\ (finterval_ms (snd (analyzeFiles_reconcile ch_frozen)) == 0)%Q
  /\ analyzeFiles_reconcile (snd (analyzeFiles_reconcile ch_frozen))
     = (OK tt, snd (analyzeFiles_reconcile ch_frozen))
  /\ doFrameIntervalSanityCheck (snd (analyzeFiles_reconcile ch_frozen))
       default_maxDiff
     = OK (Some false).
Proof.
  split; [reflexivity|]. split; [vm_compute; reflexivity|].
  split; [vm_compute; reflexivity|]. split; [vm_compute; reflexivity|].
  destruct (X7_reconciliation_is_idempotent ch_frozen
              (snd (analyzeFiles_reconcile ch_frozen)))
    as (Hidem & m & Hm & _ & Hchk).
  - reflexivity.
  - vm_compute. reflexivity.
  - split; [exact Hidem|].
    assert (Hm0 : Qeq_bool m 0 = true).
    { vm_compute in Hm. injection Hm as <-. reflexivity. }
    rewrite Hchk, Hm0. reflexivity.
Defined.

Lemma X8_witness :
  array ch_mixed = None
  /\ Width (Summary (tif_mm_metadata ch_mixed)) = Some 1
  /\ Height (Summary (tif_mm_metadata ch_mixed)) = Some 1
  /\ pages ch_mixed <> []
  /\ (forall p, In p (pages ch_mixed) ->
        shape (page_array p) = [1; 1]
        /\ length (data (page_array p)) = 1 * 1)
  /\ exists arr,
      getArray 0%Q (ch_mixed, 0) = (OK arr, (ch_mixed, 3))
      /\ shape arr = [2; 1; 1]
      /\ dtype arr = uint8
      /\ item 0%Q arr [0; 0; 0] = 5%Q
      /\ item 0%Q arr [1; 0; 0] = 44%Q.
Proof.
  assert (Hpages : forall p, In p (pages ch_mixed) ->
            shape (page_array p) = [1; 1]
            /\ length (data (page_array p)) = 1 * 1).
  { intros p [<- | [<- | []]]; split; reflexivity. }
  split; [reflexivity|]. split; [reflexivity|]. split; [reflexivity|].
  split; [discriminate|]. split; [exact Hpages|].
  destruct (X8_getArray_stacks_the_pages_in_order 0%Q ch_mixed 0 1 1
              eq_refl eq_refl eq_refl) as (arr & Hrun & Hsh & Hdt & Hitem).
  - discriminate.
  - exact Hpages.
  - specialize (Hdt _ eq_refl). cbn in Hdt.
    exists arr. split; [exact Hrun|]. split; [exact Hsh|].
    split; [exact Hdt|]. split.
    + rewrite (Hitem 0 _ 0 0 eq_refl) by lia. rewrite Hdt. reflexivity.
    + rewrite (Hitem 1 _ 0 0 eq_refl) by lia. rewrite Hdt. reflexivity.
Defined.

Lemma X9_witness :
  pages (ex_channel [] []) = []
  /\ array (ex_channel [] []) = None
  /\ medianArray (ex_channel [] []) = None
  /\ fails (fst (getArray 0%Q (ex_channel [] [], 0)))
  /\ fails (fst (getTemporalMedianFilterArray 0%Q NaN 0 None 3 false
                   (ex_channel [] [], 0))).
Proof.
  split; [reflexivity|]. split; [reflexivity|]. split; [reflexivity|].
  destruct (X9_empty_channel_cannot_be_materialised 0%Q NaN
              (ex_channel [] []) 0 eq_refl eq_refl eq_refl) as [Hget Hmed].
  split; [exact Hget|]. apply Hmed.
Defined.

Lemma X10_witness :
  array ch_wide = None
  /\ Width (Summary (tif_mm_metadata ch_wide)) = Some 3
  /\ Height (Summary (tif_mm_metadata ch_wide)) = Some 2
  /\ nth_error (pages ch_wide) 0 = Some (wide_page 0)
  /\ shape (page_array (wide_page 0)) = [2; 3]
  /\ 3 <> 2
  /\ fst (getArray 0%Q (ch_wide, 0))
     = Raise (ValueError "could not broadcast input array").
Proof.
  split; [reflexivity|]. split; [reflexivity|]. split; [reflexivity|].
  split; [reflexivity|]. split; [reflexivity|]. split; [lia|].
  apply (X10_getArray_rejects_images_that_are_not_square 0%Q ch_wide 0 3 2
           (wide_page 0)); try reflexivity.
  lia.
Defined.

Lemma X11_witness :
  getTemporalMedianFilterArray 0%Q NaN 0 None 3 false (ch_four, 0)
  = (OK (mk_ndarray float32 [2; 1; 1] [Num 7; Num 8]), (ch_four_filtered, 5))
  /\ size [2; 1; 1] <> 0
  /\ getTemporalMedianFilterArray 0%Q NaN 9 (Some 2%Z) 50 false
       (ch_four_filtered, 5)
     = (OK (mk_ndarray float32 [2; 1; 1] [Num 7; Num 8]),
        (ch_four_filtered, 5)).
Proof.
  split; [vm_compute; reflexivity|]. split; [discriminate|].
  apply (X11_stored_median_answers_later_calls 0%Q NaN (ch_four, 0)
           (ch_four_filtered, 5) 0 None 3 false
           (mk_ndarray float32 [2; 1; 1] [Num 7; Num 8])).
  - vm_compute. reflexivity.
  - discriminate.
Defined.


Lemma X13_witness :
  (medianArray ch_four = None \/ false = true)
  /\ array ch_four = None
  /\ fst (getArray 0%Q (ch_four, 0))
     = OK (mk_ndarray uint16 [4; 1; 1] [5; 9; 7; 8]%Q)
  /\ shape (mk_ndarray uint16 [4; 1; 1] [5; 9; 7; 8]%Q)
     = [length (pages ch_four); 1; 1]
  /\ (0 <= 0)%Z /\ (0 <= 3)%Z /\ Z.odd 3 = true
  /\ (0 < effective_stop ch_four None)%Z
  /\ (3 <= effective_stop ch_four None - 0)%Z
  /\ (forall i y x, i < length (pages ch_four) -> y < 1 -> x < 1 ->
        float32_exact
          (item 0%Q (mk_ndarray uint16 [4; 1; 1] [5; 9; 7; 8]%Q) [i; y; x]))
  /\ exists out st,
      getTemporalMedianFilterArray 0%Q NaN 0 None 3 false (ch_four, 0)
      = (OK out, st)
      /\ exists f q,
          f < 3
          /\ item NaN out [1; 0; 0] = Num q
          /\ (q == item 0 (mk_ndarray uint16 [4; 1; 1]%nat [5; 9; 7; 8])
                   [1 + f; 0; 0]%nat)%Q.
Proof.
  assert (Hex : forall i y x, i < length (pages ch_four) -> y < 1 -> x < 1 ->
            float32_exact
              (item 0%Q (mk_ndarray uint16 [4; 1; 1] [5; 9; 7; 8]%Q)
                 [i; y; x])).
  { intros i y x Hi Hy Hx.
    assert (y = 0) as -> by lia. assert (x = 0) as -> by lia.
    change (length (pages ch_four)) with 4 in Hi.
    destruct i as [|[|[|[|i]]]]; try lia;
      (eexists; split; [vm_compute; reflexivity|reflexivity]). }
  split; [now left|]. split; [reflexivity|]. split; [reflexivity|].
  split; [reflexivity|].
  split; [lia|]. split; [lia|]. split; [reflexivity|].
  split; [reflexivity|]. split; [discriminate|]. split; [exact Hex|].
  destruct (X13_odd_window_returns_input_samples 0%Q NaN ch_four 0 0 None
              3 false (mk_ndarray uint16 [4; 1; 1] [5; 9; 7; 8]%Q) 1 1)
    as (out & st & Hrun & Hsh & Hval).
  - now left.
  - reflexivity.
  - reflexivity.
  - reflexivity.
  - lia.
  - lia.
  - reflexivity.
  - reflexivity.
  - discriminate.
  - exact Hex.
  - exists out, st. split; [exact Hrun|].
    destruct (Hval 1 0 0) as (f & q & Hf & Hitem & Hq).
    + vm_compute. reflexivity.
    + lia.
    + lia.
    + exists f, q. split; [exact Hf|]. split; [exact Hitem|exact Hq].
Defined.

Lemma X14_witness :
  flows (analyzer_with ch_four_filtered 1 (Some flow_two_frames) None)
  = Some flow_two_frames
  /\ shape flow_two_frames = [2; 1; 1; 2]
  /\ exists out self' avg,
      doFlowsToSpeed (Some 1%Q) true false 10 None
        (analyzer_with ch_four_filtered 1 (Some flow_two_frames) None)
      = (OK out, self')
      /\ avg_speeds self' = Some avg
      /\ shape avg = [2]
      /\ data avg = map (frame_mean out 1 1) (seq 0 2)
      /\ fst (saveSpeedCSV self')
         = OK (combine (map (csv_time ch_four_filtered 3) (seq 0 2))
                 (data avg)).
Proof.
  split; [reflexivity|]. split; [reflexivity|].
  destruct (X14_avg_speeds_are_the_frame_means_of_the_csv
              (analyzer_with ch_four_filtered 1 (Some flow_two_frames) None)
              (Some 1%Q) 10 None flow_two_frames 2 1 1 eq_refl eq_refl)
    as (out & self' & avg & Hrun & Havg & Hsh & Hdata & Hcsv).
  exists out, self', avg.
  split; [exact Hrun|]. split; [exact Havg|]. split; [exact Hsh|].
  split; [exact Hdata|]. apply Hcsv. reflexivity.
Defined.

Lemma X15_witness :
  flows (analyzer_with ch_single 1
           (Some (mk_ndarray float32 [0; 1; 1; 2] [])) None)
  = Some (mk_ndarray float32 [0; 1; 1; 2] [])
  /\ shape (mk_ndarray float32 [0; 1; 1; 2] (@nil R)) = [0; 1; 1; 2]
  /\ (0 <= 10)%Z
  /\ (exists self',
        doFlowsToSpeed None false true 10 None
          (analyzer_with ch_single 1
             (Some (mk_ndarray float32 [0; 1; 1; 2] [])) None)
        = (Raise (ValueError "zero-size array to reduction operation maximum"),
           self'))
  /\ exists self',
      doFlowsToSpeed None false true 10 (Some (0%R, 1%R))
        (analyzer_with ch_single 1
           (Some (mk_ndarray float32 [0; 1; 1; 2] [])) None)
      = (Raise (UnboundLocalError "hist"), self').
Proof.
  split; [reflexivity|]. split; [reflexivity|]. split; [lia|].
  destruct (X15_histogram_of_an_empty_flow_field_fails
              (analyzer_with ch_single 1
                 (Some (mk_ndarray float32 [0; 1; 1; 2] [])) None)
              None false 10 (mk_ndarray float32 [0; 1; 1; 2] []) 1 1
              eq_refl eq_refl) as [(s1 & H1 & _) H2].
  split; [exists s1; exact H1|].
  destruct (H2 (0%R, 1%R)) as (s2 & H3 & _); [lia|].
  exists s2. exact H3.
Defined.

Lemma X16_witness :
  speeds (analyzer_with ch_on_time 1 None
            (Some (mk_ndarray float32 [1; 1; 2] [5; 7]%R)))
  = Some (mk_ndarray float32 [1; 1; 2] [5; 7]%R)
  /\ shape (mk_ndarray float32 [1; 1; 2] [5; 7]%R) = [1; 1; 2]
  /\ ~ (pxSize_um ch_on_time == 0)%Q
  /\ (pxSize_um ch_zero_pixel == 0)%Q
  /\ (exists written self' sp6,
        saveSpeedArray (analyzer_with ch_on_time 1 None
                          (Some (mk_ndarray float32 [1; 1; 2] [5; 7]%R)))
        = (OK written, self')
        /\ speeds self' = Some sp6
        /\ shape written = [1; 1; 1; 1; 2; 1]
        /\ item 0%R sp6 [0; 0; 0; 0; 1; 0] = 7%R
        /\ item 0%R written [0; 0; 0; 0; 1; 0] = 7%R)
  /\ exists self' sp6,
      saveSpeedArray (analyzer_with ch_zero_pixel 1 None
                        (Some (mk_ndarray float32 [1; 1; 2] [5; 7]%R)))
      = (Raise ZeroDivisionError, self')
      /\ speeds self' = Some sp6
      /\ shape sp6 = [1; 1; 1; 1; 2; 1].
Proof.
  split; [reflexivity|]. split; [reflexivity|]. split; [discriminate|].
  split; [reflexivity|]. split.
  - destruct (X16_saveSpeedArray_keeps_every_speed_in_place
                (analyzer_with ch_on_time 1 None
                   (Some (mk_ndarray float32 [1; 1; 2] [5; 7]%R)))
                (mk_ndarray float32 [1; 1; 2] [5; 7]%R) 1 1 2 eq_refl eq_refl)
      as (r & self' & sp6 & Hrun & Hsp & _ & Hitem & _ & Hok).
    destruct Hok as (written & -> & Hsh & _ & Hw); [discriminate|].
    exists written, self', sp6.
    split; [exact Hrun|]. split; [exact Hsp|]. split; [exact Hsh|].
    rewrite (Hitem 0 0 1), (Hw 0 0 1). split; reflexivity.
  - destruct (X16_saveSpeedArray_keeps_every_speed_in_place
                (analyzer_with ch_zero_pixel 1 None
                   (Some (mk_ndarray float32 [1; 1; 2] [5; 7]%R)))
                (mk_ndarray float32 [1; 1; 2] [5; 7]%R) 1 1 2 eq_refl eq_refl)
      as (r & self' & sp6 & Hrun & Hsp & Hsh & _ & Hzero & _).
    rewrite Hzero in Hrun by reflexivity.
    exists self', sp6. split; [exact Hrun|]. split; [exact Hsp|exact Hsh].
Defined.

Lemma X17_witness :
  speeds (analyzer_with ch_on_time 1 None
            (Some (mk_ndarray float32 [1; 1; 2] [5; 7]%R)))
  = Some (mk_ndarray float32 [1; 1; 2] [5; 7]%R)
  /\ shape (mk_ndarray float32 [1; 1; 2] [5; 7]%R) = [1; 1; 2]
  /\ 1 <> 0 /\ 1 * 2 <> 1
  /\ ~ (pxSize_um ch_on_time == 0)%Q
  /\ exists written self',
      saveSpeedArray (analyzer_with ch_on_time 1 None
                        (Some (mk_ndarray float32 [1; 1; 2] [5; 7]%R)))
      = (OK written, self')
      /\ saveSpeedArray self'
         = (Raise (ValueError "cannot reshape array"), self').
Proof.
  split; [reflexivity|]. split; [reflexivity|].
  split; [discriminate|]. split; [discriminate|]. split; [discriminate|].
  destruct (X17_second_saveSpeedArray_raises
              (analyzer_with ch_on_time 1 None
                 (Some (mk_ndarray float32 [1; 1; 2] [5; 7]%R)))
              (mk_ndarray float32 [1; 1; 2] [5; 7]%R) 1 1 2)
    as (r & self' & Hrun & Hok & Hagain).
  - reflexivity.
  - reflexivity.
  - discriminate.
  - discriminate.
  - destruct Hok as [written ->]; [discriminate|].
    exists written, self'. split; [exact Hrun|exact Hagain].
Defined.

Lemma X18_witness :
  rehapeDrawnFramesTo6d
    (set_drawnFrames (Some (mk_ndarray uint8 [1; 1; 2] [0; 255]%Z))
       (analyzer_with ch_on_time 1 None None))
  = (OK tt,
     set_drawnFrames (Some (mk_ndarray uint8 [1; 1; 1; 1; 2; 1] [0; 255]%Z))
       (analyzer_with ch_on_time 1 None None))
  /\ rehapeDrawnFramesTo6d
       (set_drawnFrames
          (Some (mk_ndarray uint8 [1; 1; 1; 1; 2; 1] [0; 255]%Z))
          (analyzer_with ch_on_time 1 None None))
     = (OK tt,
        set_drawnFrames
          (Some (mk_ndarray uint8 [1; 1; 1; 1; 2; 1] [0; 255]%Z))
          (analyzer_with ch_on_time 1 None None)).
Proof.
  split; [reflexivity|].
  apply (X18_rehapeDrawnFramesTo6d_is_idempotent
           (set_drawnFrames (Some (mk_ndarray uint8 [1; 1; 2] [0; 255]%Z))
              (analyzer_with ch_on_time 1 None None))).
  reflexivity.
Defined.

Lemma X19_witness :
  medianArray
    (set_medianArray (Some (mk_ndarray float32 [1; 1; 2] [Num 7; Num 8]))
       ch_on_time)
  = Some (mk_ndarray float32 [1; 1; 2] [Num 7; Num 8])
  /\ shape (mk_ndarray float32 [1; 1; 2] [Num 7; Num 8]) = [1; 1; 2]
  /\ 1 <> 0 /\ 1 * 2 <> 1
  /\ exists self' med6,
      rehapeMedianFramesTo6d
        (set_medianArray (Some (mk_ndarray float32 [1; 1; 2] [Num 7; Num 8]))
           ch_on_time)
      = (OK tt, self')
      /\ medianArray self' = Some med6
      /\ shape med6 = [1; 1; 1; 1; 2; 1]
      /\ item NaN med6 [0; 0; 0; 0; 1; 0] = Num 8
      /\ rehapeMedianFramesTo6d self'
         = (Raise (ValueError "cannot reshape array"), self').
Proof.
  split; [reflexivity|]. split; [reflexivity|].
  split; [discriminate|]. split; [discriminate|].
  destruct (X19_rehapeMedianFramesTo6d_once_only
              (set_medianArray
                 (Some (mk_ndarray float32 [1; 1; 2] [Num 7; Num 8]))
                 ch_on_time)
              (mk_ndarray float32 [1; 1; 2] [Num 7; Num 8]) 1 1 2
              eq_refl eq_refl)
    as (self' & med6 & Hrun & Hmed & Hsh & Hitem & Hagain).
  exists self', med6.
  split; [exact Hrun|]. split; [exact Hmed|]. split; [exact Hsh|].
  split; [rewrite (Hitem 0 0 1); reflexivity|].
  apply Hagain; discriminate.
Defined.

Lemma X20_witness :
  speeds (analyzer_with ch_on_time 1 None None) = None
  /\ saveSpeedCSV (analyzer_with ch_on_time 1 None None)
     = (Raise (AttributeError "'NoneType' object has no attribute 'shape'"),
        analyzer_with ch_on_time 1 None None)
  /\ speeds (analyzer_with ch_on_time 1 None
               (Some (mk_ndarray float32 [1; 1; 2] [5; 7]%R)))
     = Some (mk_ndarray float32 [1; 1; 2] [5; 7]%R)
  /\ shape (mk_ndarray float32 [1; 1; 2] [5; 7]%R) = [1; 1; 2]
  /\ frameSamplingInterval ch_on_time = None
  /\ saveSpeedCSV (analyzer_with ch_on_time 1 None
                     (Some (mk_ndarray float32 [1; 1; 2] [5; 7]%R)))
     = (Raise (TypeError "unsupported operand type(s) for -"),
        analyzer_with ch_on_time 1 None
          (Some (mk_ndarray float32 [1; 1; 2] [5; 7]%R))).
Proof.
  split; [reflexivity|]. split.
  - apply (X20_saveSpeedCSV_needs_speeds_and_a_sampling_interval
             (analyzer_with ch_on_time 1 None None)).
    reflexivity.
  - split; [reflexivity|]. split; [reflexivity|]. split; [reflexivity|].
    apply (proj2 (X20_saveSpeedCSV_needs_speeds_and_a_sampling_interval
                    (analyzer_with ch_on_time 1 None
                       (Some (mk_ndarray float32 [1; 1; 2] [5; 7]%R))))
             (mk_ndarray float32 [1; 1; 2] [5; 7]%R) 1 1 2);
      reflexivity.
Defined.

Lemma X21_witness :
  data (mk_ndarray uint16 [1; 1; 3] [10; 20; 30]%Q) <> []
  /\ (0 <= 0 <= 100)%Q
  /\ normalization_to_8bit (mk_ndarray uint16 [1; 1; 3] [10; 20; 30]%Q) 0 0
     = OK (mk_ndarray uint8 [1; 1; 3] [0; 127; 255]%Z)
  /\ (exists out,
        normalization_to_8bit (mk_ndarray uint16 [1; 1; 3] [10; 20; 30]%Q)
          0 0 = OK out)
  /\ Forall (fun z => (0 <= z <= 255)%Z) [0; 127; 255]%Z.
Proof.
  split; [discriminate|]. split; [split; discriminate|].
  split; [vm_compute; reflexivity|].
  destruct (X21_normalization_to_8bit_is_in_range
              (mk_ndarray uint16 [1; 1; 3] [10; 20; 30]%Q) 0%Q 0%Q)
    as [Hret Hrange].
  split.
  - apply Hret; [discriminate|split; discriminate|split; discriminate].
  - apply (Hrange (mk_ndarray uint8 [1; 1; 3] [0; 127; 255]%Z)).
    vm_compute. reflexivity.
Defined.

Lemma X22_witness :
  normalization_to_8bit (mk_ndarray uint16 [1; 1; 3] [30; 10; 20]%Q) 0 0
  = OK (mk_ndarray uint8 [1; 1; 3] [255; 0; 127]%Z)
  /\ 2 < length (data (mk_ndarray uint16 [1; 1; 3] [30; 10; 20]%Q))
  /\ 0 < length (data (mk_ndarray uint16 [1; 1; 3] [30; 10; 20]%Q))
  /\ (nth 2 (data (mk_ndarray uint16 [1; 1; 3]%nat [30; 10; 20])) 0
      <= nth 0 (data (mk_ndarray uint16 [1; 1; 3]%nat [30; 10; 20])) 0)%Q
  /\ (nth 2 [255; 0; 127] 0 <= nth 0 [255; 0; 127] 0)%Z.
Proof.
  split; [vm_compute; reflexivity|]. split; [simpl; lia|].
  split; [simpl; lia|]. split; [discriminate|].
  apply (X22_normalization_to_8bit_keeps_the_order
           (mk_ndarray uint16 [1; 1; 3] [30; 10; 20]%Q) 0%Q 0%Q
           (mk_ndarray uint8 [1; 1; 3] [255; 0; 127]%Z) 2 0).
  - vm_compute. reflexivity.
  - simpl. lia.
  - simpl. lia.
  - discriminate.
Defined.

Lemma X23_witness :
  getTemporalMedianFilterArray 0%Q NaN 0 None 3 false
    (channel (analyzer_with ch_four 1 None None), 0)
  = (OK (mk_ndarray float32 [2; 1; 1] [Num 7; Num 8]), (ch_four_filtered, 5))
  /\ shape (mk_ndarray float32 [2; 1; 1] [Num 7; Num 8]) = [2; 1; 1]
  /\ (forall a b, shape a = [1; 1] -> shape b = [1; 1] ->
        exists f, still_flow a b default_FarnebackParams = OK f
                  /\ shape f = [1; 1; 2]
                  /\ length (data f) = size [1; 1; 2])
  /\ exists fl st',
      doFarenbackFlow still_flow 0%Q NaN 0%R default_FarnebackParams
        (analyzer_with ch_four 1 None None, 0)
      = (OK fl, st')
      /\ shape fl = [1; 1; 1; 2]
      /\ flows (fst st') = Some fl
      /\ channel (fst st') = ch_four_filtered
      /\ snd st' = 5
      /\ (progress (fst st') == 0)%Q.
Proof.
  assert (Hflow : forall a b, shape a = [1; 1] -> shape b = [1; 1] ->
            exists f, still_flow a b default_FarnebackParams = OK f
                      /\ shape f = [1; 1; 2]
                      /\ length (data f) = size [1; 1; 2]).
  { intros a b Ha Hb. eexists. split; [reflexivity|].
    cbn [shape data still_flow]. rewrite Ha. split; reflexivity. }
  split; [vm_compute; reflexivity|]. split; [reflexivity|].
  split; [exact Hflow|].
  destruct (X23_doFarenbackFlow_one_flow_per_consecutive_pair still_flow
              0%Q NaN 0%R default_FarnebackParams
              (analyzer_with ch_four 1 None None) 0 5 ch_four_filtered
              (mk_ndarray float32 [2; 1; 1] [Num 7; Num 8]) 1 1 1)
    as (fl & st' & Hrun & Hsh & Hfl & Hch & Hd & _ & Hprog & _).
  - vm_compute. reflexivity.
  - reflexivity.
  - exact Hflow.
  - exists fl, st'. split; [exact Hrun|]. split; [exact Hsh|].
    split; [exact Hfl|]. split; [exact Hch|]. split; [exact Hd|].
    destruct Hprog as [-> _]; [discriminate|]. reflexivity.
Defined.
